(** * Roster resolution and archive synchronisation of chess_downloader

    Shallow embedding of the core of [src/teacher_gui.py]
    ([TeacherChessApp]) and of the overlapping parts of
    [src/chess_simple.py] ([ChessToolTabs]): pairing extraction with the
    regular expressions of the source, the tiered name resolver, the
    archive client with its cache, the per-pairing synchroniser and the
    batch loop.

    Python strings are lists of code points ([list N]); literals are
    written as Rocq strings holding UTF-8 and decoded with [py]. *)

From Stdlib Require Import String Ascii List Bool NArith ZArith QArith Lia.
Import ListNotations.
Open Scope bool_scope.

(* ------------------------------------------------------------------ *)
(** ** Python strings *)

Module PyStr.

Definition pystr := list N.

(** UTF-8 decoding of a Rocq string literal into code points. *)
Fixpoint utf8 (s : string) : pystr :=
  match s with
  | EmptyString => []
  | String a s1 =>
      let b := N_of_ascii a in
      if (b <? 128)%N then b :: utf8 s1
      else if (b <? 224)%N then
        match s1 with
        | String a2 s2 => ((b - 192) * 64 + (N_of_ascii a2 - 128))%N :: utf8 s2
        | EmptyString => [b]
        end
      else if (b <? 240)%N then
        match s1 with
        | String a2 (String a3 s3) =>
            ((b - 224) * 4096 + (N_of_ascii a2 - 128) * 64
             + (N_of_ascii a3 - 128))%N :: utf8 s3
        | _ => [b]
        end
      else
        match s1 with
        | String a2 (String a3 (String a4 s4)) =>
            ((b - 240) * 262144 + (N_of_ascii a2 - 128) * 4096
             + (N_of_ascii a3 - 128) * 64 + (N_of_ascii a4 - 128))%N :: utf8 s4
        | _ => [b]
        end
  end.

Definition py (s : string) : pystr := utf8 s.

Fixpoint seqb (a b : pystr) : bool :=
  match a, b with
  | [], [] => true
  | x :: a', y :: b' => N.eqb x y && seqb a' b'
  | _, _ => false
  end.

Definition inb (x : N) (l : list N) : bool := existsb (N.eqb x) l.

(** [str.isspace] / regex [\s] on [str] patterns. *)
Definition is_space (c : N) : bool :=
  ((9 <=? c) && (c <=? 13))%N || ((28 <=? c) && (c <=? 32))%N
  || inb c [133; 160; 5760; 8232; 8233; 8239; 8287; 12288]%N
  || ((8192 <=? c) && (c <=? 8202))%N.

(** *** Unicode character data

    The tables below are those of the Unicode 14.0.0 character database
    that Python 3.11 ships, as sorted lists of disjoint ranges. *)

(** Code points [c] with [chr(c).isalnum()], as sorted ranges. *)
Definition alnum_ranges : list (N * N) :=
  [(48, 57); (65, 90); (97, 122); (170, 170); (178, 179); (181, 181);
   (185, 186); (188, 190); (192, 214); (216, 246); (248, 705); (710, 721);
   (736, 740); (748, 748); (750, 750); (880, 884); (886, 887); (890, 893);
   (895, 895); (902, 902); (904, 906); (908, 908); (910, 929); (931, 1013);
   (1015, 1153); (1162, 1327); (1329, 1366); (1369, 1369); (1376, 1416);
   (1488, 1514); (1519, 1522); (1568, 1610); (1632, 1641); (1646, 1647);
   (1649, 1747); (1749, 1749); (1765, 1766); (1774, 1788); (1791, 1791);
   (1808, 1808); (1810, 1839); (1869, 1957); (1969, 1969); (1984, 2026);
   (2036, 2037); (2042, 2042); (2048, 2069); (2074, 2074); (2084, 2084);
   (2088, 2088); (2112, 2136); (2144, 2154); (2160, 2183); (2185, 2190);
   (2208, 2249); (2308, 2361); (2365, 2365); (2384, 2384); (2392, 2401);
   (2406, 2415); (2417, 2432); (2437, 2444); (2447, 2448); (2451, 2472);
   (2474, 2480); (2482, 2482); (2486, 2489); (2493, 2493); (2510, 2510);
   (2524, 2525); (2527, 2529); (2534, 2545); (2548, 2553); (2556, 2556);
   (2565, 2570); (2575, 2576); (2579, 2600); (2602, 2608); (2610, 2611);
   (2613, 2614); (2616, 2617); (2649, 2652); (2654, 2654); (2662, 2671);
   (2674, 2676); (2693, 2701); (2703, 2705); (2707, 2728); (2730, 2736);
   (2738, 2739); (2741, 2745); (2749, 2749); (2768, 2768); (2784, 2785);
   (2790, 2799); (2809, 2809); (2821, 2828); (2831, 2832); (2835, 2856);
   (2858, 2864); (2866, 2867); (2869, 2873); (2877, 2877); (2908, 2909);
   (2911, 2913); (2918, 2927); (2929, 2935); (2947, 2947); (2949, 2954);
   (2958, 2960); (2962, 2965); (2969, 2970); (2972, 2972); (2974, 2975);
   (2979, 2980); (2984, 2986); (2990, 3001); (3024, 3024); (3046, 3058);
   (3077, 3084); (3086, 3088); (3090, 3112); (3114, 3129); (3133, 3133);
   (3160, 3162); (3165, 3165); (3168, 3169); (3174, 3183); (3192, 3198);
   (3200, 3200); (3205, 3212); (3214, 3216); (3218, 3240); (3242, 3251);
   (3253, 3257); (3261, 3261); (3293, 3294); (3296, 3297); (3302, 3311);
   (3313, 3314); (3332, 3340); (3342, 3344); (3346, 3386); (3389, 3389);
   (3406, 3406); (3412, 3414); (3416, 3425); (3430, 3448); (3450, 3455);
   (3461, 3478); (3482, 3505); (3507, 3515); (3517, 3517); (3520, 3526);
   (3558, 3567); (3585, 3632); (3634, 3635); (3648, 3654); (3664, 3673);
   (3713, 3714); (3716, 3716); (3718, 3722); (3724, 3747); (3749, 3749);
   (3751, 3760); (3762, 3763); (3773, 3773); (3776, 3780); (3782, 3782);
   (3792, 3801); (3804, 3807); (3840, 3840); (3872, 3891); (3904, 3911);
   (3913, 3948); (3976, 3980); (4096, 4138); (4159, 4169); (4176, 4181);
   (4186, 4189); (4193, 4193); (4197, 4198); (4206, 4208); (4213, 4225);
   (4238, 4238); (4240, 4249); (4256, 4293); (4295, 4295); (4301, 4301);
   (4304, 4346); (4348, 4680); (4682, 4685); (4688, 4694); (4696, 4696);
   (4698, 4701); (4704, 4744); (4746, 4749); (4752, 4784); (4786, 4789);
   (4792, 4798); (4800, 4800); (4802, 4805); (4808, 4822); (4824, 4880);
   (4882, 4885); (4888, 4954); (4969, 4988); (4992, 5007); (5024, 5109);
   (5112, 5117); (5121, 5740); (5743, 5759); (5761, 5786); (5792, 5866);
   (5870, 5880); (5888, 5905); (5919, 5937); (5952, 5969); (5984, 5996);
   (5998, 6000); (6016, 6067); (6103, 6103); (6108, 6108); (6112, 6121);
   (6128, 6137); (6160, 6169); (6176, 6264); (6272, 6276); (6279, 6312);
   (6314, 6314); (6320, 6389); (6400, 6430); (6470, 6509); (6512, 6516);
   (6528, 6571); (6576, 6601); (6608, 6618); (6656, 6678); (6688, 6740);
   (6784, 6793); (6800, 6809); (6823, 6823); (6917, 6963); (6981, 6988);
   (6992, 7001); (7043, 7072); (7086, 7141); (7168, 7203); (7232, 7241);
   (7245, 7293); (7296, 7304); (7312, 7354); (7357, 7359); (7401, 7404);
   (7406, 7411); (7413, 7414); (7418, 7418); (7424, 7615); (7680, 7957);
   (7960, 7965); (7968, 8005); (8008, 8013); (8016, 8023); (8025, 8025);
   (8027, 8027); (8029, 8029); (8031, 8061); (8064, 8116); (8118, 8124);
   (8126, 8126); (8130, 8132); (8134, 8140); (8144, 8147); (8150, 8155);
   (8160, 8172); (8178, 8180); (8182, 8188); (8304, 8305); (8308, 8313);
   (8319, 8329); (8336, 8348); (8450, 8450); (8455, 8455); (8458, 8467);
   (8469, 8469); (8473, 8477); (8484, 8484); (8486, 8486); (8488, 8488);
   (8490, 8493); (8495, 8505); (8508, 8511); (8517, 8521); (8526, 8526);
   (8528, 8585); (9312, 9371); (9450, 9471); (10102, 10131); (11264, 11492);
   (11499, 11502); (11506, 11507); (11517, 11517); (11520, 11557);
   (11559, 11559); (11565, 11565); (11568, 11623); (11631, 11631);
   (11648, 11670); (11680, 11686); (11688, 11694); (11696, 11702);
   (11704, 11710); (11712, 11718); (11720, 11726); (11728, 11734);
   (11736, 11742); (11823, 11823); (12293, 12295); (12321, 12329);
   (12337, 12341); (12344, 12348); (12353, 12438); (12445, 12447);
   (12449, 12538); (12540, 12543); (12549, 12591); (12593, 12686);
   (12690, 12693); (12704, 12735); (12784, 12799); (12832, 12841);
   (12872, 12879); (12881, 12895); (12928, 12937); (12977, 12991);
   (13312, 19903); (19968, 42124); (42192, 42237); (42240, 42508);
   (42512, 42539); (42560, 42606); (42623, 42653); (42656, 42735);
   (42775, 42783); (42786, 42888); (42891, 42954); (42960, 42961);
   (42963, 42963); (42965, 42969); (42994, 43009); (43011, 43013);
   (43015, 43018); (43020, 43042); (43056, 43061); (43072, 43123);
   (43138, 43187); (43216, 43225); (43250, 43255); (43259, 43259);
   (43261, 43262); (43264, 43301); (43312, 43334); (43360, 43388);
   (43396, 43442); (43471, 43481); (43488, 43492); (43494, 43518);
   (43520, 43560); (43584, 43586); (43588, 43595); (43600, 43609);
   (43616, 43638); (43642, 43642); (43646, 43695); (43697, 43697);
   (43701, 43702); (43705, 43709); (43712, 43712); (43714, 43714);
   (43739, 43741); (43744, 43754); (43762, 43764); (43777, 43782);
   (43785, 43790); (43793, 43798); (43808, 43814); (43816, 43822);
   (43824, 43866); (43868, 43881); (43888, 44002); (44016, 44025);
   (44032, 55203); (55216, 55238); (55243, 55291); (63744, 64109);
   (64112, 64217); (64256, 64262); (64275, 64279); (64285, 64285);
   (64287, 64296); (64298, 64310); (64312, 64316); (64318, 64318);
   (64320, 64321); (64323, 64324); (64326, 64433); (64467, 64829);
   (64848, 64911); (64914, 64967); (65008, 65019); (65136, 65140);
   (65142, 65276); (65296, 65305); (65313, 65338); (65345, 65370);
   (65382, 65470); (65474, 65479); (65482, 65487); (65490, 65495);
   (65498, 65500); (65536, 65547); (65549, 65574); (65576, 65594);
   (65596, 65597); (65599, 65613); (65616, 65629); (65664, 65786);
   (65799, 65843); (65856, 65912); (65930, 65931); (66176, 66204);
   (66208, 66256); (66273, 66299); (66304, 66339); (66349, 66378);
   (66384, 66421); (66432, 66461); (66464, 66499); (66504, 66511);
   (66513, 66517); (66560, 66717); (66720, 66729); (66736, 66771);
   (66776, 66811); (66816, 66855); (66864, 66915); (66928, 66938);
   (66940, 66954); (66956, 66962); (66964, 66965); (66967, 66977);
   (66979, 66993); (66995, 67001); (67003, 67004); (67072, 67382);
   (67392, 67413); (67424, 67431); (67456, 67461); (67463, 67504);
   (67506, 67514); (67584, 67589); (67592, 67592); (67594, 67637);
   (67639, 67640); (67644, 67644); (67647, 67669); (67672, 67702);
   (67705, 67742); (67751, 67759); (67808, 67826); (67828, 67829);
   (67835, 67867); (67872, 67897); (67968, 68023); (68028, 68047);
   (68050, 68096); (68112, 68115); (68117, 68119); (68121, 68149);
   (68160, 68168); (68192, 68222); (68224, 68255); (68288, 68295);
   (68297, 68324); (68331, 68335); (68352, 68405); (68416, 68437);
   (68440, 68466); (68472, 68497); (68521, 68527); (68608, 68680);
   (68736, 68786); (68800, 68850); (68858, 68899); (68912, 68921);
   (69216, 69246); (69248, 69289); (69296, 69297); (69376, 69415);
   (69424, 69445); (69457, 69460); (69488, 69505); (69552, 69579);
   (69600, 69622); (69635, 69687); (69714, 69743); (69745, 69746);
   (69749, 69749); (69763, 69807); (69840, 69864); (69872, 69881);
   (69891, 69926); (69942, 69951); (69956, 69956); (69959, 69959);
   (69968, 70002); (70006, 70006); (70019, 70066); (70081, 70084);
   (70096, 70106); (70108, 70108); (70113, 70132); (70144, 70161);
   (70163, 70187); (70272, 70278); (70280, 70280); (70282, 70285);
   (70287, 70301); (70303, 70312); (70320, 70366); (70384, 70393);
   (70405, 70412); (70415, 70416); (70419, 70440); (70442, 70448);
   (70450, 70451); (70453, 70457); (70461, 70461); (70480, 70480);
   (70493, 70497); (70656, 70708); (70727, 70730); (70736, 70745);
   (70751, 70753); (70784, 70831); (70852, 70853); (70855, 70855);
   (70864, 70873); (71040, 71086); (71128, 71131); (71168, 71215);
   (71236, 71236); (71248, 71257); (71296, 71338); (71352, 71352);
   (71360, 71369); (71424, 71450); (71472, 71483); (71488, 71494);
   (71680, 71723); (71840, 71922); (71935, 71942); (71945, 71945);
   (71948, 71955); (71957, 71958); (71960, 71983); (71999, 71999);
   (72001, 72001); (72016, 72025); (72096, 72103); (72106, 72144);
   (72161, 72161); (72163, 72163); (72192, 72192); (72203, 72242);
   (72250, 72250); (72272, 72272); (72284, 72329); (72349, 72349);
   (72368, 72440); (72704, 72712); (72714, 72750); (72768, 72768);
   (72784, 72812); (72818, 72847); (72960, 72966); (72968, 72969);
   (72971, 73008); (73030, 73030); (73040, 73049); (73056, 73061);
   (73063, 73064); (73066, 73097); (73112, 73112); (73120, 73129);
   (73440, 73458); (73648, 73648); (73664, 73684); (73728, 74649);
   (74752, 74862); (74880, 75075); (77712, 77808); (77824, 78894);
   (82944, 83526); (92160, 92728); (92736, 92766); (92768, 92777);
   (92784, 92862); (92864, 92873); (92880, 92909); (92928, 92975);
   (92992, 92995); (93008, 93017); (93019, 93025); (93027, 93047);
   (93053, 93071); (93760, 93846); (93952, 94026); (94032, 94032);
   (94099, 94111); (94176, 94177); (94179, 94179); (94208, 100343);
   (100352, 101589); (101632, 101640); (110576, 110579); (110581, 110587);
   (110589, 110590); (110592, 110882); (110928, 110930); (110948, 110951);
   (110960, 111355); (113664, 113770); (113776, 113788); (113792, 113800);
   (113808, 113817); (119520, 119539); (119648, 119672); (119808, 119892);
   (119894, 119964); (119966, 119967); (119970, 119970); (119973, 119974);
   (119977, 119980); (119982, 119993); (119995, 119995); (119997, 120003);
   (120005, 120069); (120071, 120074); (120077, 120084); (120086, 120092);
   (120094, 120121); (120123, 120126); (120128, 120132); (120134, 120134);
   (120138, 120144); (120146, 120485); (120488, 120512); (120514, 120538);
   (120540, 120570); (120572, 120596); (120598, 120628); (120630, 120654);
   (120656, 120686); (120688, 120712); (120714, 120744); (120746, 120770);
   (120772, 120779); (120782, 120831); (122624, 122654); (123136, 123180);
   (123191, 123197); (123200, 123209); (123214, 123214); (123536, 123565);
   (123584, 123627); (123632, 123641); (124896, 124902); (124904, 124907);
   (124909, 124910); (124912, 124926); (124928, 125124); (125127, 125135);
   (125184, 125251); (125259, 125259); (125264, 125273); (126065, 126123);
   (126125, 126127); (126129, 126132); (126209, 126253); (126255, 126269);
   (126464, 126467); (126469, 126495); (126497, 126498); (126500, 126500);
   (126503, 126503); (126505, 126514); (126516, 126519); (126521, 126521);
   (126523, 126523); (126530, 126530); (126535, 126535); (126537, 126537);
   (126539, 126539); (126541, 126543); (126545, 126546); (126548, 126548);
   (126551, 126551); (126553, 126553); (126555, 126555); (126557, 126557);
   (126559, 126559); (126561, 126562); (126564, 126564); (126567, 126570);
   (126572, 126578); (126580, 126583); (126585, 126588); (126590, 126590);
   (126592, 126601); (126603, 126619); (126625, 126627); (126629, 126633);
   (126635, 126651); (127232, 127244); (130032, 130041); (131072, 173791);
   (173824, 177976); (177984, 178205); (178208, 183969); (183984, 191456);
   (194560, 195101); (196608, 201546)]%N.

(** Code points of category Nd ([chr(c).isdecimal()]). *)
Definition decimal_ranges : list (N * N) :=
  [(48, 57); (1632, 1641); (1776, 1785); (1984, 1993); (2406, 2415);
   (2534, 2543); (2662, 2671); (2790, 2799); (2918, 2927); (3046, 3055);
   (3174, 3183); (3302, 3311); (3430, 3439); (3558, 3567); (3664, 3673);
   (3792, 3801); (3872, 3881); (4160, 4169); (4240, 4249); (6112, 6121);
   (6160, 6169); (6470, 6479); (6608, 6617); (6784, 6793); (6800, 6809);
   (6992, 7001); (7088, 7097); (7232, 7241); (7248, 7257); (42528, 42537);
   (43216, 43225); (43264, 43273); (43472, 43481); (43504, 43513);
   (43600, 43609); (44016, 44025); (65296, 65305); (66720, 66729);
   (68912, 68921); (69734, 69743); (69872, 69881); (69942, 69951);
   (70096, 70105); (70384, 70393); (70736, 70745); (70864, 70873);
   (71248, 71257); (71360, 71369); (71472, 71481); (71904, 71913);
   (72016, 72025); (72784, 72793); (73040, 73049); (73120, 73129);
   (92768, 92777); (92864, 92873); (93008, 93017); (120782, 120831);
   (123200, 123209); (123632, 123641); (125264, 125273); (130032, 130041)]%N.

(** Code points [c] with [chr(c).isdigit()]. *)
Definition digit_ranges : list (N * N) :=
  [(48, 57); (178, 179); (185, 185); (1632, 1641); (1776, 1785);
   (1984, 1993); (2406, 2415); (2534, 2543); (2662, 2671); (2790, 2799);
   (2918, 2927); (3046, 3055); (3174, 3183); (3302, 3311); (3430, 3439);
   (3558, 3567); (3664, 3673); (3792, 3801); (3872, 3881); (4160, 4169);
   (4240, 4249); (4969, 4977); (6112, 6121); (6160, 6169); (6470, 6479);
   (6608, 6618); (6784, 6793); (6800, 6809); (6992, 7001); (7088, 7097);
   (7232, 7241); (7248, 7257); (8304, 8304); (8308, 8313); (8320, 8329);
   (9312, 9320); (9332, 9340); (9352, 9360); (9450, 9450); (9461, 9469);
   (9471, 9471); (10102, 10110); (10112, 10120); (10122, 10130);
   (42528, 42537); (43216, 43225); (43264, 43273); (43472, 43481);
   (43504, 43513); (43600, 43609); (44016, 44025); (65296, 65305);
   (66720, 66729); (68160, 68163); (68912, 68921); (69216, 69224);
   (69714, 69722); (69734, 69743); (69872, 69881); (69942, 69951);
   (70096, 70105); (70384, 70393); (70736, 70745); (70864, 70873);
   (71248, 71257); (71360, 71369); (71472, 71481); (71904, 71913);
   (72016, 72025); (72784, 72793); (73040, 73049); (73120, 73129);
   (92768, 92777); (92864, 92873); (93008, 93017); (120782, 120831);
   (123200, 123209); (123632, 123641); (125264, 125273); (127232, 127242);
   (130032, 130041)]%N.

(** Simple lower-case mapping: [(lo, hi, step, t)] sends [lo + k*step] (up to [hi]) to [t + k*step]. *)
Definition lower_map : list (N * N * N * N) :=
  [(65, 90, 1, 97); (192, 214, 1, 224); (216, 222, 1, 248);
   (256, 302, 2, 257); (304, 304, 1, 105); (306, 310, 2, 307);
   (313, 327, 2, 314); (330, 374, 2, 331); (376, 376, 1, 255);
   (377, 381, 2, 378); (385, 385, 1, 595); (386, 388, 2, 387);
   (390, 390, 1, 596); (391, 391, 1, 392); (393, 394, 1, 598);
   (395, 395, 1, 396); (398, 398, 1, 477); (399, 399, 1, 601);
   (400, 400, 1, 603); (401, 401, 1, 402); (403, 403, 1, 608);
   (404, 404, 1, 611); (406, 406, 1, 617); (407, 407, 1, 616);
   (408, 408, 1, 409); (412, 412, 1, 623); (413, 413, 1, 626);
   (415, 415, 1, 629); (416, 420, 2, 417); (422, 422, 1, 640);
   (423, 423, 1, 424); (425, 425, 1, 643); (428, 428, 1, 429);
   (430, 430, 1, 648); (431, 431, 1, 432); (433, 434, 1, 650);
   (435, 437, 2, 436); (439, 439, 1, 658); (440, 440, 1, 441);
   (444, 444, 1, 445); (452, 452, 1, 454); (453, 453, 1, 454);
   (455, 455, 1, 457); (456, 456, 1, 457); (458, 458, 1, 460);
   (459, 475, 2, 460); (478, 494, 2, 479); (497, 497, 1, 499);
   (498, 500, 2, 499); (502, 502, 1, 405); (503, 503, 1, 447);
   (504, 542, 2, 505); (544, 544, 1, 414); (546, 562, 2, 547);
   (570, 570, 1, 11365); (571, 571, 1, 572); (573, 573, 1, 410);
   (574, 574, 1, 11366); (577, 577, 1, 578); (579, 579, 1, 384);
   (580, 580, 1, 649); (581, 581, 1, 652); (582, 590, 2, 583);
   (880, 882, 2, 881); (886, 886, 1, 887); (895, 895, 1, 1011);
   (902, 902, 1, 940); (904, 906, 1, 941); (908, 908, 1, 972);
   (910, 911, 1, 973); (913, 929, 1, 945); (931, 939, 1, 963);
   (975, 975, 1, 983); (984, 1006, 2, 985); (1012, 1012, 1, 952);
   (1015, 1015, 1, 1016); (1017, 1017, 1, 1010); (1018, 1018, 1, 1019);
   (1021, 1023, 1, 891); (1024, 1039, 1, 1104); (1040, 1071, 1, 1072);
   (1120, 1152, 2, 1121); (1162, 1214, 2, 1163); (1216, 1216, 1, 1231);
   (1217, 1229, 2, 1218); (1232, 1326, 2, 1233); (1329, 1366, 1, 1377);
   (4256, 4293, 1, 11520); (4295, 4295, 1, 11559); (4301, 4301, 1, 11565);
   (5024, 5103, 1, 43888); (5104, 5109, 1, 5112); (7312, 7354, 1, 4304);
   (7357, 7359, 1, 4349); (7680, 7828, 2, 7681); (7838, 7838, 1, 223);
   (7840, 7934, 2, 7841); (7944, 7951, 1, 7936); (7960, 7965, 1, 7952);
   (7976, 7983, 1, 7968); (7992, 7999, 1, 7984); (8008, 8013, 1, 8000);
   (8025, 8031, 2, 8017); (8040, 8047, 1, 8032); (8072, 8079, 1, 8064);
   (8088, 8095, 1, 8080); (8104, 8111, 1, 8096); (8120, 8121, 1, 8112);
   (8122, 8123, 1, 8048); (8124, 8124, 1, 8115); (8136, 8139, 1, 8050);
   (8140, 8140, 1, 8131); (8152, 8153, 1, 8144); (8154, 8155, 1, 8054);
   (8168, 8169, 1, 8160); (8170, 8171, 1, 8058); (8172, 8172, 1, 8165);
   (8184, 8185, 1, 8056); (8186, 8187, 1, 8060); (8188, 8188, 1, 8179);
   (8486, 8486, 1, 969); (8490, 8490, 1, 107); (8491, 8491, 1, 229);
   (8498, 8498, 1, 8526); (8544, 8559, 1, 8560); (8579, 8579, 1, 8580);
   (9398, 9423, 1, 9424); (11264, 11311, 1, 11312); (11360, 11360, 1, 11361);
   (11362, 11362, 1, 619); (11363, 11363, 1, 7549); (11364, 11364, 1, 637);
   (11367, 11371, 2, 11368); (11373, 11373, 1, 593); (11374, 11374, 1, 625);
   (11375, 11375, 1, 592); (11376, 11376, 1, 594); (11378, 11378, 1, 11379);
   (11381, 11381, 1, 11382); (11390, 11391, 1, 575);
   (11392, 11490, 2, 11393); (11499, 11501, 2, 11500);
   (11506, 11506, 1, 11507); (42560, 42604, 2, 42561);
   (42624, 42650, 2, 42625); (42786, 42798, 2, 42787);
   (42802, 42862, 2, 42803); (42873, 42875, 2, 42874);
   (42877, 42877, 1, 7545); (42878, 42886, 2, 42879);
   (42891, 42891, 1, 42892); (42893, 42893, 1, 613);
   (42896, 42898, 2, 42897); (42902, 42920, 2, 42903);
   (42922, 42922, 1, 614); (42923, 42923, 1, 604); (42924, 42924, 1, 609);
   (42925, 42925, 1, 620); (42926, 42926, 1, 618); (42928, 42928, 1, 670);
   (42929, 42929, 1, 647); (42930, 42930, 1, 669); (42931, 42931, 1, 43859);
   (42932, 42946, 2, 42933); (42948, 42948, 1, 42900);
   (42949, 42949, 1, 642); (42950, 42950, 1, 7566); (42951, 42953, 2, 42952);
   (42960, 42960, 1, 42961); (42966, 42968, 2, 42967);
   (42997, 42997, 1, 42998); (65313, 65338, 1, 65345);
   (66560, 66599, 1, 66600); (66736, 66771, 1, 66776);
   (66928, 66938, 1, 66967); (66940, 66954, 1, 66979);
   (66956, 66962, 1, 66995); (66964, 66965, 1, 67003);
   (68736, 68786, 1, 68800); (71840, 71871, 1, 71872);
   (93760, 93791, 1, 93792); (125184, 125217, 1, 125218)]%N.

(** Upper-case mapping of the code points whose [c.upper()] is one character, in the same form. *)
Definition upper_map : list (N * N * N * N) :=
  [(97, 122, 1, 65); (181, 181, 1, 924); (224, 246, 1, 192);
   (248, 254, 1, 216); (255, 255, 1, 376); (257, 303, 2, 256);
   (305, 305, 1, 73); (307, 311, 2, 306); (314, 328, 2, 313);
   (331, 375, 2, 330); (378, 382, 2, 377); (383, 383, 1, 83);
   (384, 384, 1, 579); (387, 389, 2, 386); (392, 392, 1, 391);
   (396, 396, 1, 395); (402, 402, 1, 401); (405, 405, 1, 502);
   (409, 409, 1, 408); (410, 410, 1, 573); (414, 414, 1, 544);
   (417, 421, 2, 416); (424, 424, 1, 423); (429, 429, 1, 428);
   (432, 432, 1, 431); (436, 438, 2, 435); (441, 441, 1, 440);
   (445, 445, 1, 444); (447, 447, 1, 503); (453, 453, 1, 452);
   (454, 454, 1, 452); (456, 456, 1, 455); (457, 457, 1, 455);
   (459, 459, 1, 458); (460, 460, 1, 458); (462, 476, 2, 461);
   (477, 477, 1, 398); (479, 495, 2, 478); (498, 498, 1, 497);
   (499, 499, 1, 497); (501, 501, 1, 500); (505, 543, 2, 504);
   (547, 563, 2, 546); (572, 572, 1, 571); (575, 576, 1, 11390);
   (578, 578, 1, 577); (583, 591, 2, 582); (592, 592, 1, 11375);
   (593, 593, 1, 11373); (594, 594, 1, 11376); (595, 595, 1, 385);
   (596, 596, 1, 390); (598, 599, 1, 393); (601, 601, 1, 399);
   (603, 603, 1, 400); (604, 604, 1, 42923); (608, 608, 1, 403);
   (609, 609, 1, 42924); (611, 611, 1, 404); (613, 613, 1, 42893);
   (614, 614, 1, 42922); (616, 616, 1, 407); (617, 617, 1, 406);
   (618, 618, 1, 42926); (619, 619, 1, 11362); (620, 620, 1, 42925);
   (623, 623, 1, 412); (625, 625, 1, 11374); (626, 626, 1, 413);
   (629, 629, 1, 415); (637, 637, 1, 11364); (640, 640, 1, 422);
   (642, 642, 1, 42949); (643, 643, 1, 425); (647, 647, 1, 42929);
   (648, 648, 1, 430); (649, 649, 1, 580); (650, 651, 1, 433);
   (652, 652, 1, 581); (658, 658, 1, 439); (669, 669, 1, 42930);
   (670, 670, 1, 42928); (837, 837, 1, 921); (881, 883, 2, 880);
   (887, 887, 1, 886); (891, 893, 1, 1021); (940, 940, 1, 902);
   (941, 943, 1, 904); (945, 961, 1, 913); (962, 962, 1, 931);
   (963, 971, 1, 931); (972, 972, 1, 908); (973, 974, 1, 910);
   (976, 976, 1, 914); (977, 977, 1, 920); (981, 981, 1, 934);
   (982, 982, 1, 928); (983, 983, 1, 975); (985, 1007, 2, 984);
   (1008, 1008, 1, 922); (1009, 1009, 1, 929); (1010, 1010, 1, 1017);
   (1011, 1011, 1, 895); (1013, 1013, 1, 917); (1016, 1016, 1, 1015);
   (1019, 1019, 1, 1018); (1072, 1103, 1, 1040); (1104, 1119, 1, 1024);
   (1121, 1153, 2, 1120); (1163, 1215, 2, 1162); (1218, 1230, 2, 1217);
   (1231, 1231, 1, 1216); (1233, 1327, 2, 1232); (1377, 1414, 1, 1329);
   (4304, 4346, 1, 7312); (4349, 4351, 1, 7357); (5112, 5117, 1, 5104);
   (7296, 7296, 1, 1042); (7297, 7297, 1, 1044); (7298, 7298, 1, 1054);
   (7299, 7300, 1, 1057); (7301, 7301, 1, 1058); (7302, 7302, 1, 1066);
   (7303, 7303, 1, 1122); (7304, 7304, 1, 42570); (7545, 7545, 1, 42877);
   (7549, 7549, 1, 11363); (7566, 7566, 1, 42950); (7681, 7829, 2, 7680);
   (7835, 7835, 1, 7776); (7841, 7935, 2, 7840); (7936, 7943, 1, 7944);
   (7952, 7957, 1, 7960); (7968, 7975, 1, 7976); (7984, 7991, 1, 7992);
   (8000, 8005, 1, 8008); (8017, 8023, 2, 8025); (8032, 8039, 1, 8040);
   (8048, 8049, 1, 8122); (8050, 8053, 1, 8136); (8054, 8055, 1, 8154);
   (8056, 8057, 1, 8184); (8058, 8059, 1, 8170); (8060, 8061, 1, 8186);
   (8112, 8113, 1, 8120); (8126, 8126, 1, 921); (8144, 8145, 1, 8152);
   (8160, 8161, 1, 8168); (8165, 8165, 1, 8172); (8526, 8526, 1, 8498);
   (8560, 8575, 1, 8544); (8580, 8580, 1, 8579); (9424, 9449, 1, 9398);
   (11312, 11359, 1, 11264); (11361, 11361, 1, 11360);
   (11365, 11365, 1, 570); (11366, 11366, 1, 574); (11368, 11372, 2, 11367);
   (11379, 11379, 1, 11378); (11382, 11382, 1, 11381);
   (11393, 11491, 2, 11392); (11500, 11502, 2, 11499);
   (11507, 11507, 1, 11506); (11520, 11557, 1, 4256);
   (11559, 11559, 1, 4295); (11565, 11565, 1, 4301);
   (42561, 42605, 2, 42560); (42625, 42651, 2, 42624);
   (42787, 42799, 2, 42786); (42803, 42863, 2, 42802);
   (42874, 42876, 2, 42873); (42879, 42887, 2, 42878);
   (42892, 42892, 1, 42891); (42897, 42899, 2, 42896);
   (42900, 42900, 1, 42948); (42903, 42921, 2, 42902);
   (42933, 42947, 2, 42932); (42952, 42954, 2, 42951);
   (42961, 42961, 1, 42960); (42967, 42969, 2, 42966);
   (42998, 42998, 1, 42997); (43859, 43859, 1, 42931);
   (43888, 43967, 1, 5024); (65345, 65370, 1, 65313);
   (66600, 66639, 1, 66560); (66776, 66811, 1, 66736);
   (66967, 66977, 1, 66928); (66979, 66993, 1, 66940);
   (66995, 67001, 1, 66956); (67003, 67004, 1, 66964);
   (68800, 68850, 1, 68736); (71872, 71903, 1, 71840);
   (93792, 93823, 1, 93760); (125218, 125251, 1, 125184)]%N.

(** Case-ignorable code points (Unicode property Case_Ignorable). *)
Definition case_ignorable_ranges : list (N * N) :=
  [(39, 39); (46, 46); (58, 58); (94, 94); (96, 96); (168, 168); (173, 173);
   (175, 175); (180, 180); (183, 184); (688, 879); (884, 885); (890, 890);
   (900, 901); (903, 903); (1155, 1161); (1369, 1369); (1375, 1375);
   (1425, 1469); (1471, 1471); (1473, 1474); (1476, 1477); (1479, 1479);
   (1524, 1524); (1536, 1541); (1552, 1562); (1564, 1564); (1600, 1600);
   (1611, 1631); (1648, 1648); (1750, 1757); (1759, 1768); (1770, 1773);
   (1807, 1807); (1809, 1809); (1840, 1866); (1958, 1968); (2027, 2037);
   (2042, 2042); (2045, 2045); (2070, 2093); (2137, 2139); (2184, 2184);
   (2192, 2193); (2200, 2207); (2249, 2306); (2362, 2362); (2364, 2364);
   (2369, 2376); (2381, 2381); (2385, 2391); (2402, 2403); (2417, 2417);
   (2433, 2433); (2492, 2492); (2497, 2500); (2509, 2509); (2530, 2531);
   (2558, 2558); (2561, 2562); (2620, 2620); (2625, 2626); (2631, 2632);
   (2635, 2637); (2641, 2641); (2672, 2673); (2677, 2677); (2689, 2690);
   (2748, 2748); (2753, 2757); (2759, 2760); (2765, 2765); (2786, 2787);
   (2810, 2815); (2817, 2817); (2876, 2876); (2879, 2879); (2881, 2884);
   (2893, 2893); (2901, 2902); (2914, 2915); (2946, 2946); (3008, 3008);
   (3021, 3021); (3072, 3072); (3076, 3076); (3132, 3132); (3134, 3136);
   (3142, 3144); (3146, 3149); (3157, 3158); (3170, 3171); (3201, 3201);
   (3260, 3260); (3263, 3263); (3270, 3270); (3276, 3277); (3298, 3299);
   (3328, 3329); (3387, 3388); (3393, 3396); (3405, 3405); (3426, 3427);
   (3457, 3457); (3530, 3530); (3538, 3540); (3542, 3542); (3633, 3633);
   (3636, 3642); (3654, 3662); (3761, 3761); (3764, 3772); (3782, 3782);
   (3784, 3789); (3864, 3865); (3893, 3893); (3895, 3895); (3897, 3897);
   (3953, 3966); (3968, 3972); (3974, 3975); (3981, 3991); (3993, 4028);
   (4038, 4038); (4141, 4144); (4146, 4151); (4153, 4154); (4157, 4158);
   (4184, 4185); (4190, 4192); (4209, 4212); (4226, 4226); (4229, 4230);
   (4237, 4237); (4253, 4253); (4348, 4348); (4957, 4959); (5906, 5908);
   (5938, 5939); (5970, 5971); (6002, 6003); (6068, 6069); (6071, 6077);
   (6086, 6086); (6089, 6099); (6103, 6103); (6109, 6109); (6155, 6159);
   (6211, 6211); (6277, 6278); (6313, 6313); (6432, 6434); (6439, 6440);
   (6450, 6450); (6457, 6459); (6679, 6680); (6683, 6683); (6742, 6742);
   (6744, 6750); (6752, 6752); (6754, 6754); (6757, 6764); (6771, 6780);
   (6783, 6783); (6823, 6823); (6832, 6862); (6912, 6915); (6964, 6964);
   (6966, 6970); (6972, 6972); (6978, 6978); (7019, 7027); (7040, 7041);
   (7074, 7077); (7080, 7081); (7083, 7085); (7142, 7142); (7144, 7145);
   (7149, 7149); (7151, 7153); (7212, 7219); (7222, 7223); (7288, 7293);
   (7376, 7378); (7380, 7392); (7394, 7400); (7405, 7405); (7412, 7412);
   (7416, 7417); (7468, 7530); (7544, 7544); (7579, 7679); (8125, 8125);
   (8127, 8129); (8141, 8143); (8157, 8159); (8173, 8175); (8189, 8190);
   (8203, 8207); (8216, 8217); (8228, 8228); (8231, 8231); (8234, 8238);
   (8288, 8292); (8294, 8303); (8305, 8305); (8319, 8319); (8336, 8348);
   (8400, 8432); (11388, 11389); (11503, 11505); (11631, 11631);
   (11647, 11647); (11744, 11775); (11823, 11823); (12293, 12293);
   (12330, 12333); (12337, 12341); (12347, 12347); (12441, 12446);
   (12540, 12542); (40981, 40981); (42232, 42237); (42508, 42508);
   (42607, 42610); (42612, 42621); (42623, 42623); (42652, 42655);
   (42736, 42737); (42752, 42785); (42864, 42864); (42888, 42890);
   (42994, 42996); (43000, 43001); (43010, 43010); (43014, 43014);
   (43019, 43019); (43045, 43046); (43052, 43052); (43204, 43205);
   (43232, 43249); (43263, 43263); (43302, 43309); (43335, 43345);
   (43392, 43394); (43443, 43443); (43446, 43449); (43452, 43453);
   (43471, 43471); (43493, 43494); (43561, 43566); (43569, 43570);
   (43573, 43574); (43587, 43587); (43596, 43596); (43632, 43632);
   (43644, 43644); (43696, 43696); (43698, 43700); (43703, 43704);
   (43710, 43711); (43713, 43713); (43741, 43741); (43756, 43757);
   (43763, 43764); (43766, 43766); (43867, 43871); (43881, 43883);
   (44005, 44005); (44008, 44008); (44013, 44013); (64286, 64286);
   (64434, 64450); (65024, 65039); (65043, 65043); (65056, 65071);
   (65106, 65106); (65109, 65109); (65279, 65279); (65287, 65287);
   (65294, 65294); (65306, 65306); (65342, 65342); (65344, 65344);
   (65392, 65392); (65438, 65439); (65507, 65507); (65529, 65531);
   (66045, 66045); (66272, 66272); (66422, 66426); (67456, 67461);
   (67463, 67504); (67506, 67514); (68097, 68099); (68101, 68102);
   (68108, 68111); (68152, 68154); (68159, 68159); (68325, 68326);
   (68900, 68903); (69291, 69292); (69446, 69456); (69506, 69509);
   (69633, 69633); (69688, 69702); (69744, 69744); (69747, 69748);
   (69759, 69761); (69811, 69814); (69817, 69818); (69821, 69821);
   (69826, 69826); (69837, 69837); (69888, 69890); (69927, 69931);
   (69933, 69940); (70003, 70003); (70016, 70017); (70070, 70078);
   (70089, 70092); (70095, 70095); (70191, 70193); (70196, 70196);
   (70198, 70199); (70206, 70206); (70367, 70367); (70371, 70378);
   (70400, 70401); (70459, 70460); (70464, 70464); (70502, 70508);
   (70512, 70516); (70712, 70719); (70722, 70724); (70726, 70726);
   (70750, 70750); (70835, 70840); (70842, 70842); (70847, 70848);
   (70850, 70851); (71090, 71093); (71100, 71101); (71103, 71104);
   (71132, 71133); (71219, 71226); (71229, 71229); (71231, 71232);
   (71339, 71339); (71341, 71341); (71344, 71349); (71351, 71351);
   (71453, 71455); (71458, 71461); (71463, 71467); (71727, 71735);
   (71737, 71738); (71995, 71996); (71998, 71998); (72003, 72003);
   (72148, 72151); (72154, 72155); (72160, 72160); (72193, 72202);
   (72243, 72248); (72251, 72254); (72263, 72263); (72273, 72278);
   (72281, 72283); (72330, 72342); (72344, 72345); (72752, 72758);
   (72760, 72765); (72767, 72767); (72850, 72871); (72874, 72880);
   (72882, 72883); (72885, 72886); (73009, 73014); (73018, 73018);
   (73020, 73021); (73023, 73029); (73031, 73031); (73104, 73105);
   (73109, 73109); (73111, 73111); (73459, 73460); (78896, 78904);
   (92912, 92916); (92976, 92982); (92992, 92995); (94031, 94031);
   (94095, 94111); (94176, 94177); (94179, 94180); (110576, 110579);
   (110581, 110587); (110589, 110590); (113821, 113822); (113824, 113827);
   (118528, 118573); (118576, 118598); (119143, 119145); (119155, 119170);
   (119173, 119179); (119210, 119213); (119362, 119364); (121344, 121398);
   (121403, 121452); (121461, 121461); (121476, 121476); (121499, 121503);
   (121505, 121519); (122880, 122886); (122888, 122904); (122907, 122913);
   (122915, 122916); (122918, 122922); (123184, 123197); (123566, 123566);
   (123628, 123631); (125136, 125142); (125252, 125259); (127995, 127999);
   (917505, 917505); (917536, 917631); (917760, 917999)]%N.

(** Cased code points that are not case-ignorable. *)
Definition cased_ranges : list (N * N) :=
  [(65, 90); (97, 122); (170, 170); (181, 181); (186, 186); (192, 214);
   (216, 246); (248, 442); (444, 447); (452, 659); (661, 687); (880, 883);
   (886, 887); (891, 893); (895, 895); (902, 902); (904, 906); (908, 908);
   (910, 929); (931, 1013); (1015, 1153); (1162, 1327); (1329, 1366);
   (1376, 1416); (4256, 4293); (4295, 4295); (4301, 4301); (4304, 4346);
   (4349, 4351); (5024, 5109); (5112, 5117); (7296, 7304); (7312, 7354);
   (7357, 7359); (7424, 7467); (7531, 7543); (7545, 7578); (7680, 7957);
   (7960, 7965); (7968, 8005); (8008, 8013); (8016, 8023); (8025, 8025);
   (8027, 8027); (8029, 8029); (8031, 8061); (8064, 8116); (8118, 8124);
   (8126, 8126); (8130, 8132); (8134, 8140); (8144, 8147); (8150, 8155);
   (8160, 8172); (8178, 8180); (8182, 8188); (8450, 8450); (8455, 8455);
   (8458, 8467); (8469, 8469); (8473, 8477); (8484, 8484); (8486, 8486);
   (8488, 8488); (8490, 8493); (8495, 8500); (8505, 8505); (8508, 8511);
   (8517, 8521); (8526, 8526); (8544, 8575); (8579, 8580); (9398, 9449);
   (11264, 11387); (11390, 11492); (11499, 11502); (11506, 11507);
   (11520, 11557); (11559, 11559); (11565, 11565); (42560, 42605);
   (42624, 42651); (42786, 42863); (42865, 42887); (42891, 42894);
   (42896, 42954); (42960, 42961); (42963, 42963); (42965, 42969);
   (42997, 42998); (43002, 43002); (43824, 43866); (43872, 43880);
   (43888, 43967); (64256, 64262); (64275, 64279); (65313, 65338);
   (65345, 65370); (66560, 66639); (66736, 66771); (66776, 66811);
   (66928, 66938); (66940, 66954); (66956, 66962); (66964, 66965);
   (66967, 66977); (66979, 66993); (66995, 67001); (67003, 67004);
   (68736, 68786); (68800, 68850); (71840, 71903); (93760, 93823);
   (119808, 119892); (119894, 119964); (119966, 119967); (119970, 119970);
   (119973, 119974); (119977, 119980); (119982, 119993); (119995, 119995);
   (119997, 120003); (120005, 120069); (120071, 120074); (120077, 120084);
   (120086, 120092); (120094, 120121); (120123, 120126); (120128, 120132);
   (120134, 120134); (120138, 120144); (120146, 120485); (120488, 120512);
   (120514, 120538); (120540, 120570); (120572, 120596); (120598, 120628);
   (120630, 120654); (120656, 120686); (120688, 120712); (120714, 120744);
   (120746, 120770); (120772, 120779); (122624, 122633); (122635, 122654);
   (125184, 125251); (127280, 127305); (127312, 127337); (127344, 127369)]%N.

Fixpoint in_ranges (c : N) (l : list (N * N)) : bool :=
  match l with
  | [] => false
  | (a, b) :: l' => if (c <? a)%N then false else if (c <=? b)%N then true else in_ranges c l'
  end.

(** A case mapping given as sorted runs [(lo, hi, step, t)]. *)
Fixpoint case_map (c : N) (l : list (N * N * N * N)) : N :=
  match l with
  | [] => c
  | (lo, hi, st, t) :: l' =>
      if (c <? lo)%N then c
      else if (c <=? hi)%N then
        (if (N.modulo (c - lo) st =? 0)%N then (t + (c - lo))%N else c)
      else case_map c l'
  end.

(** The simple lower-case mapping ([_sre.unicode_tolower], the one
    [re.IGNORECASE] compares), and the one-character upper case. *)
Definition lower_c (c : N) : N := case_map c lower_map.
Definition upper_c (c : N) : N := case_map c upper_map.

Definition is_case_ignorable (c : N) : bool := in_ranges c case_ignorable_ranges.
Definition is_cased (c : N) : bool := in_ranges c cased_ranges.

Fixpoint first_not_ignorable (s : pystr) : option N :=
  match s with
  | [] => None
  | c :: s' => if is_case_ignorable c then first_not_ignorable s' else Some c
  end.

(** CPython's [handle_capital_sigma]: [before] is the text before the
    sigma, reversed, and [after] the text after it. *)
Definition final_sigma (before after : pystr) : bool :=
  match first_not_ignorable before with
  | Some c => is_cased c && match first_not_ignorable after with
                            | None => true
                            | Some d => negb (is_cased d)
                            end
  | None => false
  end.

(** [str.lower()]: the full lower-case mapping.  U+0130 is the one code
    point that lowers to two ([i] and U+0307); the capital sigma U+03A3
    lowers to the final form U+03C2 or to U+03C3 by its context. *)
Fixpoint lower_aux (before s : pystr) : pystr :=
  match s with
  | [] => []
  | c :: s' =>
      (if (c =? 304)%N then [105; 775]%N
       else if (c =? 931)%N then [if final_sigma before s' then 962%N else 963%N]
       else [lower_c c]) ++ lower_aux (c :: before) s'
  end.
Definition lower (s : pystr) : pystr := lower_aux [] s.

(** [0-9]. *)
Definition is_ascii_digit (c : N) : bool := ((48 <=? c) && (c <=? 57))%N.
Definition is_alpha_ascii (c : N) : bool :=
  ((65 <=? c) && (c <=? 90))%N || ((97 <=? c) && (c <=? 122))%N.

(** Regex [\d] on [str] patterns: the decimal digits (category Nd),
    which come in runs of ten from a zero. *)
Definition is_decimal (c : N) : bool := in_ranges c decimal_ranges.
Fixpoint decimal_value_aux (c : N) (l : list (N * N)) : N :=
  match l with
  | [] => 0
  | (a, b) :: l' =>
      if (c <? a)%N then 0 else if (c <=? b)%N then N.modulo (c - a) 10
      else decimal_value_aux c l'
  end.
(** The value [int()] gives a decimal digit. *)
Definition decimal_value (c : N) : N := decimal_value_aux c decimal_ranges.

(** Regex [\w]: [str.isalnum()] or the underscore. *)
Definition is_word (c : N) : bool := in_ranges c alnum_ranges || N.eqb c 95.

(** [str.isdigit()]: non-empty and all digits. *)
Definition isdigit (s : pystr) : bool :=
  match s with [] => false | _ => forallb (fun c => in_ranges c digit_ranges) s end.

Fixpoint drop_space (s : pystr) : pystr :=
  match s with
  | c :: s' => if is_space c then drop_space s' else s
  | [] => []
  end.

(** [str.strip()]. *)
Definition strip (s : pystr) : pystr := rev (drop_space (rev (drop_space s))).

(** [str.split()] with no argument: runs of white space separate words,
    no empty words. *)
Fixpoint split_aux (s : pystr) (cur : pystr) : list pystr :=
  match s with
  | [] => match cur with [] => [] | _ => [rev cur] end
  | c :: s' =>
      if is_space c then
        match cur with
        | [] => split_aux s' []
        | _ => rev cur :: split_aux s' []
        end
      else split_aux s' (c :: cur)
  end.
Definition split (s : pystr) : list pystr := split_aux s [].

Fixpoint is_prefix (a b : pystr) : bool :=
  match a, b with
  | [], _ => true
  | x :: a', y :: b' => N.eqb x y && is_prefix a' b'
  | _ :: _, [] => false
  end.

(** [a in b] for strings. *)
Fixpoint contains (b a : pystr) : bool :=
  is_prefix a b || match b with [] => false | _ :: b' => contains b' a end.

(** [re.sub(r"\s+", "", s)] and [re.sub(r"[^\w]", "", s)]: every
    character of a match is deleted, so both are filters. *)
Definition del_space (s : pystr) : pystr := filter (fun c => negb (is_space c)) s.
Definition del_nonword (s : pystr) : pystr := filter is_word s.

(** [s.endswith(t)]. *)
Definition endswith (s t : pystr) : bool := is_prefix (rev t) (rev s).

(** [str.splitlines()]. *)
Definition is_linebreak (c : N) : bool :=
  inb c [10; 11; 12; 13; 28; 29; 30; 133; 8232; 8233]%N.
Fixpoint splitlines_aux (s : pystr) (cur : pystr) : list pystr :=
  match s with
  | [] => match cur with [] => [] | _ => [rev cur] end
  | 13%N :: 10%N :: s' => rev cur :: splitlines_aux s' []
  | c :: s' =>
      if is_linebreak c then rev cur :: splitlines_aux s' []
      else splitlines_aux s' (c :: cur)
  end.
Definition splitlines (s : pystr) : list pystr := splitlines_aux s [].

(** Decimal rendering of an integer ([str(n)] / f-string). *)
Fixpoint digits_rev (fuel : nat) (n : N) : pystr :=
  match fuel with
  | O => []
  | S f => (48 + N.modulo n 10)%N ::
             (if (n <? 10)%N then [] else digits_rev f (N.div n 10))
  end.
Definition str_N (n : N) : pystr := rev (digits_rev (S (N.to_nat (N.log2 n))) n).
Definition str_Z (z : Z) : pystr :=
  if (z <? 0)%Z then 45%N :: str_N (Z.to_N (- z)) else str_N (Z.to_N z).

End PyStr.
Import PyStr.

(* ------------------------------------------------------------------ *)
(** ** A backtracking matcher for the regular expressions of the source

    The constructs used by the source's patterns: character classes,
    [.], concatenation, alternation, greedy and lazy repetition,
    numbered groups and the anchors [^] and [$] (no MULTILINE).  Matching
    follows Python's [re]: alternatives and repetitions are tried in
    priority order with backtracking, written in continuation-passing
    style with fuel. *)

Module Regex.

Inductive regex : Type :=
| Cls (p : N -> bool)
| Dot
| Cat (r1 r2 : regex)
| Alt (r1 r2 : regex)
| Star (greedy : bool) (r : regex)
| Grp (n : nat) (r : regex)
| Bol
| Eol
| Eps.

Definition caps := list (nat * (nat * nat)).

(** [r+] and [r+?]. *)
Definition plus (r : regex) : regex := Cat r (Star true r).
Definition plus_lazy (r : regex) : regex := Cat r (Star false r).
Fixpoint seq (rs : list regex) : regex :=
  match rs with [] => Eps | [r] => r | r :: rs' => Cat r (seq rs') end.
Fixpoint alts (rs : list regex) : regex :=
  match rs with [] => Cls (fun _ => false) | [r] => r | r :: rs' => Alt r (alts rs') end.
Fixpoint rep (n : nat) (r : regex) : regex :=
  match n with O => Eps | S n' => Cat r (rep n' r) end.

Definition ch (c : N) : regex := Cls (N.eqb c).
Definition lit (s : pystr) : regex := seq (map ch s).
Definition spc : regex := Cls is_space.
Definition dig : regex := Cls is_decimal.
Definition one_of (l : list N) : regex := Cls (fun c => inb c l).

Section Matcher.
Variable icase : bool.
Variable input : pystr.

Definition cls_ok (p : N -> bool) (c : N) : bool :=
  p c || (icase && (p (lower_c c) || p (upper_c c))).

Definition at_eol (i : nat) : bool :=
  Nat.eqb i (length input)
  || (Nat.eqb (S i) (length input) && match nth_error input i with
                                      | Some c => N.eqb c 10 | None => false end).

Fixpoint mt (fuel : nat) (r : regex) (i : nat) (c : caps)
         (k : nat -> caps -> option (nat * caps)) : option (nat * caps) :=
  match fuel with
  | O => None
  | S f =>
    match r with
    | Cls p =>
        match nth_error input i with
        | Some x => if cls_ok p x then k (S i) c else None
        | None => None
        end
    | Dot =>
        match nth_error input i with
        | Some x => if N.eqb x 10 then None else k (S i) c
        | None => None
        end
    | Cat r1 r2 => mt f r1 i c (fun j c' => mt f r2 j c' k)
    | Alt r1 r2 =>
        match mt f r1 i c k with
        | Some x => Some x
        | None => mt f r2 i c k
        end
    | Star true r1 =>
        match mt f r1 i c (fun j c' => if Nat.eqb j i then None
                                       else mt f (Star true r1) j c' k) with
        | Some x => Some x
        | None => k i c
        end
    | Star false r1 =>
        match k i c with
        | Some x => Some x
        | None => mt f r1 i c (fun j c' => if Nat.eqb j i then None
                                           else mt f (Star false r1) j c' k)
        end
    | Grp n r1 => mt f r1 i c (fun j c' => k j ((n, (i, j)) :: c'))
    | Bol => if Nat.eqb i 0 then k i c else None
    | Eol => if at_eol i then k i c else None
    | Eps => k i c
    end
  end.

Definition fuel : nat := 64 * (length input + 4).

Definition match_at (r : regex) (i : nat) : option (nat * caps) :=
  mt fuel r i [] (fun j c => Some (j, c)).

Fixpoint search_from (r : regex) (i : nat) (n : nat) : option (nat * nat * caps) :=
  match match_at r i with
  | Some (j, c) => Some (i, j, c)
  | None => match n with O => None | S n' => search_from r (S i) n' end
  end.

(** [re.search(r, input)]: first start position with a match. *)
Definition search (r : regex) : option (nat * nat * caps) :=
  search_from r 0 (length input).

(** [re.match(r, input)]: a match starting at position 0. *)
Definition rmatch (r : regex) : option (nat * caps) := match_at r 0.

Definition group (c : caps) (n : nat) : pystr :=
  match find (fun p => Nat.eqb (fst p) n) c with
  | Some (_, (i, j)) => firstn (j - i) (skipn i input)
  | None => []
  end.

End Matcher.
End Regex.
Import Regex.

(* ------------------------------------------------------------------ *)
(** ** Pairing extraction ([parse_pairings_content], [_extract_pairing]) *)

Module Pairing.

Definition c_dui : N := 23545%N.   (* 对 *)
Definition c_zhan : N := 25112%N.  (* 战 *)

(** The five patterns of [_extract_pairing] (identical in
    [ChessToolTabs.extract_pairing]):
    [(.+?)\s+[vs对战VS]\s+(.+?)(?:\s|$)],
    [(.+?)\s+-\s+(.+?)(?:\s|$)],
    [(.+?)\s+对\s+(.+?)(?:\s|$)],
    [(.+?)\s*[:：]\s*(.+?)(?:\s|$)],
    [^(.+?)\s+(.+?)$]. *)
Definition end_or_space : regex := Alt spc Eol.
Definition patterns : list regex :=
  [ seq [Grp 1 (plus_lazy Dot); plus spc; one_of [118; 115; c_dui; c_zhan; 86; 83]%N;
         plus spc; Grp 2 (plus_lazy Dot); end_or_space];
    seq [Grp 1 (plus_lazy Dot); plus spc; ch 45; plus spc; Grp 2 (plus_lazy Dot);
         end_or_space];
    seq [Grp 1 (plus_lazy Dot); plus spc; ch c_dui; plus spc; Grp 2 (plus_lazy Dot);
         end_or_space];
    seq [Grp 1 (plus_lazy Dot); Star true spc; one_of [58; 65306]%N; Star true spc;
         Grp 2 (plus_lazy Dot); end_or_space];
    seq [Bol; Grp 1 (plus_lazy Dot); plus spc; Grp 2 (plus_lazy Dot); Eol] ].

(** The loop over [patterns] (all searched with [re.IGNORECASE]):
    the first match whose stripped groups are both non-empty and not
    all digits gives the (white, black) names. *)
Fixpoint try_patterns (ps : list regex) (line : pystr) : option (pystr * pystr) :=
  match ps with
  | [] => None
  | p :: ps' =>
      match search true line p with
      | Some (_, _, c) =>
          let white := strip (group line c 1) in
          let black := strip (group line c 2) in
          if negb (seqb white []) && negb (seqb black [])
             && negb (isdigit white) && negb (isdigit black)
          then Some (white, black)
          else try_patterns ps' line
      | None => try_patterns ps' line
      end
  end.

Definition extract_names (line : pystr) : option (pystr * pystr) :=
  try_patterns patterns line.

(** [re.sub(r"^\s*\d+[\.、:：\)\-–—\s]*", "", line)]: the pattern is
    anchored at [^], so its only possible match starts at 0. *)
Definition marker_re : regex :=
  seq [Bol; Star true spc; plus dig;
       Star true (Alt (one_of [46; 12289; 58; 65306; 41; 45; 8211; 8212]%N) spc)].

Definition strip_marker (line : pystr) : pystr :=
  match search false line marker_re with
  | Some (i, j, _) => firstn i line ++ skipn j line
  | None => line
  end.

(** One line of [parse_pairings_content], up to the pairing dict: the
    stripped, marker-free, non-empty line handed to [_extract_pairing]. *)
Definition normalize (raw : pystr) : option pystr :=
  let line := strip raw in
  if seqb line [] then None
  else let line := strip (strip_marker line) in
       if seqb line [] then None else Some line.

End Pairing.

(* ------------------------------------------------------------------ *)
(** ** Name resolution ([find_username])

    A roster ([self.students]) is a Python dict from real name to
    username; its iteration order matters for the loose tiers, so it is
    an association list in insertion order. *)

Module Resolve.

Definition roster := list (pystr * pystr).

Definition NOT_FOUND : pystr := py "未找到".

(** [self.students[name]] when [name in self.students]. *)
Fixpoint lookup (st : roster) (k : pystr) : option pystr :=
  match st with
  | [] => None
  | (k', v) :: st' => if seqb k' k then Some v else lookup st' k
  end.

(** [for real_name, username in self.students.items(): if p(real_name):
    return username]. *)
Fixpoint first_entry (p : pystr -> bool) (st : roster) : option pystr :=
  match st with
  | [] => None
  | (real_name, username) :: st' =>
      if p real_name then Some username else first_entry p st'
  end.

Definition head_or (l : list pystr) (d : pystr) : pystr :=
  match l with x :: _ => x | [] => d end.

Definition len_gt1 (s : pystr) : bool := Nat.ltb 1 (length s).

(** Set intersection is non-empty. *)
Definition meets (a b : list pystr) : bool :=
  existsb (fun x => existsb (seqb x) b) a.

(** [TeacherChessApp.find_username], tier by tier; [name] is the
    already-stripped token and [lw] its lower-cased form. *)
Module Teacher.
Definition tier1 (st : roster) (name : pystr) : option pystr := lookup st name.
Definition tier2 (st : roster) (lw : pystr) : option pystr :=
  first_entry (fun rn => seqb (lower rn) lw) st.
Definition tier3 (st : roster) (lw : pystr) : option pystr :=
  first_entry (fun rn => contains (lower rn) lw) st.
Definition tier4 (st : roster) (lw : pystr) : option pystr :=
  first_entry (fun rn => contains lw (lower rn)) st.
Definition tier5 (st : roster) (lw : pystr) : option pystr :=
  let parts := split lw in
  let first := head_or parts lw in
  first_entry (fun rn =>
    let real_first := match split rn with
                      | [] => lower rn
                      | _ => head_or (split (lower rn)) []
                      end in
    seqb first real_first && len_gt1 first) st.
Definition tier6 (st : roster) (lw : pystr) : option pystr :=
  let filtered := filter len_gt1 (split lw) in
  first_entry (fun rn =>
    let real_parts := map lower (filter len_gt1 (split rn)) in
    meets filtered real_parts) st.
Definition tier7 (st : roster) (lw : pystr) : option pystr :=
  let clean := del_nonword lw in
  first_entry (fun rn =>
    negb (seqb clean []) && seqb clean (del_nonword (lower rn))) st.

Definition find_username (st : roster) (name0 : pystr) : pystr :=
  if seqb name0 [] then NOT_FOUND else
  let name := strip name0 in
  match tier1 st name with Some u => u | None =>
  let lw := lower name in
  match tier2 st lw with Some u => u | None =>
  match tier3 st lw with Some u => u | None =>
  match tier4 st lw with Some u => u | None =>
  match tier5 st lw with Some u => u | None =>
  match tier6 st lw with Some u => u | None =>
  match tier7 st lw with Some u => u | None =>
  NOT_FOUND end end end end end end end.
End Teacher.

(** [ChessToolTabs.find_username] of [chess_simple.py]; [name] is the
    stripped token. *)
Module Simple.
Definition tier1 (st : roster) (name : pystr) : option pystr := lookup st name.
Definition tier2 (st : roster) (name : pystr) : option pystr :=
  first_entry (fun rn => seqb (lower rn) (lower name)) st.
Definition tier3 (st : roster) (name : pystr) : option pystr :=
  first_entry (fun rn => contains (lower rn) (lower name)) st.
Definition tier4 (st : roster) (name : pystr) : option pystr :=
  first_entry (fun rn => contains (lower name) (lower rn)) st.
Definition tier5 (st : roster) (name : pystr) : option pystr :=
  let name_first := match split name with
                    | w :: _ => lower w
                    | [] => lower name
                    end in
  first_entry (fun rn =>
    let real_first := match split rn with
                      | w :: _ => lower w
                      | [] => lower rn
                      end in
    seqb name_first real_first && len_gt1 name_first) st.
Definition tier6 (st : roster) (name : pystr) : option pystr :=
  let name_parts := map lower (filter len_gt1 (split name)) in
  first_entry (fun rn =>
    let real_parts := map lower (filter len_gt1 (split rn)) in
    existsb (fun np => existsb (fun rp => seqb np rp) real_parts) name_parts) st.
Definition tier7 (st : roster) (name : pystr) : option pystr :=
  let clean_name := del_nonword (lower name) in
  first_entry (fun rn =>
    let clean_real := del_nonword (lower rn) in
    seqb clean_name clean_real
    || ((contains clean_real clean_name || contains clean_name clean_real)
        && (Z.abs (Z.of_nat (length clean_name) - Z.of_nat (length clean_real))
            <=? 2)%Z)) st.

Definition find_username (st : roster) (name0 : pystr) : pystr :=
  if seqb name0 [] then NOT_FOUND else
  match st with [] => NOT_FOUND | _ =>
  let name := strip name0 in
  match tier1 st name with Some u => u | None =>
  match tier2 st name with Some u => u | None =>
  match tier3 st name with Some u => u | None =>
  match tier4 st name with Some u => u | None =>
  match tier5 st name with Some u => u | None =>
  match tier6 st name with Some u => u | None =>
  match tier7 st name with Some u => u | None =>
  NOT_FOUND end end end end end end end end.
End Simple.

End Resolve.
Import Resolve.

(** The pairing dict built by [_extract_pairing]. *)
Record pairing := mk_pairing {
  p_white : pystr;
  p_black : pystr;
  p_white_username : pystr;
  p_black_username : pystr }.

Module Parse.
Import Pairing.

(** [TeacherChessApp._extract_pairing]. *)
Definition extract_pairing (st : roster) (line : pystr) : option pairing :=
  match extract_names line with
  | Some (white, black) =>
      Some (mk_pairing white black (Teacher.find_username st white)
                                   (Teacher.find_username st black))
  | None => None
  end.

(** [TeacherChessApp.parse_pairings_content]. *)
Definition parse_pairings_content (st : roster) (content : pystr) : list pairing :=
  flat_map (fun raw =>
              match normalize raw with
              | Some line => match extract_pairing st line with
                             | Some p => [p] | None => [] end
              | None => []
              end) (splitlines content).
End Parse.

(* ------------------------------------------------------------------ *)
(** ** JSON values as returned by [resp.json()] *)

Set Warnings "-register-all".

Module PyJson.

Inductive Json : Type :=
| JNull
| JBool (b : bool)
| JInt (z : Z)
| JFloat (q : Q)
| JStr (s : pystr)
| JArr (l : list Json)
| JObj (kvs : list (pystr * Json)).

(** Python truthiness. *)
Definition truthy (j : Json) : bool :=
  match j with
  | JNull => false
  | JBool b => b
  | JInt z => negb (Z.eqb z 0)
  | JFloat q => negb (Qeq_bool q 0)
  | JStr s => negb (seqb s [])
  | JArr l => match l with [] => false | _ => true end
  | JObj kvs => match kvs with [] => false | _ => true end
  end.

(** [json.loads] keeps the last value of a repeated key. *)
Definition obj_lookup (kvs : list (pystr * Json)) (k : pystr) : option Json :=
  fold_left (fun acc kv => if seqb (fst kv) k then Some (snd kv) else acc) kvs None.

End PyJson.
Import PyJson.

(** Exceptions that escape the modelled functions, and the result of a
    Python call. *)
Inductive exn : Type :=
| AttributeError
| TypeError
| JSONDecodeError.

Inductive result (A : Type) : Type :=
| Ok (a : A)
| Exn (e : exn).
Arguments Ok {A} a.
Arguments Exn {A} e.

Definition rbind {A B : Type} (m : result A) (k : A -> result B) : result B :=
  match m with Ok a => k a | Exn e => Exn e end.

(** [obj.get(k, default)]: [AttributeError] unless [obj] is a dict. *)
Definition dict_get (j : Json) (k : pystr) (dflt : Json) : result Json :=
  match j with
  | JObj kvs => Ok (match obj_lookup kvs k with Some v => v | None => dflt end)
  | _ => Exn AttributeError
  end.

(* ------------------------------------------------------------------ *)
(** ** Naive UTC datetimes, as microseconds since 1970-01-01T00:00 *)

Module DateTime.
Open Scope Z_scope.

Definition us_per_s : Z := 1000000.
Definition day_us : Z := 86400 * us_per_s.

Definition days_from_civil (y m d : Z) : Z :=
  let y' := if m <=? 2 then y - 1 else y in
  let era := y' / 400 in
  let yoe := y' - era * 400 in
  let doy := (153 * (if m >? 2 then m - 3 else m + 9) + 2) / 5 + d - 1 in
  let doe := yoe * 365 + yoe / 4 - yoe / 100 + doy in
  era * 146097 + doe - 719468.

(** (year, month, day) of a day number. *)
Definition civil_from_days (z0 : Z) : Z * Z * Z :=
  let z := z0 + 719468 in
  let era := z / 146097 in
  let doe := z - era * 146097 in
  let yoe := (doe - doe / 1460 + doe / 36524 - doe / 146096) / 365 in
  let doy := doe - (365 * yoe + yoe / 4 - yoe / 100) in
  let mp := (5 * doy + 2) / 153 in
  let d := doy - (153 * mp + 2) / 5 + 1 in
  let m := if mp <? 10 then mp + 3 else mp - 9 in
  let y := yoe + era * 400 + (if m <=? 2 then 1 else 0) in
  (y, m, d).

Definition is_leap (y : Z) : bool :=
  (Z.eqb (y mod 4) 0 && negb (Z.eqb (y mod 100) 0)) || Z.eqb (y mod 400) 0.

Definition days_in_month (y m : Z) : Z :=
  if Z.eqb m 2 then (if is_leap y then 29 else 28)
  else if existsb (Z.eqb m) [4; 6; 9; 11] then 30 else 31.

(** [datetime.min] and [datetime.max]. *)
Definition dt_min : Z := days_from_civil 1 1 1 * day_us.
Definition dt_max : Z := days_from_civil 10000 1 1 * day_us - 1.

(** The [datetime(...)] constructor: [None] where it raises [ValueError]. *)
Definition mk_datetime (y mo d h mi s f : Z) : option Z :=
  if (1 <=? y) && (y <=? 9999) && (1 <=? mo) && (mo <=? 12)
     && (1 <=? d) && (d <=? days_in_month y mo)
     && (0 <=? h) && (h <=? 23) && (0 <=? mi) && (mi <=? 59)
     && (0 <=? s) && (s <=? 59) && (0 <=? f) && (f <=? 999999)
  then Some ((days_from_civil y mo d * 86400 + h * 3600 + mi * 60 + s) * us_per_s + f)
  else None.

(** [datetime.utcfromtimestamp(ts)] for a microsecond count, [None] when
    it raises [OverflowError], [OSError] or [ValueError]. *)
Definition from_us (us : Z) : option Z :=
  if (dt_min <=? us) && (us <=? dt_max) then Some us else None.

(** A float timestamp is rounded to microseconds, half to even. *)
Definition round_half_even_us (q : Q) : Z :=
  let n := Qnum q * us_per_s in
  let d := Zpos (Qden q) in
  let fl := n / d in
  let r := n - fl * d in
  if 2 * r <? d then fl
  else if 2 * r >? d then fl + 1
  else if Z.even fl then fl else fl + 1.

(** [date.year], [.month], ... of a datetime. *)
Definition ymd (t : Z) : Z * Z * Z := civil_from_days (t / day_us).
Definition hour (t : Z) : Z := (t mod day_us) / (3600 * us_per_s).
Definition minute (t : Z) : Z := ((t mod day_us) / (60 * us_per_s)) mod 60.
Definition second (t : Z) : Z := ((t mod day_us) / us_per_s) mod 60.

Definition pad2 (z : Z) : pystr := if z <? 10 then 48%N :: str_Z z else str_Z z.

(** [t.strftime("%Y-%m-%d %H:%M:%S")]. *)
Definition fmt_seconds (t : Z) : pystr :=
  let '(y, m, d) := ymd t in
  str_Z y ++ py "-" ++ pad2 m ++ py "-" ++ pad2 d ++ py " " ++ pad2 (hour t) ++ py ":"
  ++ pad2 (minute t) ++ py ":" ++ pad2 (second t).

(** [t.strftime("%Y%m%d_%H%M")] (glibc: the year is not zero-padded). *)
Definition fmt_stamp (t : Z) : pystr :=
  let '(y, m, d) := ymd t in
  str_Z y ++ pad2 m ++ pad2 d ++ py "_" ++ pad2 (hour t) ++ pad2 (minute t).

End DateTime.

(* ------------------------------------------------------------------ *)
(** ** [extract_game_time] *)

Module GameTime.
Import DateTime.

(** [int(s)] on a string of ASCII digits. *)
Definition int_of (s : pystr) : Z :=
  fold_left (fun acc c => (acc * 10 + Z.of_N (decimal_value c))%Z) s 0%Z.

(** [[0-9]]. *)
Definition adig : regex := Cls is_ascii_digit.
Definition d19 : regex := Cls (fun c => ((49 <=? c) && (c <=? 57))%N).
Fixpoint upto (n : nat) (r : regex) : regex :=
  match n with O => Eps | S n' => Alt (Cat r (upto n' r)) Eps end.

(** The directives of [_strptime.TimeRE] used by the two formats. *)
Definition re_Y : regex := Grp 1 (rep 4 dig).
Definition re_m : regex :=
  Grp 2 (alts [Cat (ch 49) (one_of [48; 49; 50]%N); Cat (ch 48) d19; d19]).
Definition re_d : regex :=
  Grp 3 (alts [Cat (ch 51) (one_of [48; 49]%N); Cat (one_of [49; 50]%N) dig;
               Cat (ch 48) d19; d19; Cat (ch 32) d19]).
Definition re_H : regex :=
  Grp 4 (alts [Cat (ch 50) (one_of [48; 49; 50; 51]%N); Cat (one_of [48; 49]%N) dig; dig]).
Definition d05 : regex := Cls (fun c => ((48 <=? c) && (c <=? 53))%N).
Definition re_M : regex := Grp 5 (alts [Cat d05 dig; dig]).
Definition re_S : regex :=
  Grp 6 (alts [Cat (ch 54) (one_of [48; 49]%N); Cat d05 dig; dig]).
Definition re_f : regex := Grp 7 (Cat adig (upto 5 adig)).

(** ["%Y-%m-%dT%H:%M:%S.%fZ"] and ["%Y-%m-%dT%H:%M:%SZ"]. *)
Definition fmt_frac : regex :=
  seq [re_Y; ch 45; re_m; ch 45; re_d; ch 84; re_H; ch 58; re_M; ch 58; re_S;
       ch 46; re_f; ch 90].
Definition fmt_nofrac : regex :=
  seq [re_Y; ch 45; re_m; ch 45; re_d; ch 84; re_H; ch 58; re_M; ch 58; re_S; ch 90].

(** [datetime.strptime(s, fmt)]: the format's regex is matched with
    IGNORECASE at the start and must consume the whole string; [None]
    where it raises [ValueError]. *)
Definition strptime (s : pystr) (fmt : regex) (has_frac : bool) : option Z :=
  match rmatch true s fmt with
  | Some (e, c) =>
      if Nat.eqb e (length s) then
        let g := group s c in
        let frac := if has_frac then
                      let f := g 7%nat in int_of (f ++ repeat 48%N (6 - length f))
                    else 0%Z in
        mk_datetime (int_of (g 1%nat)) (int_of (g 2%nat)) (int_of (strip (g 3%nat)))
                    (int_of (g 4%nat)) (int_of (g 5%nat)) (int_of (g 6%nat)) frac
      else None
  | None => None
  end.

(** [a or b or c or d]. *)
Fixpoint py_or (l : list Json) : Json :=
  match l with
  | [] => JNull
  | [x] => x
  | x :: l' => if truthy x then x else py_or l'
  end.

Definition extract_game_time (game : Json) : result (option Z) :=
  rbind (dict_get game (py "end_time") JNull) (fun a =>
  rbind (dict_get game (py "finish_time") JNull) (fun b =>
  rbind (dict_get game (py "start_time") JNull) (fun c =>
  rbind (dict_get game (py "last_activity") JNull) (fun d =>
  Ok (match py_or [a; b; c; d] with
      | JBool b => from_us (if b then us_per_s else 0)
      | JInt z => from_us (z * us_per_s)
      | JFloat q => from_us (round_half_even_us q)
      | JStr s =>
          match strptime s fmt_frac true with
          | Some t => Some t
          | None => strptime s fmt_nofrac false
          end
      | _ => None
      end))))).

End GameTime.

(* ------------------------------------------------------------------ *)
(** ** Session state and the effect monad

    The state the code touches: [self.archive_cache] (a dict keyed by
    archive URL), the log of HTTP GETs issued through [self.http] (one
    entry per [http.get] call; the adapter's connection retries happen
    inside that call), and the files written. *)

Record world := mk_world {
  cache : list (pystr * list Json);
  requests : list pystr;
  files : list (pystr * pystr) }.

(** Outcome of one [self.http.get(url, timeout=...)]: it raises
    [requests.Timeout], raises another [requests.RequestException], or
    returns a response whose body may not be JSON. *)
Inductive response : Type :=
| RTimeout (msg : pystr)
| RError (msg : pystr)
| RResp (status : Z) (body : option Json).

Definition M (A : Type) : Type := world -> result A * world.

Definition ret {A : Type} (a : A) : M A := fun w => (Ok a, w).
Definition raise {A : Type} (e : exn) : M A := fun w => (Exn e, w).
Definition bind {A B : Type} (m : M A) (k : A -> M B) : M B :=
  fun w => match m w with
           | (Ok a, w') => k a w'
           | (Exn e, w') => (Exn e, w')
           end.
Definition lift {A : Type} (r : result A) : M A := fun w => (r, w).

Notation "x <- m ;; k" := (bind m (fun x => k))
  (at level 61, m at next level, right associativity).
Notation "' p <- m ;; k" := (bind m (fun x => match x with p => k end))
  (at level 61, p pattern, m at next level, right associativity).
Notation "m ;; k" := (bind m (fun _ => k)) (at level 61, right associativity).

Fixpoint assoc_get {A : Type} (l : list (pystr * A)) (k : pystr) : option A :=
  match l with
  | [] => None
  | (k', v) :: l' => if seqb k' k then Some v else assoc_get l' k
  end.
Fixpoint assoc_put {A : Type} (l : list (pystr * A)) (k : pystr) (v : A) : list (pystr * A) :=
  match l with
  | [] => [(k, v)]
  | (k', v') :: l' => if seqb k' k then (k, v) :: l' else (k', v') :: assoc_put l' k v
  end.

Definition cache_put (k : pystr) (g : list Json) : M unit :=
  fun w => (Ok tt, mk_world (assoc_put (cache w) k g) (requests w) (files w)).

Definition write_file (path content : pystr) : M unit :=
  fun w => (Ok tt, mk_world (cache w) (requests w) (assoc_put (files w) path content)).

(** [resp.json()]. *)
Definition resp_json (body : option Json) : M Json :=
  match body with Some j => ret j | None => raise JSONDecodeError end.

Section Client.
(** The remote service: the answer to the [n]-th GET of the session. *)
Variable net : nat -> pystr -> response.
(** [datetime.utcnow()] during the run. *)
Variable now : Z.

Definition http_get (url : pystr) : M response :=
  fun w => (Ok (net (length (requests w)) url),
            mk_world (cache w) (requests w ++ [url]) (files w)).

(** [TeacherChessApp.get_player_archives]. *)
Definition get_player_archives (username : pystr) : M (list Json * pystr) :=
  if seqb username [] then ret ([], py "用户名缺失") else
  let url := py "https://api.chess.com/pub/player/" ++ username ++ py "/games/archives" in
  resp <- http_get url ;;
  match resp with
  | RTimeout exc | RError exc => ret ([], py "网络错误: " ++ exc)
  | RResp code body =>
      if Z.eqb code 404 then ret ([], py "用户不存在或无公开棋谱") else
      if Z.eqb code 403 then ret ([], py "HTTP 403 (访问被拒绝)") else
      if negb (Z.eqb code 200) then ret ([], py "HTTP " ++ str_Z code) else
      data <- resp_json body ;;
      archives <- lift (dict_get data (py "archives") (JArr [])) ;;
      ret (match archives with JArr l => l | _ => [] end, [])
  end.

(** [TeacherChessApp.get_archive_games]. *)
Definition get_archive_games (archive_url : pystr) : M (list Json * pystr) :=
  fun w =>
  match assoc_get (cache w) archive_url with
  | Some g => (Ok (g, []), w)
  | None =>
    (resp <- http_get archive_url ;;
     match resp with
     | RTimeout _ => ret ([], py "请求超时")
     | RError exc => ret ([], py "网络错误: " ++ exc)
     | RResp code body =>
         if negb (Z.eqb code 200) then
           (if Z.eqb code 403 then ret ([], py "HTTP 403 (访问被拒绝)")
            else ret ([], py "HTTP " ++ str_Z code))
         else
           data <- resp_json body ;;
           let games := match data with
                        | JObj kvs => match obj_lookup kvs (py "games") with
                                      | Some v => v | None => JArr [] end
                        | _ => JArr []
                        end in
           match games with
           | JArr g => cache_put archive_url g ;; ret (g, [])
           | _ => ret ([], py "数据格式错误")
           end
     end) w
  end.

(** [re.search(r"/(\d{4})/(\d{2})$", archive_url)]. *)
Definition month_re : regex :=
  seq [ch 47; Grp 1 (rep 4 dig); ch 47; Grp 2 (rep 2 dig); Eol].

(** [TeacherChessApp.is_archive_recent] on a string URL. *)
Definition is_archive_recent (archive_url : pystr) : bool :=
  match search false archive_url month_re with
  | None => true
  | Some (_, _, c) =>
      let year := GameTime.int_of (group archive_url c 1) in
      let month := GameTime.int_of (group archive_url c 2) in
      let '(ny, nm, _) := DateTime.ymd now in
      ((ny * 12 + nm) - (year * 12 + month) <=? 2)%Z
  end.

End Client.

(* ------------------------------------------------------------------ *)
(** ** [TeacherChessApp.download_pairing_games] and [download_games] *)

Definition recent_days : Z := 14.
Definition archive_month_limit : nat := 18.

(** [TeacherChessApp.sanitize_username] followed by [.lower()]. *)
Definition sanitize_username (username : pystr) : pystr := del_space (strip username).
Definition api_name (username : pystr) : pystr := lower (sanitize_username username).

(** [game.get(side, {}).get("username", "").lower()]. *)
Definition game_user (game : Json) (side : pystr) : result pystr :=
  rbind (dict_get game side (JObj [])) (fun v =>
  rbind (dict_get v (py "username") (JStr [])) (fun u =>
  match u with JStr s => Ok (lower s) | _ => Exn AttributeError end)).

(** [{a, b} == {c, d}] on Python sets. *)
Definition mem (x : pystr) (l : list pystr) : bool := existsb (seqb x) l.
Definition set_eq2 (a b c d : pystr) : bool :=
  mem a [c; d] && mem b [c; d] && mem c [a; b] && mem d [a; b].

(** The participant test of the scan loop. *)
Definition participants_match (white_api black_api : pystr) (game : Json) : result bool :=
  rbind (game_user game (py "white")) (fun game_white =>
  rbind (game_user game (py "black")) (fun game_black =>
  Ok (set_eq2 game_white game_black white_api black_api))).

(** The body of [for game in games:]: whether [game] is appended to
    [matched_games]. *)
Definition keep_game (white_api black_api : pystr) (cutoff : Z) (game : Json) : result bool :=
  rbind (participants_match white_api black_api game) (fun same =>
  if negb same then Ok false else
  rbind (GameTime.extract_game_time game) (fun game_time =>
  match game_time with
  | Some t => Ok (negb (t <? cutoff)%Z)
  | None => Ok true
  end)).

Fixpoint scan_games (white_api black_api : pystr) (cutoff : Z) (games : list Json)
         (matched : list Json) : result (list Json) :=
  match games with
  | [] => Ok matched
  | g :: gs =>
      rbind (keep_game white_api black_api cutoff g) (fun keep =>
      scan_games white_api black_api cutoff gs (if keep then matched ++ [g] else matched))
  end.

(** Archive URLs are strings, else [is_archive_recent] raises
    [TypeError] on the first one that is not (the comprehension visits
    every URL, and never raises on a string). *)
Fixpoint all_str (l : list Json) : result (list pystr) :=
  match l with
  | [] => Ok []
  | JStr s :: l' => rbind (all_str l') (fun r => Ok (s :: r))
  | _ :: _ => Exn TypeError
  end.

Definition nullb {A : Type} (l : list A) : bool := match l with [] => true | _ => false end.

(** [archives[-n:]]. *)
Definition last_n {A : Type} (n : nat) (l : list A) : list A := skipn (length l - n) l.

Definition safe_name (display dflt : pystr) : pystr :=
  let s := map (fun c => if is_alpha_ascii c || is_ascii_digit c || N.eqb c 45 || N.eqb c 95
                         then c else 95%N) display in
  if seqb s [] then dflt else s.

Definition safe_file (s : pystr) : pystr :=
  map (fun c => if inb c [60; 62; 58; 34; 47; 92; 124; 63; 42]%N then 95%N else c) s.

Section Sync.
Variable net : nat -> pystr -> response.
Variable now : Z.
(** Whether [filepath.open("w")] succeeds. *)
Variable can_write : pystr -> bool.

Definition cutoff : Z := (now - recent_days * DateTime.day_us)%Z.

Fixpoint scan_archives (white_api black_api : pystr) (urls : list pystr)
         (matched : list Json) (last_error : pystr) : M (list Json * pystr) :=
  match urls with
  | [] => ret (matched, last_error)
  | archive_url :: rest =>
      '(games, err) <- get_archive_games net archive_url ;;
      if negb (seqb err []) then scan_archives white_api black_api rest matched err
      else
        matched' <- lift (scan_games white_api black_api cutoff games matched) ;;
        scan_archives white_api black_api rest matched' last_error
  end.

(** The save loop over [enumerate(matched_games, 1)]. *)
Fixpoint save_games (folder safe_white safe_black : pystr) (idx : nat)
         (games : list Json) (saved_any : bool) : M bool :=
  match games with
  | [] => ret saved_any
  | game :: rest =>
      pgn <- lift (dict_get game (py "pgn") JNull) ;;
      if negb (truthy pgn) then save_games folder safe_white safe_black (S idx) rest saved_any
      else
        game_time <- lift (GameTime.extract_game_time game) ;;
        let dt_str := DateTime.fmt_stamp (match game_time with Some t => t | None => now end) in
        let filename := safe_file (safe_white ++ py "_vs_" ++ safe_black ++ py "_" ++ dt_str
                                   ++ py "_" ++ str_N (N.of_nat idx) ++ py ".pgn") in
        let filepath := folder ++ py "/" ++ filename in
        if negb (can_write filepath) then save_games folder safe_white safe_black (S idx) rest saved_any
        else
          match pgn with
          | JStr s =>
              write_file filepath (if endswith s (py "
") then s else s ++ py "
") ;;
              save_games folder safe_white safe_black (S idx) rest true
          | _ => write_file filepath [] ;; raise TypeError
          end
  end.

Definition download_pairing_games (white_username black_username white_display black_display
                                   folder : pystr) : M (bool * pystr) :=
  let white_api := api_name white_username in
  let black_api := api_name black_username in
  if seqb white_api [] || seqb black_api [] then ret (false, py "用户名无效") else
  '(archives0, white_err) <- get_player_archives net white_api ;;
  '(archives, black_err, stop) <-
     (match archives0 with
      | [] => '(archives1, black_err) <- get_player_archives net black_api ;;
              match archives1 with
              | [] => ret ([], black_err, true)
              | _ => ret (archives1, black_err, false)
              end
      | _ => ret (archives0, [], false)
      end) ;;
  if stop then
    ret (false, if negb (seqb white_err []) then white_err
                else if negb (seqb black_err []) then black_err
                else py "未找到棋谱归档")
  else
  urls <- lift (all_str archives) ;;
  let considered := match filter (is_archive_recent now) urls with
                    | [] => last_n archive_month_limit urls
                    | recent => recent
                    end in
  '(matched_games, last_error) <- scan_archives white_api black_api (rev considered) [] [] ;;
  match matched_games with
  | [] =>
      if negb (seqb white_err []) && nullb archives then ret (false, white_err)
      else if negb (seqb black_err []) && nullb archives then ret (false, black_err)
      else if negb (seqb last_error []) then ret (false, last_error)
      else ret (false, py "未找到双方在最近" ++ str_Z recent_days ++ py "天的对局")
  | _ =>
      let safe_white := safe_name white_display (py "white") in
      let safe_black := safe_name black_display (py "black") in
      saved_any <- save_games folder safe_white safe_black 1 matched_games false ;;
      if negb saved_any then ret (false, py "找到对局但保存失败")
      else ret (true, py "保存 " ++ str_N (N.of_nat (length matched_games)) ++ py " 局")
  end.

(** The loop of [TeacherChessApp.download_games]: the success count and
    the failure lines, in pairing order. *)
Fixpoint download_loop (folder : pystr) (idx : nat) (ps : list pairing)
         (success : nat) (failed : list pystr) : M (nat * list pystr) :=
  match ps with
  | [] => ret (success, failed)
  | p :: rest =>
      let label := py "第" ++ str_N (N.of_nat idx) ++ py "局 " ++ p_white p ++ py " vs "
                   ++ p_black p in
      if seqb (p_white_username p) NOT_FOUND || seqb (p_black_username p) NOT_FOUND then
        download_loop folder (S idx) rest success (failed ++ [label ++ py " (用户名未匹配)"])
      else
        '(ok, detail) <- download_pairing_games (p_white_username p) (p_black_username p)
                           (p_white p) (p_black p) folder ;;
        if ok then download_loop folder (S idx) rest (S success) failed
        else download_loop folder (S idx) rest success
                           (failed ++ [label ++ py " (" ++ detail ++ py ")"])
  end.

(** The report [下载报告.txt], written once after the loop;
    [report_time] is [datetime.now()] at that moment. *)
Definition report_text (report_time : Z) (class_name round_name : pystr) (total success : nat)
           (failed : list pystr) : pystr :=
  py "下载报告 - " ++ DateTime.fmt_seconds report_time ++ py "
"
  ++ repeat 61%N 60 ++ py "
"
  ++ py "班级: " ++ class_name ++ py "
"
  ++ py "轮次: " ++ round_name ++ py "
"
  ++ py "对阵总数: " ++ str_N (N.of_nat total) ++ py "
"
  ++ py "成功下载: " ++ str_N (N.of_nat success) ++ py "
"
  ++ py "失败: " ++ str_N (N.of_nat (length failed)) ++ py "

"
  ++ match failed with
     | [] => []
     | _ => py "失败详情:
" ++ flat_map (fun item => py "- " ++ item ++ py "
") failed
     end.

Definition download_games (report_time : Z) (class_name round_name folder : pystr)
           (ps : list pairing) : M (nat * nat * list pystr) :=
  '(success, failed) <- download_loop folder 1 ps 0 [] ;;
  write_file (folder ++ py "/下载报告.txt")
             (report_text report_time class_name round_name (length ps) success failed) ;;
  ret (length ps, success, failed).

End Sync.

(* ------------------------------------------------------------------ *)
(** ** The download folder ([TeacherChessApp._prepare_download_folder]) *)

Module Folder.
Import DateTime.

(** [t.strftime("_%Y%m%d_%H%M%S")]. *)
Definition fmt_suffix (t : Z) : pystr :=
  let '(y, m, d) := ymd t in
  py "_" ++ str_Z y ++ pad2 m ++ pad2 d ++ py "_" ++ pad2 (hour t) ++ pad2 (minute t)
  ++ pad2 (second t).

(** The name of the folder under [self.base_dir]; [path_exists] tells whether
    a path already exists there and [now_local] is [datetime.now()]. The
    substitution [re.sub(r"[^0-9A-Za-z\-_]", "_", s) or default] is
    [safe_name]. *)
Definition prepare_download_folder (path_exists : pystr -> bool) (now_local : Z)
           (current_class round_name : pystr) : pystr :=
  let safe_class := safe_name current_class (py "class") in
  let safe_round := safe_name round_name (py "Round") in
  let folder_name := safe_class ++ py "-round-" ++ safe_round in
  if path_exists folder_name then folder_name ++ fmt_suffix now_local else folder_name.

End Folder.

(* ------------------------------------------------------------------ *)
(** ** Student lists and roster edits of [TeacherChessApp] *)

Module Roster.

(** [re.sub(r"^[\s\u3000]*\d+[\.、:：\)\-\s]*", "", line)]: anchored at
    [^], so at most one match, at position 0. *)
Definition student_marker_re : regex :=
  seq [Bol; Star true (Alt spc (ch 12288)); plus dig;
       Star true (Alt (one_of [46; 12289; 58; 65306; 41; 45]%N) spc)].

Definition strip_student_marker (line : pystr) : pystr :=
  match search false line student_marker_re with
  | Some (i, j, _) => firstn i line ++ skipn j line
  | None => line
  end.

(** The start of the last occurrence of [sep] in [s]. *)
Fixpoint rfind_from (sep s : pystr) (i : nat) (acc : option nat) : option nat :=
  match s with
  | [] => acc
  | _ :: s' => rfind_from sep s' (S i) (if is_prefix sep s then Some i else acc)
  end.

(** [s.rsplit(sep, 1)] when [sep in s] (a non-empty [sep]). *)
Definition rsplit1 (s sep : pystr) : option (pystr * pystr) :=
  match rfind_from sep s 0 None with
  | Some i => Some (firstn i s, skipn (i + length sep) s)
  | None => None
  end.

Definition separators : list pystr := [py "->"; py "："; py ":"; py "-"; py "—"].

(** [for sep in (...): if sep in line: left, right = line.rsplit(sep, 1);
    ...; break]. *)
Fixpoint first_sep (seps : list pystr) (line : pystr) : option (pystr * pystr) :=
  match seps with
  | [] => None
  | sep :: seps' =>
      match rsplit1 line sep with
      | Some (lft, rgt) => Some (strip lft, strip rgt)
      | None => first_sep seps' line
      end
  end.

(** [sep.join(l)]. *)
Fixpoint join (sep : pystr) (l : list pystr) : pystr :=
  match l with
  | [] => []
  | [x] => x
  | x :: l' => x ++ sep ++ join sep l'
  end.

(** [re.split(r"[:：]", s)]. *)
Definition is_colon (c : N) : bool := N.eqb c 58 || N.eqb c 65306.
Fixpoint split_on_aux (p : N -> bool) (s cur : pystr) : list pystr :=
  match s with
  | [] => [rev cur]
  | c :: s' => if p c then rev cur :: split_on_aux p s' [] else split_on_aux p s' (c :: cur)
  end.
Definition split_on (p : N -> bool) (s : pystr) : list pystr := split_on_aux p s [].

(** One iteration of the loop of [TeacherChessApp.parse_students_list]:
    the (name, username) stored for the line, if any. *)
Definition parse_student_line (raw : pystr) : option (pystr * pystr) :=
  let line := strip raw in
  if seqb line [] then None else
  let line := strip (strip_student_marker line) in
  let found := match first_sep separators line with
               | Some nu => Some nu
               | None =>
                   let items := split line in
                   if Nat.leb 2 (length items)
                   then Some (strip (join (py " ") (removelast items)), strip (last items []))
                   else None
               end in
  match found with
  | None => None
  | Some (name, username) =>
      if negb (seqb name []) && negb (seqb username []) then
        let '(name, username) :=
          if existsb is_colon username then
            let parts := split_on is_colon username in
            let username_candidate := strip (last parts []) in
            let name_tail := join (py " ")
                                  (filter (fun p => negb (seqb p [])) (map strip (removelast parts))) in
            if negb (seqb username_candidate []) then
              (if negb (seqb name_tail []) then strip (name ++ py " " ++ name_tail) else name,
               username_candidate)
            else (name, username)
          else (name, username) in
        let username := sanitize_username username in
        if seqb username [] then None else Some (name, username)
      else None
  end.

(** [students[name] = username] for each stored line. *)
Definition parse_students_list (content : pystr) : roster :=
  fold_left (fun students raw =>
               match parse_student_line raw with
               | Some (name, username) => assoc_put students name username
               | None => students
               end) (splitlines content) [].

(** [dict.update(other)]. *)
Definition dict_update (st other : roster) : roster :=
  fold_left (fun acc kv => assoc_put acc (fst kv) (snd kv)) other st.

(** [dict.pop(k, None)]. *)
Fixpoint dict_pop {A : Type} (l : list (pystr * A)) (k : pystr) : list (pystr * A) :=
  match l with
  | [] => []
  | (k', v) :: l' => if seqb k' k then l' else (k', v) :: dict_pop l' k
  end.

(** [import_students_paste] / [import_students_file] after the content is
    read: [None] where the parse is empty and nothing changes. *)
Definition import_students (st : roster) (content : pystr) : option roster :=
  let parsed := parse_students_list content in
  match parsed with
  | [] => None
  | _ => Some (dict_update st parsed)
  end.

(** [StudentDialog._on_ok]: the dialog only closes with a result when both
    stripped entries are non-empty. *)
Definition student_dialog (name_entry username_entry : pystr) : option (pystr * pystr) :=
  let name := strip name_entry in
  let username := strip username_entry in
  if seqb name [] || seqb username [] then None else Some (name, username).

(** [add_student_manual]: [None] where it returns without a change. *)
Definition add_student_manual (current_class : pystr) (st : roster)
           (dialog_result : option (pystr * pystr)) : option roster :=
  if seqb current_class [] then None else
  match dialog_result with
  | None => None
  | Some (name, username) =>
      let username := sanitize_username username in
      if seqb username [] then None else Some (assoc_put st name username)
  end.

(** [edit_student] on the selected row [name]. *)
Definition edit_student (current_class : pystr) (st : roster) (name : pystr)
           (dialog_result : option (pystr * pystr)) : option roster :=
  if seqb current_class [] then None else
  match dialog_result with
  | None => None
  | Some (new_name, new_username) =>
      let new_username := sanitize_username new_username in
      if seqb new_username [] then None else
      let st1 := if negb (seqb new_name name) then dict_pop st name else st in
      Some (assoc_put st1 new_name new_username)
  end.

End Roster.

(* ------------------------------------------------------------------ *)
(** ** Classes ([create_class], [delete_class], [_refresh_students_ref])

    [self.classes_data] as a dict from class name to the class's JSON
    value, and [self.current_class]. *)

Module Classes.

Definition classes := list (pystr * Json).

(** [_refresh_students_ref]: the new [self.students], and the classes
    after [info.setdefault("students", {})] (which inserts into the
    class's dict when the key is missing). *)
Definition refresh_students_ref (cd : classes) (current_class : pystr) : Json * classes :=
  if seqb current_class [] then (JObj [], cd) else
  match assoc_get cd current_class with
  | Some (JObj kvs) =>
      match obj_lookup kvs (py "students") with
      | Some s => (s, cd)
      | None => (JObj [], assoc_put cd current_class (JObj (kvs ++ [(py "students", JObj [])])))
      end
  | Some _ => (JObj [], cd)
  | None => (JObj [], cd)
  end.

Definition first_key {A : Type} (l : list (pystr * A)) : pystr :=
  match l with (k, _) :: _ => k | [] => [] end.

(** [create_class], given the two [simple_input] answers (already
    stripped, [None] on cancel) and today's [%Y-%m-%d]: [None] where it
    returns without a change, else the classes, the current class and
    the students. *)
Definition create_class (cd : classes) (name_input desc_input : option pystr) (today : pystr)
  : option (classes * pystr * Json) :=
  match name_input with
  | None => None
  | Some name =>
      if seqb name [] then None else
      if existsb (fun k => seqb k name) (map fst cd) then None else
      let desc := match desc_input with Some d => d | None => [] end in
      let cd1 := assoc_put cd name (JObj [(py "created_date", JStr today);
                                          (py "description", JStr desc);
                                          (py "students", JObj [])]) in
      let '(students, cd2) := refresh_students_ref cd1 name in
      Some (cd2, name, students)
  end.

(** [delete_class] once confirmed. *)
Definition delete_class (cd : classes) (current_class : pystr) : option (classes * pystr * Json) :=
  if seqb current_class [] then None else
  let cd1 := Roster.dict_pop cd current_class in
  let current := match cd1 with [] => [] | _ => first_key cd1 end in
  let '(students, cd2) := refresh_students_ref cd1 current in
  Some (cd2, current, students).

End Classes.

(* ------------------------------------------------------------------ *)
(** ** Loading [classes.json] ([TeacherChessApp.load_data])

    The state part of [load_data]: the loaded [self.classes_data], the
    normalised [self.current_class] and the [self.students] chosen by
    [_refresh_students_ref].  The widget refresh that follows is not
    modelled. *)

Module Load.

Inductive load_exn : Type :=
| LTypeError
| LKeyError
| LIndexError.

Inductive outcome (A : Type) : Type :=
| Done (a : A)
| Raised (e : load_exn).
Arguments Done {A} a.
Arguments Raised {A} e.

Definition num_val (j : Json) : option Q :=
  match j with
  | JBool b => Some (if b then 1 else 0)%Q
  | JInt z => Some (inject_Z z)
  | JFloat q => Some q
  | _ => None
  end.

(** Python [==] on decoded JSON values ([bool] is an [int]; dicts compare
    by their effective keys and values). *)
Fixpoint py_eq (a b : Json) {struct a} : bool :=
  match a with
  | JNull => match b with JNull => true | _ => false end
  | JBool _ | JInt _ | JFloat _ =>
      match num_val a, num_val b with Some x, Some y => Qeq_bool x y | _, _ => false end
  | JStr s => match b with JStr t => seqb s t | _ => false end
  | JArr la =>
      match b with
      | JArr lb =>
          (fix go (la lb : list Json) : bool :=
             match la, lb with
             | [], [] => true
             | x :: la', y :: lb' => py_eq x y && go la' lb'
             | _, _ => false
             end) la lb
      | _ => false
      end
  | JObj ka =>
      match b with
      | JObj kb =>
          (fix go (l : list (pystr * Json)) : bool :=
             match l with
             | [] => true
             | (k, v) :: l' =>
                 (existsb (fun kv => seqb (fst kv) k) l'
                  || match obj_lookup kb k with Some v' => py_eq v v' | None => false end)
                 && go l'
             end) ka
          && forallb (fun kv => match obj_lookup ka (fst kv) with Some _ => true | None => false end) kb
      | _ => false
      end
  end.

(** [item in container]. *)
Definition py_in (item container : Json) : outcome bool :=
  match container with
  | JObj kvs =>
      match item with
      | JArr _ | JObj _ => Raised LTypeError
      | JStr s => Done (existsb (fun kv => seqb (fst kv) s) kvs)
      | _ => Done false
      end
  | JArr l => Done (existsb (py_eq item) l)
  | JStr s => match item with JStr t => Done (contains s t) | _ => Raised LTypeError end
  | _ => Raised LTypeError
  end.

(** [next(iter(container), default)]. *)
Definition next_iter (container default : Json) : outcome Json :=
  match container with
  | JObj ((k, _) :: _) => Done (JStr k)
  | JArr (x :: _) => Done x
  | JStr (c :: _) => Done (JStr [c])
  | JObj [] | JArr [] | JStr [] => Done default
  | _ => Raised LTypeError
  end.

(** [container[key]]. *)
Definition py_index {A : Type} (l : list A) (z : Z) : outcome A :=
  let n := Z.of_nat (length l) in
  let i := if (z <? 0)%Z then (z + n)%Z else z in
  if ((0 <=? i) && (i <? n))%Z then
    match nth_error l (Z.to_nat i) with Some x => Done x | None => Raised LIndexError end
  else Raised LIndexError.

Definition subscript (container key : Json) : outcome Json :=
  match container with
  | JObj kvs =>
      match key with
      | JArr _ | JObj _ => Raised LTypeError
      | JStr s => match obj_lookup kvs s with Some v => Done v | None => Raised LKeyError end
      | _ => Raised LKeyError
      end
  | JArr l =>
      match key with
      | JInt z => py_index l z
      | JBool b => py_index l (if b then 1 else 0)%Z
      | _ => Raised LTypeError
      end
  | JStr s =>
      match key with
      | JInt z => match py_index s z with Done c => Done (JStr [c]) | Raised e => Raised e end
      | JBool b => match py_index s (if b then 1 else 0)%Z with
                   | Done c => Done (JStr [c]) | Raised e => Raised e end
      | _ => Raised LTypeError
      end
  | _ => Raised LTypeError
  end.

(** [d[k] = v] on a decoded dict whose key [k] is present: the entry
    that [k] denotes is its last occurrence. *)
Fixpoint obj_set_last (kvs : list (pystr * Json)) (k : pystr) (v : Json) : list (pystr * Json) :=
  match kvs with
  | [] => []
  | (k', v') :: l =>
      if seqb k' k && negb (existsb (fun kv => seqb (fst kv) k) l) then (k', v) :: l
      else (k', v') :: obj_set_last l k v
  end.

Fixpoint list_set {A : Type} (l : list A) (n : nat) (x : A) : list A :=
  match l, n with
  | [], _ => []
  | _ :: l', O => x :: l'
  | y :: l', S n' => y :: list_set l' n' x
  end.

(** [container[key] = v], right after [container[key]] succeeded (so the
    key is present, or the index in range). *)
Definition py_setitem (container key v : Json) : Json :=
  match container with
  | JObj kvs => match key with JStr s => JObj (obj_set_last kvs s v) | _ => container end
  | JArr l =>
      let idx := match key with
                 | JInt z => Some z
                 | JBool b => Some (if b then 1 else 0)%Z
                 | _ => None
                 end in
      match idx with
      | Some z =>
          let n := Z.of_nat (length l) in
          JArr (list_set l (Z.to_nat (if (z <? 0)%Z then (z + n)%Z else z)) v)
      | None => container
      end
  | _ => container
  end.

(** [_refresh_students_ref] on the loaded values: the new
    [self.students] and [self.classes_data] after
    [info.setdefault("students", {})], which adds the key to the class's
    dict when it is missing. *)
Definition refresh_students (classes_data current_class : Json) : outcome (Json * Json) :=
  if negb (truthy current_class) then Done (JObj [], classes_data) else
  match py_in current_class classes_data with
  | Raised e => Raised e
  | Done false => Done (JObj [], classes_data)
  | Done true =>
      match subscript classes_data current_class with
      | Raised e => Raised e
      | Done (JObj info) =>
          match obj_lookup info (py "students") with
          | Some s => Done (s, classes_data)
          | None => Done (JObj [], py_setitem classes_data current_class
                                     (JObj (info ++ [(py "students", JObj [])])))
          end
      | Done _ => Done (JObj [], classes_data)
      end
  end.

(** [file] is [None] when [classes.json] does not exist, [Some None] when
    reading or decoding it raises, and [Some (Some data)] otherwise.  The
    result is [self.classes_data], [self.current_class] and
    [self.students]. *)
Definition load_data (file : option (option Json)) : outcome (Json * Json * Json) :=
  match file with
  | None | Some None => Done (JObj [], JStr [], JObj [])
  | Some (Some data) =>
      let '(classes_data, current_class) :=
        match data with
        | JObj kvs =>
            match obj_lookup kvs (py "classes") with
            | Some c => (c, match obj_lookup kvs (py "current_class") with
                            | Some v => v | None => JStr [] end)
            | None => (data, match kvs with (k, _) :: _ => JStr k | [] => JStr [] end)
            end
        | _ => (JObj [], JStr [])
        end in
      match py_in current_class classes_data with
      | Raised e => Raised e
      | Done present =>
          match (if present then Done current_class else next_iter classes_data (JStr [])) with
          | Raised e => Raised e
          | Done current_class =>
              match refresh_students classes_data current_class with
              | Raised e => Raised e
              | Done (students, classes_data') => Done (classes_data', current_class, students)
              end
          end
      end
  end.


End Load.

(* ------------------------------------------------------------------ *)
(** ** Student lists of [ChessToolTabs] ([chess_simple.py]) *)

Module SimpleRoster.

(** [s.split(sep)] for a non-empty [sep]: cut at each occurrence, left to
    right, without overlap.  [fuel] bounds the scan; one more than the
    length of [s] is enough. *)
Fixpoint split_sub_aux (sep : pystr) (fuel : nat) (s cur : pystr) : list pystr :=
  match fuel with
  | O => [rev cur ++ s]
  | S f =>
      match s with
      | [] => [rev cur]
      | c :: s' =>
          if is_prefix sep s then rev cur :: split_sub_aux sep f (skipn (length sep) s) []
          else split_sub_aux sep f s' (c :: cur)
      end
  end.

Definition split_sub (sep s : pystr) : list pystr := split_sub_aux sep (S (length s)) s [].

(** [re.sub(r'^\d+[\.\)]\s*', '', line)]. *)
Definition simple_marker_re : regex :=
  seq [Bol; plus dig; one_of [46; 41]%N; Star true spc].

Definition strip_simple_marker (line : pystr) : pystr :=
  match search false line simple_marker_re with
  | Some (i, j, _) => firstn i line ++ skipn j line
  | None => line
  end.

(** One iteration of the loop of [ChessToolTabs.parse_students_list]: the
    entry stored for the line, if any. *)
Definition parse_line (raw : pystr) : option (pystr * pystr) :=
  let line := strip raw in
  if seqb line [] then None else
  let line := strip_simple_marker line in
  if contains line (py "->") then
    match split_sub (py "->") line with
    | [a; b] => Some (strip a, strip b)
    | _ => None
    end
  else
    let parts := split line in
    if Nat.leb 2 (length parts) then Some (Roster.join (py " ") (removelast parts), last parts [])
    else match parts with [p] => Some (p, p) | _ => None end.

(** [ChessToolTabs.parse_students_list]. *)
Definition parse_students_list (content : pystr) : roster :=
  fold_left (fun students line =>
               match parse_line line with
               | Some (name, username) => assoc_put students name username
               | None => students
               end) (split_sub [10%N] (strip content)) [].

End SimpleRoster.

(* ------------------------------------------------------------------ *)
(** ** Predicates used by the further properties below *)

(** The list does not start with a white-space character. *)
Definition NL (l : pystr) : Prop :=
  match l with c :: _ => is_space c = false | [] => True end.

(** A stored student: a non-empty stripped name and a non-empty username
    with no white space. *)
Definition student_ok (name u : pystr) : Prop :=
  name <> [] /\ strip name = name /\ u <> [] /\ forallb (fun c => negb (is_space c)) u = true.

(** The characters kept by [re.sub(r"[^0-9A-Za-z\-_]", "_", ...)]. *)
Definition safe_char (c : N) : bool :=
  is_alpha_ascii c || is_ascii_digit c || N.eqb c 45 || N.eqb c 95.

(** The archive index URL of [get_player_archives]. *)
Definition index_url (u : pystr) : pystr :=
  py "https://api.chess.com/pub/player/" ++ u ++ py "/games/archives".

(** The class record written by [create_class]. *)
Definition new_class_info (desc today : pystr) : Json :=
  JObj [(py "created_date", JStr today); (py "description", JStr desc); (py "students", JObj [])].

(** The separator "->". *)
Definition arrow : pystr := [45; 62]%N.

(** The file table after a sequence of writes [(path, content)], in
    order. *)
Definition apply_writes (fs ws : list (pystr * pystr)) : list (pystr * pystr) :=
  fold_left (fun acc pc => assoc_put acc (fst pc) (snd pc)) ws fs.

(** A computation that writes no file. *)
Definition keeps_files {A : Type} (m : M A) : Prop :=
  forall w r w', m w = (r, w') -> files w' = files w.

(* ------------------------------------------------------------------ *)
(** ** Concrete sessions and inputs used by the examples below *)

Definition pair_names (p : pairing) : pystr * pystr := (p_white p, p_black p).

Definition w0 : world := mk_world [] [] [].

(** A service whose archive index answers [200] with a JSON list instead
    of an object. *)
Definition net_list_body (n : nat) (url : pystr) : response := RResp 200 (Some (JArr [])).

Definition three_pairings : list pairing :=
  [ mk_pairing (py "Alice") (py "Bob") (py "alice99") (py "bob77");
    mk_pairing (py "Carol") (py "Dan") (py "carol1") (py "dan2");
    mk_pairing (py "Eve") (py "Finn") (py "eve3") (py "finn4") ].

Definition net_timeout (n : nat) (url : pystr) : response := RTimeout (py "timed out").
Definition net_conn_error (n : nat) (url : pystr) : response := RError (py "timed out").

Definition game_ab : Json :=
  JObj [(py "white", JObj [(py "username", JStr (py "alice99"))]);
        (py "black", JObj [(py "username", JStr (py "bob77"))]);
        (py "end_time", JInt 1704104430);
        (py "pgn", JStr (py "1. e4 e5"))].

(** The first GET times out, later ones succeed. *)
Definition net_flaky (n : nat) (url : pystr) : response :=
  match n with
  | O => RTimeout (py "timed out")
  | S _ => RResp 200 (Some (JObj [(py "games", JArr [game_ab])]))
  end.

Definition archive_url : pystr := py "https://api.chess.com/pub/player/alice99/games/2024/01".

Definition roster_alice : roster := [(py "Alice", py "alice99")].
Definition roster_three : roster :=
  [(py "Alice Smith", py "as1"); (py "Alice", py "alice99"); (py "Bob Smith", py "bob77")].
Definition roster_cn : roster :=
  [(py "Alice", py "alice99"); (py "迈克尔乔丹", py "mj23"); (py "Bob Smith", py "bob77")].

Definition now_at_cutoff : Z := (1704104430 * DateTime.us_per_s + 14 * DateTime.day_us)%Z.

Definition game_untimed : Json :=
  JObj [(py "white", JObj [(py "username", JStr (py "Bob77"))]);
        (py "black", JObj [(py "username", JStr (py "alice99"))]);
        (py "pgn", JStr (py "1. d4 d5"))].

Definition roster_bob : roster := [(py "Bobby", py "u1"); (py " Bob", py "u2")].

Definition game_swapped : Json :=
  JObj [(py "white", JObj [(py "username", JStr (py "bob"))]);
        (py "black", JObj [(py "username", JStr (py "alice"))])].

(** A service whose index lists one archive, which holds [game_ab]. *)
Definition net_one_archive (n : nat) (url : pystr) : response :=
  match n with
  | O => RResp 200 (Some (JObj [(py "archives", JArr [JStr archive_url])]))
  | _ => RResp 200 (Some (JObj [(py "games", JArr [game_ab])]))
  end.

(** One day after [game_ab] ended. *)
Definition now_recent : Z := (1704104430 * DateTime.us_per_s + DateTime.day_us)%Z.

Definition pairing_ab : pairing := mk_pairing (py "Alice") (py "Bob") (py "alice99") (py "bob77").

Definition sync_run : result (bool * pystr) * world :=
  download_pairing_games net_one_archive now_recent (fun _ => true) (py "alice99") (py "bob77")
                         (py "Alice") (py "Bob") (py "out") w0.

(** The local time when the report is written, eight hours ahead of UTC. *)
Definition local_recent : Z := (now_recent + 8 * 3600 * DateTime.us_per_s)%Z.

Definition batch_run : result (nat * nat * list pystr) * world :=
  download_games net_one_archive now_recent (fun _ => true) local_recent (py "C") (py "R") (py "out")
                 [pairing_ab] w0.

Definition w_t1 : world := snd (get_player_archives net_timeout (api_name (py "alice99")) w0).
Definition w_t2 : world := snd (get_player_archives net_timeout (api_name (py "bob77")) w_t1).

Definition pairing_unresolved : pairing :=
  mk_pairing (py "Alice") (py "Bob") NOT_FOUND (py "bob77").

Definition classes_ab : Classes.classes :=
  [(py "A", JObj []); (py "B", JObj [(py "students", JObj [])])].

Definition classes_one : list (pystr * Json) :=
  [(py "A", JObj [(py "students", JObj [(py "Al", JStr (py "al"))])])].


Definition data_list_current : list (pystr * Json) :=
  [(py "classes", JObj classes_one); (py "current_class", JArr [])].



(* ================================================================== *)
(** * Properties *)

Module Facts.

Lemma seqb_eq (a b : pystr) : seqb a b = true <-> a = b.
Proof.
  revert b; induction a as [|x a IH]; intros [|y b]; simpl; split; intro H;
    try discriminate; try reflexivity.
  - apply andb_true_iff in H as [H1 H2].
    apply N.eqb_eq in H1; apply IH in H2; subst; reflexivity.
  - injection H as -> ->. rewrite N.eqb_refl; simpl. apply IH; reflexivity.
Qed.

Lemma seqb_refl (a : pystr) : seqb a a = true.
Proof. apply seqb_eq; reflexivity. Qed.

Lemma seqb_false (a b : pystr) : seqb a b = false <-> a <> b.
Proof.
  split; intro H.
  - intro E; apply seqb_eq in E; congruence.
  - destruct (seqb a b) eqn:E; [apply seqb_eq in E; contradiction | reflexivity].
Qed.

Lemma assoc_get_put {A : Type} (l : list (pystr * A)) (k : pystr) (v : A) :
  assoc_get (assoc_put l k v) k = Some v.
Proof.
  induction l as [|[k' v'] l IH]; simpl.
  - rewrite seqb_refl; reflexivity.
  - destruct (seqb k' k) eqn:E; simpl.
    + rewrite seqb_refl; reflexivity.
    + rewrite E; exact IH.
Qed.

Lemma first_entry_none (p : pystr -> bool) (st : roster) :
  (forall rn, p rn = false) -> first_entry p st = None.
Proof.
  intro Hp; induction st as [|[rn u] st IH]; simpl; [reflexivity|].
  rewrite Hp; exact IH.
Qed.

Lemma contains_nil (b : pystr) : contains b [] = true.
Proof. destruct b; reflexivity. Qed.

Lemma lower_nil (s : pystr) : lower s = [] <-> s = [].
Proof.
  unfold lower; destruct s as [|c s]; simpl; split; intro H; try congruence.
  destruct (c =? 304)%N; [|destruct (c =? 931)%N]; discriminate H.
Qed.

Lemma strip_nil : strip [] = [].
Proof. reflexivity. Qed.

(** In a dict ([NoDup] keys) the lookup of a present key yields its
    value. *)
Lemma lookup_in (st : roster) (k u : pystr) :
  NoDup (map fst st) -> In (k, u) st -> lookup st k = Some u.
Proof.
  induction st as [|[k' v] st IH]; simpl; intros Hnd Hin; [contradiction|].
  inversion Hnd as [|? ? Hnotin Hnd']; subst.
  destruct Hin as [E | Hin].
  - injection E as -> ->. rewrite seqb_refl; reflexivity.
  - destruct (seqb k' k) eqn:E.
    + apply seqb_eq in E; subst. exfalso; apply Hnotin.
      apply (in_map fst) in Hin; exact Hin.
    + apply IH; assumption.
Qed.

Lemma mem2 (x u v : pystr) : mem x [u; v] = true <-> x = u \/ x = v.
Proof.
  unfold mem; simpl; rewrite orb_false_r, orb_true_iff, !seqb_eq.
  split; intros [H|H]; subst; auto.
Qed.

(** Python set equality of two two-element literals. *)
Lemma set_eq2_iff (a b c d : pystr) :
  set_eq2 a b c d = true <-> (a = c /\ b = d) \/ (a = d /\ b = c).
Proof.
  unfold set_eq2; rewrite !andb_true_iff, !mem2.
  split.
  - intros [[[[H1|H1] [H2|H2]] [H3|H3]] [H4|H4]]; subst; auto.
  - intros [[-> ->]|[-> ->]]; auto 10.
Qed.

End Facts.
Import Facts.

(* ------------------------------------------------------------------ *)
(** ** C1: pairing extraction on the examples of the spec *)

(** C1 (code defect).  On ["1. Alice vs Bob"] the list marker is removed,
    but the first pattern's [[vs对战VS]] is a character class matching
    ONE character, so the two-letter marker [vs] is never recognised and
    the last-whitespace fallback yields ("Alice", "vs Bob") instead of
    ("Alice", "Bob").  ["Li:lisi99"] gives ("Li", "lisi99") and a blank
    line gives no pairing, whatever the roster. *)
Theorem C1_vs_marker_missed (st : roster) :
  map pair_names (Parse.parse_pairings_content st (py "1. Alice vs Bob"))
    = [(py "Alice", py "vs Bob")]
  /\ map pair_names (Parse.parse_pairings_content st (py "Li:lisi99"))
    = [(py "Li", py "lisi99")]
  /\ Parse.parse_pairings_content st (py "  ") = [].
Proof. repeat split; vm_compute; reflexivity. Qed.

(* ------------------------------------------------------------------ *)
(** ** C2: a fault while syncing one pairing aborts the batch *)

(** C2 (code defect).  [TeacherChessApp.download_games] has no handler
    around [download_pairing_games] (unlike [ChessToolTabs.download_games],
    which catches [Exception] per pairing): when the first pairing's
    archive index is a JSON list, [data.get] raises [AttributeError], the
    batch stops after that single request, pairings 2 and 3 are never
    attempted and no report is written. *)
Theorem C2_batch_aborts_on_fault (now report_time : Z) (cw : pystr -> bool) :
  download_games net_list_body now cw report_time (py "class") (py "R1") (py "out") three_pairings w0
  = (Exn AttributeError,
     mk_world [] [py "https://api.chess.com/pub/player/alice99/games/archives"] []).
Proof. vm_compute; reflexivity. Qed.

(* ------------------------------------------------------------------ *)
(** ** C4: a timeout of the archive index is reported as a network error *)

(** C4 (code defect).  [get_player_archives] catches [requests.Timeout]
    only through [except requests.RequestException], so a timeout gives
    the same generic reason ["网络错误: ..."] as any other transport
    error, whereas [get_archive_games] has its own [except requests.Timeout]
    branch with the reason ["请求超时"]. *)
Theorem C4_timeout_not_distinct :
  fst (get_player_archives net_timeout (py "alice99") w0)
    = Ok ([], py "网络错误: timed out")
  /\ fst (get_player_archives net_timeout (py "alice99") w0)
     = fst (get_player_archives net_conn_error (py "alice99") w0)
  /\ fst (get_archive_games net_timeout (py "https://x/2024/01") w0)
     = Ok ([], py "请求超时").
Proof. repeat split; vm_compute; reflexivity. Qed.

(* ------------------------------------------------------------------ *)
(** ** C5: the archive cache *)

(** C5 counterexample: a failed fetch is not cached, so the second call
    with the same reference issues a second request and returns a
    different result. *)
Lemma C5_failed_fetch_refetched :
  let '(r1, w1) := get_archive_games net_flaky archive_url w0 in
  let '(r2, w2) := get_archive_games net_flaky archive_url w1 in
  length (requests w2) = 2%nat /\ r1 = Ok ([], py "请求超时") /\ r2 = Ok ([game_ab], []).
Proof. vm_compute; repeat split; reflexivity. Qed.

(** C5 (amended).  A cached reference is answered from the cache with no
    request, no state change and no failure reason; a call that returns
    games with no failure reason leaves them cached, so a second call
    with the same reference issues no request and returns the identical
    games; and a call that fails (a failure reason or an exception)
    caches nothing after issuing one request, so a second call with the
    same reference issues a new request. *)
Theorem C5_cache_hit_and_refetch (net : nat -> pystr -> response) (url : pystr) (w : world) :
  (forall g, assoc_get (cache w) url = Some g ->
             get_archive_games net url w = (Ok (g, []), w))
  /\ (forall g w1, get_archive_games net url w = (Ok (g, []), w1) ->
                   assoc_get (cache w1) url = Some g
                   /\ get_archive_games net url w1 = (Ok (g, []), w1))
  /\ (forall r w1, get_archive_games net url w = (r, w1) -> (forall g, r <> Ok (g, [])) ->
                   cache w1 = cache w /\ assoc_get (cache w1) url = None
                   /\ requests w1 = requests w ++ [url]
                   /\ requests (snd (get_archive_games net url w1)) = requests w1 ++ [url]).
Proof.
  split; [|split].
  - intros g Hc. unfold get_archive_games; rewrite Hc; reflexivity.
  - intros g w1 H.
    assert (Hc1 : assoc_get (cache w1) url = Some g).
    { unfold get_archive_games in H.
      destruct (assoc_get (cache w) url) as [g0|] eqn:Hc.
      - injection H as -> ->. exact Hc.
      - unfold bind, http_get in H; simpl in H.
        destruct (net (length (requests w)) url) as [m|m|code body];
          try (vm_compute in H; discriminate).
        destruct (negb (Z.eqb code 200)).
        + destruct (Z.eqb code 403); vm_compute in H; discriminate.
        + destruct body as [body|]; [|vm_compute in H; discriminate].
          cbn in H.
          destruct body as [| | | | | |kvs]; cbn in H;
            try (destruct (obj_lookup kvs _) as [v|]; cbn in H; try (destruct v; cbn in H));
            inversion H; subst; cbn; apply assoc_get_put. }
    split; [exact Hc1|].
    unfold get_archive_games; rewrite Hc1; reflexivity.
  - intros r w1 H Hr.
    assert (Hw1 : assoc_get (cache w) url = None
                  /\ w1 = mk_world (cache w) (requests w ++ [url]) (files w)).
    { unfold get_archive_games in H.
      destruct (assoc_get (cache w) url) as [g0|] eqn:Hc.
      - injection H as <- _. exfalso; exact (Hr g0 eq_refl).
      - split; [reflexivity|].
        unfold bind, http_get in H; simpl in H.
        destruct (net (length (requests w)) url) as [m|m|code body];
          try (injection H as _ <-; reflexivity).
        destruct (negb (Z.eqb code 200)).
        + destruct (Z.eqb code 403); injection H as _ <-; reflexivity.
        + destruct body as [body|]; [|injection H as _ <-; reflexivity].
          cbn in H.
          destruct body as [| | | | | |kvs]; cbn in H.
          7: { destruct (obj_lookup kvs _) as [v|]; cbn in H; [destruct v; cbn in H|];
               injection H as HR HW; subst; try reflexivity;
               exfalso; eapply Hr; reflexivity. }
          all: injection H as HR HW; subst; exfalso; eapply Hr; reflexivity. }
    destruct Hw1 as [Hc Hw1]. subst w1. cbn.
    split; [reflexivity|]. split; [exact Hc|]. split; [reflexivity|].
    unfold get_archive_games; cbn. rewrite Hc.
    unfold bind, http_get; cbn.
    destruct (net (length (requests w ++ [url])) url) as [m|m|code body]; try reflexivity.
    destruct (negb (Z.eqb code 200)); [destruct (Z.eqb code 403); reflexivity|].
    destruct body as [body|]; [|reflexivity]. cbn.
    destruct body as [| | | | | |kvs]; try reflexivity; cbn.
    destruct (obj_lookup kvs _) as [v|]; cbn; [destruct v|]; reflexivity.
Qed.

(* ------------------------------------------------------------------ *)
(** ** C3: tier 7 of the resolver *)

(** C3 counterexample: [[^\w]] keeps the underscore.  For the token
    ["Al_ice"] tiers 1 to 6 fail, the strings are equal once every
    non-alphanumeric character is removed ("alice"), yet both resolvers
    answer "未找到". *)
Lemma C3_underscore_kept :
  let tok := py "Al_ice" in
  Teacher.tier1 roster_alice tok = None /\ Teacher.tier2 roster_alice (lower tok) = None
  /\ Teacher.tier3 roster_alice (lower tok) = None /\ Teacher.tier4 roster_alice (lower tok) = None
  /\ Teacher.tier5 roster_alice (lower tok) = None /\ Teacher.tier6 roster_alice (lower tok) = None
  /\ Simple.tier1 roster_alice tok = None /\ Simple.tier2 roster_alice tok = None
  /\ Simple.tier3 roster_alice tok = None /\ Simple.tier4 roster_alice tok = None
  /\ Simple.tier5 roster_alice tok = None /\ Simple.tier6 roster_alice tok = None
  /\ filter (fun c => is_alpha_ascii c || is_ascii_digit c) (lower tok)
     = filter (fun c => is_alpha_ascii c || is_ascii_digit c) (lower (py "Alice"))
  /\ Teacher.find_username roster_alice tok = NOT_FOUND
  /\ Simple.find_username roster_alice tok = NOT_FOUND.
Proof. vm_compute; repeat split. Qed.

(** C3 (amended).  Once tiers 1 to 6 fail on the stripped token, tier 7
    compares the token and each roster name after lower-casing and
    deleting every character outside [\w] (letters, digits, underscore).
    [TeacherChessApp.find_username] answers the username of the first
    entry whose cleaned name equals the non-empty cleaned token;
    [ChessToolTabs.find_username] the first entry whose cleaned name
    equals the cleaned token, or contains it or is contained in it with a
    length difference of at most 2; otherwise "未找到". *)
Theorem C3_tier7_normalized (st : roster) (name0 : pystr) :
  (Teacher.tier1 st (strip name0) = None
   /\ Teacher.tier2 st (lower (strip name0)) = None
   /\ Teacher.tier3 st (lower (strip name0)) = None
   /\ Teacher.tier4 st (lower (strip name0)) = None
   /\ Teacher.tier5 st (lower (strip name0)) = None
   /\ Teacher.tier6 st (lower (strip name0)) = None ->
   Teacher.find_username st name0 =
     match first_entry (fun rn =>
             let a := del_nonword (lower (strip name0)) in
             negb (seqb a []) && seqb a (del_nonword (lower rn))) st with
     | Some u => u
     | None => NOT_FOUND
     end)
  /\
  (Simple.tier1 st (strip name0) = None /\ Simple.tier2 st (strip name0) = None
   /\ Simple.tier3 st (strip name0) = None /\ Simple.tier4 st (strip name0) = None
   /\ Simple.tier5 st (strip name0) = None /\ Simple.tier6 st (strip name0) = None ->
   Simple.find_username st name0 =
     match first_entry (fun rn =>
             let a := del_nonword (lower (strip name0)) in
             let b := del_nonword (lower rn) in
             seqb a b
             || ((contains b a || contains a b)
                 && (Z.abs (Z.of_nat (length a) - Z.of_nat (length b)) <=? 2)%Z)) st with
     | Some u => u
     | None => NOT_FOUND
     end).
Proof.
  split.
  - intros (H1 & H2 & H3 & H4 & H5 & H6).
    unfold Teacher.find_username.
    destruct (seqb name0 []) eqn:E.
    + apply seqb_eq in E; subst name0.
      rewrite first_entry_none; [reflexivity|]. intro rn; reflexivity.
    + rewrite H1, H2, H3, H4, H5, H6. reflexivity.
  - intros (H1 & H2 & H3 & H4 & H5 & H6).
    unfold Simple.find_username.
    destruct (seqb name0 []) eqn:E.
    + apply seqb_eq in E; subst name0.
      destruct st as [|[rn u] st']; [reflexivity|].
      exfalso. unfold Simple.tier3 in H3. simpl in H3.
      rewrite contains_nil in H3. discriminate.
    + destruct st as [|[rn u] st']; [reflexivity|].
      rewrite H1, H2, H3, H4, H5, H6. reflexivity.
Qed.

(* ------------------------------------------------------------------ *)
(** ** C6 and C10: the recency filter *)

(** C6.  A game whose participants match and whose timestamp is exactly
    the cutoff ([now] minus 14 days) is kept; one a day older is
    dropped. *)
Theorem C6_cutoff_inclusive (wa ba : pystr) (now t : Z) (g : Json) :
  participants_match wa ba g = Ok true ->
  GameTime.extract_game_time g = Ok (Some t) ->
  (t = cutoff now -> keep_game wa ba (cutoff now) g = Ok true)
  /\ (t = (cutoff now - DateTime.day_us)%Z -> keep_game wa ba (cutoff now) g = Ok false).
Proof.
  intros Hm Ht. unfold keep_game. rewrite Hm; simpl. rewrite Ht; simpl.
  split; intros ->.
  - rewrite Z.ltb_irrefl; reflexivity.
  - assert (Hlt : (cutoff now - DateTime.day_us < cutoff now)%Z)
      by (unfold DateTime.day_us, DateTime.us_per_s; lia).
    apply Z.ltb_lt in Hlt; rewrite Hlt; reflexivity.
Qed.

Lemma C6_witness :
  participants_match (py "alice99") (py "bob77") game_ab = Ok true
  /\ GameTime.extract_game_time game_ab = Ok (Some (1704104430 * DateTime.us_per_s)%Z)
  /\ ((1704104430 * DateTime.us_per_s)%Z = cutoff now_at_cutoff ->
      keep_game (py "alice99") (py "bob77") (cutoff now_at_cutoff) game_ab = Ok true)
  /\ ((1704104430 * DateTime.us_per_s)%Z = (cutoff now_at_cutoff - DateTime.day_us)%Z ->
      keep_game (py "alice99") (py "bob77") (cutoff now_at_cutoff) game_ab = Ok false).
Proof.
  assert (Hm : participants_match (py "alice99") (py "bob77") game_ab = Ok true)
    by (vm_compute; reflexivity).
  assert (Ht : GameTime.extract_game_time game_ab = Ok (Some (1704104430 * DateTime.us_per_s)%Z))
    by (vm_compute; reflexivity).
  split; [exact Hm|]. split; [exact Ht|].
  exact (C6_cutoff_inclusive (py "alice99") (py "bob77") now_at_cutoff _ game_ab Hm Ht).
Defined.

(** C10.  A matching game without a parsable timestamp
    ([extract_game_time] answers [None], which is the case when none of
    [end_time], [finish_time], [start_time], [last_activity] is a numeric
    epoch or an ISO string of the two accepted formats) is kept whatever
    the current time; and with a non-empty PGN string and writable files
    the save loop writes it. *)
Theorem C10_untimed_game_kept (wa ba : pystr) (now : Z) (g : Json) :
  participants_match wa ba g = Ok true ->
  GameTime.extract_game_time g = Ok None ->
  keep_game wa ba (cutoff now) g = Ok true
  /\ (forall (cw : pystr -> bool) folder sw sb idx s w,
        (forall p, cw p = true) ->
        dict_get g (py "pgn") JNull = Ok (JStr s) -> s <> [] ->
        fst (save_games now cw folder sw sb idx [g] false w) = Ok true).
Proof.
  intros Hm Ht. split.
  - unfold keep_game. rewrite Hm; simpl. rewrite Ht; reflexivity.
  - intros cw folder sw sb idx s w Hcw Hp Hs.
    assert (Htr : truthy (JStr s) = true).
    { simpl. apply seqb_false in Hs. rewrite Hs; reflexivity. }
    cbn [save_games]. unfold bind, lift. rewrite Hp. cbv beta iota.
    rewrite Htr. cbv beta iota. rewrite Ht. cbv beta iota. rewrite Hcw. reflexivity.
Qed.

Lemma C10_witness :
  participants_match (py "alice99") (py "bob77") game_untimed = Ok true
  /\ GameTime.extract_game_time game_untimed = Ok None
  /\ keep_game (py "alice99") (py "bob77") (cutoff 0%Z) game_untimed = Ok true
  /\ fst (save_games 0%Z (fun _ => true) (py "out") (py "A") (py "B") 1 [game_untimed] false w0)
     = Ok true.
Proof.
  assert (Hm : participants_match (py "alice99") (py "bob77") game_untimed = Ok true)
    by (vm_compute; reflexivity).
  assert (Ht : GameTime.extract_game_time game_untimed = Ok None) by (vm_compute; reflexivity).
  destruct (C10_untimed_game_kept (py "alice99") (py "bob77") 0%Z game_untimed Hm Ht) as [Hk Hs].
  split; [exact Hm|]. split; [exact Ht|]. split; [exact Hk|].
  apply (Hs (fun _ => true) (py "out") (py "A") (py "B") 1%nat (py "1. d4 d5") w0);
    [intro p; reflexivity | vm_compute; reflexivity | discriminate].
Defined.

Lemma C3_witness :
  Teacher.find_username roster_cn (py "迈克尔·乔丹") = py "mj23"
  /\ Simple.find_username roster_cn (py "迈克尔·乔丹") = py "mj23"
  /\ Simple.find_username roster_cn (py "Al-icex") = py "alice99"
  /\ Teacher.find_username roster_cn (py "Al-icex") = NOT_FOUND.
Proof.
  split; [|split; [|split]].
  - rewrite (proj1 (C3_tier7_normalized roster_cn (py "迈克尔·乔丹")));
      [vm_compute; reflexivity | vm_compute; repeat split].
  - rewrite (proj2 (C3_tier7_normalized roster_cn (py "迈克尔·乔丹")));
      [vm_compute; reflexivity | vm_compute; repeat split].
  - rewrite (proj2 (C3_tier7_normalized roster_cn (py "Al-icex")));
      [vm_compute; reflexivity | vm_compute; repeat split].
  - rewrite (proj1 (C3_tier7_normalized roster_cn (py "Al-icex")));
      [vm_compute; reflexivity | vm_compute; repeat split].
Defined.

Lemma C5_witness :
  get_archive_games net_flaky archive_url (mk_world [] [py "x"] [])
    = (Ok ([game_ab], []), mk_world [(archive_url, [game_ab])] [py "x"; archive_url] [])
  /\ assoc_get (cache (mk_world [(archive_url, [game_ab])] [py "x"; archive_url] [])) archive_url
     = Some [game_ab]
  /\ get_archive_games net_flaky archive_url
       (mk_world [(archive_url, [game_ab])] [py "x"; archive_url] [])
     = (Ok ([game_ab], []), mk_world [(archive_url, [game_ab])] [py "x"; archive_url] [])
  /\ get_archive_games net_flaky archive_url (mk_world [] [] [])
     = (Ok ([], py "请求超时"), mk_world [] [archive_url] [])
  /\ assoc_get (cache (mk_world [] [archive_url] [])) archive_url = None
  /\ requests (snd (get_archive_games net_flaky archive_url (mk_world [] [archive_url] [])))
     = [archive_url; archive_url].
Proof.
  assert (H : get_archive_games net_flaky archive_url (mk_world [] [py "x"] [])
              = (Ok ([game_ab], []), mk_world [(archive_url, [game_ab])] [py "x"; archive_url] []))
    by (vm_compute; reflexivity).
  assert (Hf : get_archive_games net_flaky archive_url (mk_world [] [] [])
               = (Ok ([], py "请求超时"), mk_world [] [archive_url] []))
    by (vm_compute; reflexivity).
  assert (Hr : forall g, (Ok ([], py "请求超时") : result (list Json * pystr)) <> Ok (g, []))
    by (intros g E; injection E as _ E; discriminate E).
  destruct (proj2 (proj2 (C5_cache_hit_and_refetch net_flaky archive_url (mk_world [] [] [])))
              _ _ Hf Hr) as (_ & Hn & _ & Hq).
  split; [exact H|].
  split; [exact (proj1 (proj1 (proj2 (C5_cache_hit_and_refetch net_flaky archive_url
                                         (mk_world [] [py "x"] []))) _ _ H))|].
  split; [exact (proj2 (proj1 (proj2 (C5_cache_hit_and_refetch net_flaky archive_url
                                         (mk_world [] [py "x"] []))) _ _ H))|].
  split; [exact Hf|]. split; [exact Hn|]. exact Hq.
Defined.

(* ------------------------------------------------------------------ *)
(** ** C7: exact roster keys *)

(** C7 counterexample: the token is stripped before the exact lookup, so
    a roster key with surrounding white space is not found by tier 1 and
    a looser tier answers another student's username. *)
Lemma C7_padded_key :
  In (py " Bob", py "u2") roster_bob /\ NoDup (map fst roster_bob)
  /\ Teacher.find_username roster_bob (py " Bob") = py "u1"
  /\ Simple.find_username roster_bob (py " Bob") = py "u1"
  /\ py "u1" <> py "u2".
Proof.
  split; [simpl; auto|]. split.
  - constructor; [simpl; intros [H|[]]; discriminate H|].
    constructor; [simpl; auto|constructor].
  - split; [vm_compute; reflexivity|]. split; [vm_compute; reflexivity|]. discriminate.
Qed.

(** C7 (amended).  For every roster entry whose name is non-empty and
    has no leading or trailing white space, both resolvers answer that
    entry's username (tier 1). *)
Theorem C7_exact_key_resolves (st : roster) (name u : pystr) :
  NoDup (map fst st) -> In (name, u) st -> name <> [] -> strip name = name ->
  Teacher.find_username st name = u /\ Simple.find_username st name = u.
Proof.
  intros Hnd Hin Hne Hs.
  assert (Hl : lookup st name = Some u) by (apply lookup_in; assumption).
  apply seqb_false in Hne.
  split.
  - unfold Teacher.find_username, Teacher.tier1. rewrite Hne, Hs, Hl. reflexivity.
  - unfold Simple.find_username, Simple.tier1. rewrite Hne.
    destruct st as [|e st']; [contradiction|].
    rewrite Hs, Hl. reflexivity.
Qed.

Lemma C7_witness :
  (Teacher.find_username roster_three (py "Alice") = py "alice99"
   /\ Simple.find_username roster_three (py "Alice") = py "alice99")
  /\ Teacher.tier3 roster_three (lower (py "Alice")) = Some (py "as1").
Proof.
  split; [|vm_compute; reflexivity].
  apply C7_exact_key_resolves.
  - vm_compute. repeat constructor; simpl; intuition discriminate.
  - simpl; right; left; reflexivity.
  - discriminate.
  - vm_compute; reflexivity.
Defined.

(* ------------------------------------------------------------------ *)
(** ** C8: color-symmetric, case-insensitive game matching *)

(** C8 counterexample: the comparison is on lower-cased names, so a game
    between "bob" and "alice" matches the pairing resolved as ("Alice",
    "Bob") although the two sets of usernames differ. *)
Lemma C8_case_insensitive_match :
  participants_match (api_name (py "Alice")) (api_name (py "Bob")) game_swapped = Ok true
  /\ ~ ((py "bob" = py "Alice" /\ py "alice" = py "Bob")
        \/ (py "bob" = py "Bob" /\ py "alice" = py "Alice")).
Proof.
  split; [vm_compute; reflexivity|].
  intros [[H _]|[H _]]; discriminate H.
Qed.

(** C8 (amended).  With [gw], [gb] the lower-cased usernames of the
    game's white and black entries, the game matches the pairing resolved
    as (A, B) iff the set {gw, gb} equals the set of A and B with white
    space removed and lower-cased, whatever the colors. *)
Theorem C8_match_iff_sets (A B : pystr) (g : Json) (gw gb : pystr) :
  game_user g (py "white") = Ok gw -> game_user g (py "black") = Ok gb ->
  (participants_match (api_name A) (api_name B) g = Ok true
   <-> (gw = api_name A /\ gb = api_name B) \/ (gw = api_name B /\ gb = api_name A)).
Proof.
  intros Hw Hb. unfold participants_match. rewrite Hw, Hb; simpl.
  rewrite <- set_eq2_iff.
  split; intro H; [injection H as H; exact H | rewrite H; reflexivity].
Qed.

Lemma C8_witness :
  participants_match (api_name (py "Alice")) (api_name (py "Bob")) game_swapped = Ok true
  <-> (py "bob" = api_name (py "Alice") /\ py "alice" = api_name (py "Bob"))
      \/ (py "bob" = api_name (py "Bob") /\ py "alice" = api_name (py "Alice")).
Proof.
  apply C8_match_iff_sets; vm_compute; reflexivity.
Defined.

(* ------------------------------------------------------------------ *)
(** ** C9: empty usernames are rejected before any request *)

(** C9.  If either resolved username is empty once white space is
    removed, [download_pairing_games] returns (False, "用户名无效") and
    leaves the session state (cache, requests, files) unchanged. *)
Theorem C9_invalid_username (net : nat -> pystr -> response) (now : Z) (cw : pystr -> bool)
  (wu bu wd bd folder : pystr) (w : world) :
  sanitize_username wu = [] \/ sanitize_username bu = [] ->
  download_pairing_games net now cw wu bu wd bd folder w = (Ok (false, py "用户名无效"), w).
Proof.
  intro H. unfold download_pairing_games, api_name.
  destruct H as [H|H]; rewrite H; simpl.
  - reflexivity.
  - rewrite orb_true_r. reflexivity.
Qed.

Lemma C9_witness :
  sanitize_username (py " 	 ") = []
  /\ download_pairing_games net_list_body 0%Z (fun _ => true) (py " 	 ") (py "bob77")
       (py "X") (py "Bob") (py "out") w0 = (Ok (false, py "用户名无效"), w0).
Proof.
  assert (H : sanitize_username (py " 	 ") = []) by (vm_compute; reflexivity).
  split; [exact H|].
  apply C9_invalid_username; left; exact H.
Defined.

(* ================================================================== *)
(** * Further properties: rosters, classes, loading and synchronisation *)


Module Facts2.

Lemma drop_space_NL (l : pystr) : NL (drop_space l).
Proof.
  induction l as [|c l IH]; simpl; [exact I|].
  destruct (is_space c) eqn:E; [exact IH | exact E].
Qed.

Lemma drop_space_id (l : pystr) : NL l -> drop_space l = l.
Proof. destruct l as [|c l]; simpl; [reflexivity|]. intro H; rewrite H; reflexivity. Qed.

Lemma NL_rev_cons (c : N) (l : pystr) : l <> [] -> NL (rev (c :: l)) -> NL (rev l).
Proof.
  intros Hl H. simpl in H. destruct (rev l) as [|d r] eqn:E.
  - apply (f_equal (@rev N)) in E; rewrite rev_involutive in E; contradiction.
  - exact H.
Qed.

Lemma drop_space_NT (l : pystr) : NL (rev l) -> NL (rev (drop_space l)).
Proof.
  induction l as [|c l IH]; simpl; intro H; [exact I|].
  destruct (is_space c) eqn:E.
  - destruct l as [|d l].
    + simpl in H; congruence.
    + apply IH. apply (NL_rev_cons c); [discriminate|exact H].
  - exact H.
Qed.

Lemma strip_NL (s : pystr) : NL (strip s) /\ NL (rev (strip s)).
Proof.
  unfold strip; split.
  - apply drop_space_NT. rewrite rev_involutive. apply drop_space_NL.
  - rewrite rev_involutive. apply drop_space_NL.
Qed.

Lemma strip_id (s : pystr) : NL s -> NL (rev s) -> strip s = s.
Proof.
  intros H1 H2. unfold strip. rewrite (drop_space_id s H1), (drop_space_id _ H2).
  apply rev_involutive.
Qed.

Lemma strip_idem (s : pystr) : strip (strip s) = strip s.
Proof. destruct (strip_NL s) as [H1 H2]. apply strip_id; assumption. Qed.

Lemma drop_space_app_nonspace (l : pystr) (c : N) :
  is_space c = false -> drop_space (l ++ [c]) <> [].
Proof.
  intro Hc; induction l as [|d l IH]; simpl.
  - rewrite Hc; discriminate.
  - destruct (is_space d); [exact IH|discriminate].
Qed.

Lemma strip_nil_iff (s : pystr) : strip s = [] <-> drop_space s = [].
Proof.
  unfold strip; split; intro H.
  - destruct (drop_space s) as [|c t] eqn:E; [reflexivity|exfalso].
    pose proof (drop_space_NL s) as Hn; rewrite E in Hn; simpl in Hn.
    simpl in H. apply (f_equal (@rev N)) in H; rewrite rev_involutive in H.
    exact (drop_space_app_nonspace (rev t) c Hn H).
  - rewrite H; reflexivity.
Qed.

Lemma strip_cons_nonspace (s : pystr) : strip s <> [] ->
  exists c t, strip s = c :: t /\ is_space c = false.
Proof.
  intro H. destruct (strip s) as [|c t] eqn:E; [contradiction|].
  exists c, t; split; [reflexivity|]. destruct (strip_NL s) as [H1 _]. rewrite E in H1; exact H1.
Qed.

Lemma del_space_nonnil (s : pystr) : strip s <> [] -> del_space (strip s) <> [].
Proof.
  intro H. destruct (strip_cons_nonspace s H) as (c & t & E & Hc). rewrite E.
  unfold del_space; simpl; rewrite Hc; discriminate.
Qed.

Lemma sanitize_strip (u : pystr) : sanitize_username (strip u) = sanitize_username u.
Proof. unfold sanitize_username; rewrite strip_idem; reflexivity. Qed.

Lemma sanitize_nonspace (u : pystr) :
  forallb (fun c => negb (is_space c)) (sanitize_username u) = true.
Proof.
  unfold sanitize_username, del_space. apply forallb_forall; intros c Hc.
  apply filter_In in Hc as [_ Hc]; exact Hc.
Qed.

Lemma lookup_assoc_get (st : roster) (k : pystr) : lookup st k = assoc_get st k.
Proof. induction st as [|[k' v] st IH]; simpl; [reflexivity|]. rewrite IH; reflexivity. Qed.

Lemma assoc_get_put_other {A : Type} (l : list (pystr * A)) (k k' : pystr) (v : A) :
  k <> k' -> assoc_get (assoc_put l k v) k' = assoc_get l k'.
Proof.
  intro Hne; induction l as [|[k0 v0] l IH]; simpl.
  - destruct (seqb k k') eqn:E; [apply seqb_eq in E; contradiction|reflexivity].
  - destruct (seqb k0 k) eqn:E0; simpl.
    + apply seqb_eq in E0; subst k0.
      destruct (seqb k k') eqn:E; [apply seqb_eq in E; contradiction|reflexivity].
    + destruct (seqb k0 k'); [reflexivity|exact IH].
Qed.

Lemma in_keys_put {A : Type} (l : list (pystr * A)) (k x : pystr) (v : A) :
  In x (map fst (assoc_put l k v)) -> x = k \/ In x (map fst l).
Proof.
  induction l as [|[k0 v0] l IH]; simpl.
  - intros [H|[]]; left; congruence.
  - destruct (seqb k0 k) eqn:E; simpl.
    + apply seqb_eq in E; subst k0. intros [H|H]; [left; congruence|right; right; exact H].
    + intros [H|H]; [right; left; exact H|].
      destruct (IH H) as [H'|H']; [left; exact H'|right; right; exact H'].
Qed.

Lemma in_put {A : Type} (l : list (pystr * A)) (k x : pystr) (v y : A) :
  In (x, y) (assoc_put l k v) -> (x, y) = (k, v) \/ In (x, y) l.
Proof.
  induction l as [|[k0 v0] l IH]; simpl.
  - intros [H|[]]; left; congruence.
  - destruct (seqb k0 k) eqn:E; simpl.
    + intros [H|H]; [left; congruence|right; right; exact H].
    + intros [H|H]; [right; left; exact H|].
      destruct (IH H) as [H'|H']; [left; exact H'|right; right; exact H'].
Qed.

Lemma nodup_put {A : Type} (l : list (pystr * A)) (k : pystr) (v : A) :
  NoDup (map fst l) -> NoDup (map fst (assoc_put l k v)).
Proof.
  induction l as [|[k0 v0] l IH]; simpl; intro H.
  - constructor; [intros []|constructor].
  - inversion H as [|? ? Hn Hd]; subst.
    destruct (seqb k0 k) eqn:E; simpl.
    + apply seqb_eq in E; subst k0. constructor; assumption.
    + constructor; [|apply IH; exact Hd].
      intro Hin. destruct (in_keys_put l k k0 v Hin) as [E'|E'].
      * subst; rewrite seqb_refl in E; discriminate.
      * contradiction.
Qed.

End Facts2.
Import Facts2.

Import Roster.

Lemma first_sep_strip (seps : list pystr) (line name u : pystr) :
  first_sep seps line = Some (name, u) -> exists x, name = strip x.
Proof.
  induction seps as [|sep seps IH]; simpl; [discriminate|].
  destruct (rsplit1 line sep) as [[l r]|]; [|exact IH].
  intro H; injection H as <- <-; eexists; reflexivity.
Qed.

Lemma parse_student_line_ok (raw name u : pystr) :
  parse_student_line raw = Some (name, u) ->
  name <> [] /\ strip name = name /\ u <> []
  /\ forallb (fun c => negb (is_space c)) u = true.
Proof.
  unfold parse_student_line.
  destruct (seqb (strip raw) []); [discriminate|].
  set (line := strip (strip_student_marker (strip raw))).
  set (found := match first_sep separators line with Some nu => Some nu | None => _ end).
  assert (Hf : forall n u0, found = Some (n, u0) -> exists x, n = strip x).
  { intros n u0. subst found. destruct (first_sep separators line) as [[n1 u1]|] eqn:E.
    - intro H; injection H as <- <-. exact (first_sep_strip _ _ _ _ E).
    - destruct (Nat.leb 2 _); [|discriminate]. intro H; injection H as <- <-.
      eexists; reflexivity. }
  destruct found as [[n0 u0]|]; [|discriminate].
  destruct (Hf n0 u0 eq_refl) as [x Hx].
  destruct (negb (seqb n0 []) && negb (seqb u0 [])) eqn:Hnu; [|discriminate].
  apply andb_true_iff in Hnu as [Hn0 _]. apply negb_true_iff, seqb_false in Hn0.
  assert (Hname : forall n1 u1,
    (if existsb is_colon u0 then
       let parts := split_on is_colon u0 in
       let username_candidate := strip (last parts []) in
       let name_tail := join (py " ") (filter (fun p => negb (seqb p [])) (map strip (removelast parts))) in
       if negb (seqb username_candidate [])
       then (if negb (seqb name_tail []) then strip (n0 ++ py " " ++ name_tail) else n0,
             username_candidate)
       else (n0, u0)
     else (n0, u0)) = (n1, u1) -> n1 <> [] /\ strip n1 = n1).
  { assert (Hs0 : strip n0 = n0) by (rewrite Hx; apply strip_idem).
    intros n1 u1 H.
    destruct (existsb is_colon u0); [|injection H as <- <-; auto].
    cbv zeta in H.
    destruct (negb (seqb (strip (last (split_on is_colon u0) [])) [])); [|injection H as <- <-; auto].
    destruct (negb (seqb _ [])); [|injection H as <- <-; auto].
    injection H as <- <-. split; [|apply strip_idem].
    intro E. apply strip_nil_iff in E.
    rewrite drop_space_id in E.
    - destruct n0; [contradiction|discriminate].
    - rewrite <- Hs0. destruct (strip_cons_nonspace n0) as (c & t & Ec & Hc);
        [rewrite Hs0; exact Hn0|]. rewrite Ec. exact Hc. }
  destruct (if existsb is_colon u0 then _ else _) as [n1 u1] eqn:Hc.
  destruct (Hname n1 u1 eq_refl) as [Hn1 Hs1].
  destruct (seqb (sanitize_username u1) []) eqn:Hsu; [discriminate|].
  intro H; injection H as <- <-.
  apply seqb_false in Hsu. repeat split; try assumption. apply sanitize_nonspace.
Qed.

(** [parse_students_list] stores each name once, and every stored entry
    has a non-empty stripped name and a non-empty username without white
    space. *)
Theorem parse_students_list_inv (content : pystr) :
  NoDup (map fst (parse_students_list content))
  /\ forall name u, In (name, u) (parse_students_list content) -> student_ok name u.
Proof.
  unfold parse_students_list.
  assert (G : forall lines (acc : roster),
    NoDup (map fst acc) /\ (forall name u, In (name, u) acc -> student_ok name u) ->
    let r := fold_left (fun students raw =>
               match parse_student_line raw with
               | Some (name, username) => assoc_put students name username
               | None => students
               end) lines acc in
    NoDup (map fst r) /\ (forall name u, In (name, u) r -> student_ok name u)).
  { induction lines as [|raw lines IH]; intros acc [Hd Hp]; simpl; [split; assumption|].
    apply IH. destruct (parse_student_line raw) as [[n u0]|] eqn:E; [|split; assumption].
    split; [apply nodup_put; exact Hd|].
    intros name u Hin. destruct (in_put _ _ _ _ _ Hin) as [Eq|Hin'].
    - injection Eq as -> ->. exact (parse_student_line_ok raw n u0 E).
    - exact (Hp _ _ Hin'). }
  apply G. split; [constructor|intros ? ? []].
Qed.

Lemma update_notin (st ps : roster) (k : pystr) :
  ~ In k (map fst ps) -> assoc_get (dict_update st ps) k = assoc_get st k.
Proof.
  unfold dict_update; revert st; induction ps as [|[k0 v0] ps IH]; simpl; intros st Hn;
    [reflexivity|].
  rewrite IH by tauto. apply assoc_get_put_other. intro E; apply Hn; left; exact E.
Qed.

Lemma update_in (st ps : roster) (k u : pystr) :
  NoDup (map fst ps) -> In (k, u) ps -> assoc_get (dict_update st ps) k = Some u.
Proof.
  unfold dict_update; revert st; induction ps as [|[k0 v0] ps IH]; simpl; intros st Hd Hin;
    [contradiction|].
  inversion Hd as [|? ? Hn Hd']; subst.
  destruct Hin as [E|Hin].
  - injection E as -> ->. fold (dict_update (assoc_put st k u) ps).
    rewrite update_notin by exact Hn. apply assoc_get_put.
  - apply IH; assumption.
Qed.

(** Resolution of a stripped, non-empty name present as a key. *)
Lemma find_exact (st : roster) (name u : pystr) :
  name <> [] -> strip name = name -> assoc_get st name = Some u ->
  Teacher.find_username st name = u /\ Simple.find_username st name = u.
Proof.
  intros Hn Hs Hg.
  assert (Hl : lookup st name = Some u) by (rewrite lookup_assoc_get; exact Hg).
  destruct (seqb name []) eqn:E; [apply seqb_eq in E; contradiction|].
  split.
  - unfold Teacher.find_username, Teacher.tier1. rewrite E, Hs, Hl. reflexivity.
  - unfold Simple.find_username, Simple.tier1. rewrite E, Hs, Hl.
    destruct st; [discriminate|reflexivity].
Qed.

(** After an import that changes the roster, every (name, username) of
    the parsed list is what both resolvers return for that name. *)
Theorem import_resolves (st st' : roster) (content name u : pystr) :
  import_students st content = Some st' ->
  In (name, u) (parse_students_list content) ->
  Teacher.find_username st' name = u /\ Simple.find_username st' name = u.
Proof.
  intros Hi Hin. unfold import_students in Hi.
  destruct (parse_students_list_inv content) as [Hd Hp].
  destruct (Hp _ _ Hin) as (Hn & Hs & _).
  destruct (parse_students_list content) as [|kv ps] eqn:E; [contradiction|].
  injection Hi as <-. apply find_exact; try assumption.
  exact (update_in st (kv :: ps) name u Hd Hin).
Qed.

Lemma import_resolves_witness :
  import_students roster_alice (py "1. Bob Li: bob_l") = Some [(py "Alice", py "alice99"); (py "Bob Li", py "bob_l")]
  /\ In (py "Bob Li", py "bob_l") (parse_students_list (py "1. Bob Li: bob_l"))
  /\ Teacher.find_username [(py "Alice", py "alice99"); (py "Bob Li", py "bob_l")] (py "Bob Li") = py "bob_l"
  /\ Simple.find_username [(py "Alice", py "alice99"); (py "Bob Li", py "bob_l")] (py "Bob Li") = py "bob_l".
Proof.
  assert (H1 : import_students roster_alice (py "1. Bob Li: bob_l")
               = Some [(py "Alice", py "alice99"); (py "Bob Li", py "bob_l")]) by (vm_compute; reflexivity).
  assert (H2 : In (py "Bob Li", py "bob_l") (parse_students_list (py "1. Bob Li: bob_l")))
    by (vm_compute; left; reflexivity).
  destruct (import_resolves _ _ _ _ _ H1 H2) as [H3 H4].
  repeat split; assumption.
Defined.

(** [add_student_manual] after [StudentDialog]: it changes nothing
    exactly when a stripped entry is empty (so its own empty-username
    check never fires), and otherwise stores the stripped name with the
    sanitized username, which both resolvers then return for the name as
    typed. *)
Theorem add_student_resolves (cur : pystr) (st : roster) (name_entry username_entry : pystr) :
  cur <> [] ->
  (add_student_manual cur st (student_dialog name_entry username_entry) = None
   <-> strip name_entry = [] \/ strip username_entry = [])
  /\ (forall st', add_student_manual cur st (student_dialog name_entry username_entry) = Some st' ->
      st' = assoc_put st (strip name_entry) (sanitize_username username_entry)
      /\ Teacher.find_username st' name_entry = sanitize_username username_entry
      /\ Simple.find_username st' name_entry = sanitize_username username_entry).
Proof.
  intro Hc. unfold add_student_manual, student_dialog.
  destruct (seqb cur []) eqn:Ec; [apply seqb_eq in Ec; contradiction|].
  destruct (seqb (strip name_entry) []) eqn:En; simpl.
  { apply seqb_eq in En. split; [split; auto|intros st' H; discriminate]. }
  destruct (seqb (strip username_entry) []) eqn:Eu; simpl.
  { apply seqb_eq in Eu. split; [split; auto|intros st' H; discriminate]. }
  apply seqb_false in En, Eu.
  rewrite sanitize_strip.
  assert (Hsn : sanitize_username username_entry <> []).
  { rewrite <- sanitize_strip. unfold sanitize_username. rewrite strip_idem.
    apply del_space_nonnil; exact Eu. }
  destruct (seqb (sanitize_username username_entry) []) eqn:Es;
    [apply seqb_eq in Es; contradiction|].
  split; [split; [discriminate|intros [H|H]; contradiction]|].
  intros st' H; injection H as <-. split; [reflexivity|].
  (* the entered name is stripped by find_username before lookup *)
  assert (Hne : seqb name_entry [] = false).
  { apply seqb_false; intro E; subst; apply En; reflexivity. }
  assert (Hl : lookup (assoc_put st (strip name_entry) (sanitize_username username_entry))
                      (strip name_entry) = Some (sanitize_username username_entry))
    by (rewrite lookup_assoc_get; apply assoc_get_put).
  split.
  - unfold Teacher.find_username, Teacher.tier1. rewrite Hne, Hl; reflexivity.
  - unfold Simple.find_username, Simple.tier1. rewrite Hne. cbv zeta. rewrite Hl.
    destruct st as [|[k0 v0] st0]; simpl; [reflexivity|destruct (seqb k0 _); reflexivity].
Qed.

Lemma add_student_resolves_witness :
  [97%N] <> [] /\
  (add_student_manual [97%N] roster_alice (student_dialog (py " Bob ") (py " b o b ")) = None
   <-> strip (py " Bob ") = [] \/ strip (py " b o b ") = [])
  /\ (forall st', add_student_manual [97%N] roster_alice (student_dialog (py " Bob ") (py " b o b ")) = Some st' ->
      st' = assoc_put roster_alice (strip (py " Bob ")) (sanitize_username (py " b o b "))
      /\ Teacher.find_username st' (py " Bob ") = sanitize_username (py " b o b ")
      /\ Simple.find_username st' (py " Bob ") = sanitize_username (py " b o b ")).
Proof.
  assert (H : [97%N] <> []) by discriminate.
  split; [exact H|]. exact (add_student_resolves _ roster_alice _ _ H).
Defined.

Lemma assoc_get_pop_same {A : Type} (l : list (pystr * A)) (k : pystr) :
  NoDup (map fst l) -> assoc_get (dict_pop l k) k = None.
Proof.
  induction l as [|[k0 v0] l IH]; simpl; intro Hd; [reflexivity|].
  inversion Hd as [|? ? Hn Hd']; subst.
  destruct (seqb k0 k) eqn:E.
  - apply seqb_eq in E; subst k0.
    clear IH Hd Hd'. induction l as [|[k1 v1] l IHl]; simpl; [reflexivity|].
    destruct (seqb k1 k) eqn:E1.
    + apply seqb_eq in E1; subst; exfalso; apply Hn; left; reflexivity.
    + apply IHl. intro Hi; apply Hn; right; exact Hi.
  - simpl; rewrite E; apply IH; exact Hd'.
Qed.

Lemma assoc_get_pop_other {A : Type} (l : list (pystr * A)) (k k' : pystr) :
  k <> k' -> assoc_get (dict_pop l k) k' = assoc_get l k'.
Proof.
  intro Hne; induction l as [|[k0 v0] l IH]; simpl; [reflexivity|].
  destruct (seqb k0 k) eqn:E.
  - apply seqb_eq in E; subst k0.
    destruct (seqb k k') eqn:E'; [apply seqb_eq in E'; contradiction|reflexivity].
  - simpl; rewrite IH; reflexivity.
Qed.

Lemma keys_pop {A : Type} (l : list (pystr * A)) (k x : pystr) :
  In x (map fst (dict_pop l k)) -> In x (map fst l).
Proof.
  induction l as [|[k0 v0] l IH]; simpl; [tauto|].
  destruct (seqb k0 k); simpl; [tauto|]. intros [H|H]; [left; exact H|right; apply IH; exact H].
Qed.

Lemma nodup_pop {A : Type} (l : list (pystr * A)) (k : pystr) :
  NoDup (map fst l) -> NoDup (map fst (dict_pop l k)).
Proof.
  induction l as [|[k0 v0] l IH]; simpl; intro Hd; [constructor|].
  inversion Hd as [|? ? Hn Hd']; subst.
  destruct (seqb k0 k); [exact Hd'|].
  simpl; constructor; [|apply IH; exact Hd'].
  intro H; apply Hn; apply keys_pop with k; exact H.
Qed.

(** [edit_student] on a roster with distinct names: the new name maps to
    the sanitized username, a renamed entry's old name is gone, every other
    name keeps its username, and the names stay distinct. *)
Theorem edit_student_spec (cur : pystr) (st st' : roster) (name new_name new_username : pystr) :
  NoDup (map fst st) ->
  edit_student cur st name (Some (new_name, new_username)) = Some st' ->
  assoc_get st' new_name = Some (sanitize_username new_username)
  /\ (new_name <> name -> assoc_get st' name = None)
  /\ (forall k, k <> new_name -> k <> name -> assoc_get st' k = assoc_get st k)
  /\ NoDup (map fst st').
Proof.
  intros Hd H. unfold edit_student in H.
  destruct (seqb cur []); [discriminate|].
  destruct (seqb (sanitize_username new_username) []); [discriminate|].
  injection H as <-.
  destruct (seqb new_name name) eqn:En; simpl.
  - apply seqb_eq in En; subst new_name.
    split; [apply assoc_get_put|]. split; [intro C; contradiction C; reflexivity|].
    split; [intros k H1 H2; apply assoc_get_put_other; congruence|].
    apply nodup_put; exact Hd.
  - apply seqb_false in En.
    split; [apply assoc_get_put|]. split.
    { intros _. rewrite assoc_get_put_other by congruence. apply assoc_get_pop_same; exact Hd. }
    split.
    { intros k H1 H2. rewrite assoc_get_put_other by congruence.
      apply assoc_get_pop_other; congruence. }
    apply nodup_put, nodup_pop; exact Hd.
Qed.

Lemma edit_student_spec_witness :
  edit_student [97%N] roster_three (py "Alice") (Some (py "Alicia", py "ali ce"))
    = Some [(py "Alice Smith", py "as1"); (py "Bob Smith", py "bob77"); (py "Alicia", py "alice")]
  /\ assoc_get [(py "Alice Smith", py "as1"); (py "Bob Smith", py "bob77"); (py "Alicia", py "alice")]
       (py "Alicia") = Some (py "alice")
  /\ assoc_get [(py "Alice Smith", py "as1"); (py "Bob Smith", py "bob77"); (py "Alicia", py "alice")]
       (py "Alice") = None
  /\ assoc_get [(py "Alice Smith", py "as1"); (py "Bob Smith", py "bob77"); (py "Alicia", py "alice")]
       (py "Alice Smith") = Some (py "as1")
  /\ assoc_get [(py "Alice Smith", py "as1"); (py "Bob Smith", py "bob77"); (py "Alicia", py "alice")]
       (py "Bob Smith") = Some (py "bob77")
  /\ NoDup (map fst [(py "Alice Smith", py "as1"); (py "Bob Smith", py "bob77");
                      (py "Alicia", py "alice")]).
Proof.
  assert (Hd : NoDup (map fst roster_three)).
  { vm_compute. repeat constructor; simpl; intuition discriminate. }
  assert (He : edit_student [97%N] roster_three (py "Alice") (Some (py "Alicia", py "ali ce"))
               = Some [(py "Alice Smith", py "as1"); (py "Bob Smith", py "bob77");
                       (py "Alicia", py "alice")]) by (vm_compute; reflexivity).
  destruct (edit_student_spec _ _ _ _ _ _ Hd He) as (H1 & H2 & H3 & H4).
  split; [exact He|]. split; [rewrite H1; vm_compute; reflexivity|].
  split; [apply H2; discriminate|].
  split; [rewrite H3 by discriminate; vm_compute; reflexivity|].
  split; [rewrite H3 by discriminate; vm_compute; reflexivity|].
  exact H4.
Defined.

Lemma digit_safe (r : N) : (r < 10)%N -> safe_char (48 + r) = true.
Proof.
  intro Hr. unfold safe_char, is_ascii_digit.
  assert (H48 : (48 <=? 48 + r)%N = true) by (apply N.leb_le; lia).
  assert (H57 : (48 + r <=? 57)%N = true) by (apply N.leb_le; lia).
  rewrite H48, H57. rewrite !orb_true_r. reflexivity.
Qed.

Lemma digits_rev_safe (f : nat) (n : N) : forallb safe_char (digits_rev f n) = true.
Proof.
  revert n; induction f as [|f IH]; intro n; cbn [digits_rev forallb]; [reflexivity|].
  rewrite digit_safe by (apply N.mod_lt; discriminate).
  destruct (n <? 10)%N; [reflexivity|apply IH].
Qed.

Lemma str_Z_safe (z : Z) : forallb safe_char (str_Z z) = true.
Proof.
  assert (HN : forall n, forallb safe_char (str_N n) = true).
  { intro n. unfold str_N. apply forallb_forall. intros c Hc. apply in_rev in Hc.
    revert c Hc. apply forallb_forall, digits_rev_safe. }
  unfold str_Z. destruct (z <? 0)%Z; [simpl; apply HN|apply HN].
Qed.

Lemma pad2_safe (z : Z) : forallb safe_char (DateTime.pad2 z) = true.
Proof. unfold DateTime.pad2. destruct (z <? 10)%Z; simpl; apply str_Z_safe. Qed.

Lemma safe_name_safe (s d : pystr) : forallb safe_char d = true ->
  forallb safe_char (safe_name s d) = true.
Proof.
  intro Hd. unfold safe_name. destruct (seqb _ []); [exact Hd|].
  apply forallb_forall. intros c Hc. apply in_map_iff in Hc as (x & <- & _).
  unfold safe_char. destruct (is_alpha_ascii x || is_ascii_digit x || N.eqb x 45 || N.eqb x 95) eqn:E;
    [exact E|reflexivity].
Qed.

(** The folder name of [_prepare_download_folder] is non-empty and made of
    ASCII letters, digits, [-] and [_] only, whether or not it gets the
    time-stamp suffix. *)
Theorem download_folder_safe (path_exists : pystr -> bool) (now_local : Z)
        (current_class round_name : pystr) :
  forallb safe_char (Folder.prepare_download_folder path_exists now_local current_class round_name)
    = true
  /\ Folder.prepare_download_folder path_exists now_local current_class round_name <> [].
Proof.
  unfold Folder.prepare_download_folder.
  assert (Hb : forallb safe_char (safe_name current_class (py "class") ++ py "-round-"
                                   ++ safe_name round_name (py "Round")) = true).
  { rewrite !forallb_app. rewrite !safe_name_safe by reflexivity. reflexivity. }
  assert (Hn : safe_name current_class (py "class") ++ py "-round-"
               ++ safe_name round_name (py "Round") <> []).
  { intro E. apply (f_equal (@length N)) in E. rewrite !length_app in E. simpl in E. lia. }
  destruct (path_exists _); [|split; assumption].
  split.
  - rewrite forallb_app, Hb. unfold Folder.fmt_suffix.
    destruct (DateTime.ymd now_local) as [[y m] d].
    rewrite !forallb_app, str_Z_safe, !pad2_safe. reflexivity.
  - intro E. apply (f_equal (@length N)) in E. rewrite length_app in E.
    destruct (_ ++ _ ++ _) eqn:E2; [contradiction|simpl in E; lia].
Qed.

Lemma first_entry_in (p : pystr -> bool) (st : roster) (u : pystr) :
  first_entry p st = Some u -> exists rn, In (rn, u) st.
Proof.
  induction st as [|[rn v] st IH]; simpl; [discriminate|].
  destruct (p rn).
  - intro H; injection H as <-; exists rn; left; reflexivity.
  - intro H; destruct (IH H) as [r Hr]; exists r; right; exact Hr.
Qed.

Lemma lookup_in_roster (st : roster) (k u : pystr) :
  lookup st k = Some u -> exists rn, In (rn, u) st.
Proof.
  induction st as [|[rn v] st IH]; simpl; [discriminate|].
  destruct (seqb rn k).
  - intro H; injection H as <-; exists rn; left; reflexivity.
  - intro H; destruct (IH H) as [r Hr]; exists r; right; exact Hr.
Qed.

Ltac tier_case :=
  match goal with
  | |- context [match ?t with Some _ => _ | None => _ end] =>
      let E := fresh "E" in
      destruct t eqn:E;
      [right; first [ exact (first_entry_in _ _ _ E) | exact (lookup_in_roster _ _ _ E) ] | ]
  end.

(** Both resolvers return either the not-found marker or a username
    stored in the roster; they never invent one. *)
Theorem find_username_from_roster (st : roster) (token : pystr) :
  (Teacher.find_username st token = NOT_FOUND
   \/ exists rn, In (rn, Teacher.find_username st token) st)
  /\ (Simple.find_username st token = NOT_FOUND
      \/ exists rn, In (rn, Simple.find_username st token) st).
Proof.
  split.
  - unfold Teacher.find_username, Teacher.tier1, Teacher.tier2, Teacher.tier3, Teacher.tier4,
      Teacher.tier5, Teacher.tier6, Teacher.tier7.
    destruct (seqb token []); [left; reflexivity|]. cbv zeta.
    repeat tier_case. left; reflexivity.
  - unfold Simple.find_username, Simple.tier1, Simple.tier2, Simple.tier3, Simple.tier4,
      Simple.tier5, Simple.tier6, Simple.tier7.
    destruct (seqb token []); [left; reflexivity|].
    destruct st as [|kv st']; [left; reflexivity|]. cbv zeta.
    repeat tier_case. left; reflexivity.
Qed.

Lemma first_entry_skip (p : pystr -> bool) (st : roster) :
  (forall rn u, In (rn, u) st -> p rn = false) -> first_entry p st = None.
Proof.
  induction st as [|[rn v] st IH]; simpl; intro H; [reflexivity|].
  rewrite (H rn v (or_introl eq_refl)). apply IH. intros; eapply H; right; eassumption.
Qed.

Lemma lookup_nil_key (st : roster) :
  (forall rn u, In (rn, u) st -> rn <> []) -> lookup st [] = None.
Proof.
  induction st as [|[rn v] st IH]; simpl; intro H; [reflexivity|].
  destruct (seqb rn []) eqn:E.
  - apply seqb_eq in E. exfalso; exact (H rn v (or_introl eq_refl) E).
  - apply IH. intros; eapply H; right; eassumption.
Qed.

(** A non-empty token made only of white space resolves, in both
    resolvers, to the first stored username when no stored name is
    empty. *)
Theorem blank_token_first_entry (rn0 u0 token : pystr) (st : roster) :
  (forall rn u, In (rn, u) ((rn0, u0) :: st) -> rn <> []) ->
  token <> [] -> strip token = [] ->
  Teacher.find_username ((rn0, u0) :: st) token = u0
  /\ Simple.find_username ((rn0, u0) :: st) token = u0.
Proof.
  intros Hk Ht Hs.
  assert (Hl : lookup ((rn0, u0) :: st) [] = None) by (apply lookup_nil_key; exact Hk).
  assert (Htok : seqb token [] = false) by (apply seqb_false; exact Ht).
  split.
  - unfold Teacher.find_username. rewrite Htok, Hs. cbv zeta.
    unfold Teacher.tier1. rewrite Hl.
    unfold Teacher.tier2. change (lower []) with (@nil N).
    rewrite first_entry_skip.
    2:{ intros rn u Hin. apply seqb_false. intro E; exfalso; apply (Hk rn u Hin); apply lower_nil; exact E. }
    unfold Teacher.tier3. simpl. rewrite contains_nil. reflexivity.
  - unfold Simple.find_username. rewrite Htok, Hs. cbv zeta.
    unfold Simple.tier1. rewrite Hl.
    unfold Simple.tier2. change (lower []) with (@nil N).
    rewrite first_entry_skip.
    2:{ intros rn u Hin. apply seqb_false. intro E; exfalso; apply (Hk rn u Hin); apply lower_nil; exact E. }
    unfold Simple.tier3. simpl. rewrite contains_nil. reflexivity.
Qed.

Lemma blank_token_first_entry_witness :
  Teacher.find_username roster_three (py "   ") = py "as1"
  /\ Simple.find_username roster_three (py "   ") = py "as1".
Proof.
  assert (Hk : forall rn u, In (rn, u) roster_three -> rn <> []).
  { intros rn u [E|[E|[E|[]]]]; injection E as <- _; discriminate. }
  assert (Ht : py "   " <> []) by discriminate.
  assert (Hs : strip (py "   ") = []) by reflexivity.
  exact (blank_token_first_entry _ _ _ _ Hk Ht Hs).
Defined.

(** [get_archive_games] never drops or changes a cached archive, makes
    at most one request (to the archive URL) and writes no file. *)
Theorem get_archive_games_state (net : nat -> pystr -> response) (url : pystr) (w : world) :
  let w' := snd (get_archive_games net url w) in
  (forall k g, assoc_get (cache w) k = Some g -> assoc_get (cache w') k = Some g)
  /\ (requests w' = requests w \/ requests w' = requests w ++ [url])
  /\ files w' = files w.
Proof.
  cbv zeta. unfold get_archive_games.
  destruct (assoc_get (cache w) url) as [g0|] eqn:Hc.
  { simpl. split; [auto|split; [left|]; reflexivity]. }
  unfold bind, http_get, ret, lift, resp_json, cache_put. cbn [fst snd cache requests files].
  destruct (net (length (requests w)) url) as [m|m|code body];
    [simpl; split; [auto|split; [right|]; reflexivity]..|].
  destruct (negb (Z.eqb code 200)).
  { destruct (Z.eqb code 403); simpl; split; [auto| |auto|]; split; [right| |right|]; reflexivity. }
  destruct body as [data|]; [|simpl; split; [auto|split; [right|]; reflexivity]].
  cbn [fst snd].
  assert (Hput : forall g k g', assoc_get (cache w) k = Some g' ->
                 assoc_get (assoc_put (cache w) url g) k = Some g').
  { intros g k g' Hk. rewrite assoc_get_put_other; [exact Hk|]. intro E; subst; congruence. }
  destruct data as [| | | | | |kvs]; cbn;
    try (destruct (obj_lookup kvs _) as [v|]; cbn; try destruct v; cbn);
    (split; [intros k g' Hk; try (apply Hput); exact Hk|split; [right|]; reflexivity]).
Qed.

(** The same non-object JSON body makes [get_player_archives] raise
    AttributeError but makes [get_archive_games] return no games, cache
    the empty list and record one request. *)
Theorem non_object_index_vs_archive (j : Json) (username url : pystr) (w : world) :
  (forall kvs, j <> JObj kvs) -> username <> [] -> assoc_get (cache w) url = None ->
  fst (get_player_archives (fun _ _ => RResp 200 (Some j)) username w) = Exn AttributeError
  /\ get_archive_games (fun _ _ => RResp 200 (Some j)) url w
     = (Ok ([], []), mk_world (assoc_put (cache w) url []) (requests w ++ [url]) (files w)).
Proof.
  intros Hj Hu Hc. split.
  - unfold get_player_archives.
    destruct (seqb username []) eqn:E; [apply seqb_eq in E; contradiction|].
    destruct j as [| | | | | |kvs]; try (exfalso; exact (Hj kvs eq_refl)); reflexivity.
  - unfold get_archive_games. rewrite Hc.
    destruct j as [| | | | | |kvs]; try (exfalso; exact (Hj kvs eq_refl)); reflexivity.
Qed.

Lemma non_object_index_vs_archive_witness :
  (forall kvs, JArr [] <> JObj kvs) /\ py "alice99" <> [] /\ assoc_get (cache w0) archive_url = None
  /\ fst (get_player_archives (fun _ _ => RResp 200 (Some (JArr []))) (py "alice99") w0)
     = Exn AttributeError
  /\ get_archive_games (fun _ _ => RResp 200 (Some (JArr []))) archive_url w0
     = (Ok ([], []), mk_world (assoc_put (cache w0) archive_url []) (requests w0 ++ [archive_url])
                              (files w0)).
Proof.
  assert (H1 : forall kvs, JArr [] <> JObj kvs) by discriminate.
  assert (H2 : py "alice99" <> []) by discriminate.
  assert (H3 : assoc_get (cache w0) archive_url = None) by reflexivity.
  split; [exact H1|]. split; [exact H2|]. split; [exact H3|].
  exact (non_object_index_vs_archive _ _ _ _ H1 H2 H3).
Defined.

Lemma get_player_archives_state (net : nat -> pystr -> response) (u : pystr) (w w' : world)
      (r : result (list Json * pystr)) :
  u <> [] -> get_player_archives net u w = (r, w') ->
  cache w' = cache w /\ files w' = files w /\ requests w' = requests w ++ [index_url u].
Proof.
  intros Hu H. unfold get_player_archives in H.
  destruct (seqb u []) eqn:E; [apply seqb_eq in E; contradiction|].
  unfold bind, http_get, ret, lift, resp_json in H. cbn [fst snd cache requests files] in H.
  destruct (net _ _) as [m|m|code body];
    [injection H as _ <-; auto..|].
  destruct (Z.eqb code 404); [injection H as _ <-; auto|].
  destruct (Z.eqb code 403); [injection H as _ <-; auto|].
  destruct (negb (Z.eqb code 200)); [injection H as _ <-; auto|].
  destruct body as [data|]; [|injection H as _ <-; auto].
  destruct data as [| | | | | |kvs]; cbn in H; try (destruct (obj_lookup kvs _));
    injection H as _ <-; auto.
Qed.

(** When both archive indexes come back empty, [download_pairing_games]
    fails with the first non-empty index error (or the no-archive
    message), after exactly the two index requests, leaving the cache and
    the files unchanged. *)
Theorem no_archives_no_fetch (net : nat -> pystr -> response) (now : Z) (cw : pystr -> bool)
        (wu bu wd bd folder e1 e2 : pystr) (w w1 w2 : world) :
  api_name wu <> [] -> api_name bu <> [] ->
  get_player_archives net (api_name wu) w = (Ok ([], e1), w1) ->
  get_player_archives net (api_name bu) w1 = (Ok ([], e2), w2) ->
  download_pairing_games net now cw wu bu wd bd folder w
    = (Ok (false, if negb (seqb e1 []) then e1
                  else if negb (seqb e2 []) then e2 else py "未找到棋谱归档"), w2)
  /\ cache w2 = cache w /\ files w2 = files w
  /\ requests w2 = requests w ++ [index_url (api_name wu); index_url (api_name bu)].
Proof.
  intros Hw Hb H1 H2.
  destruct (get_player_archives_state _ _ _ _ _ Hw H1) as (C1 & F1 & R1).
  destruct (get_player_archives_state _ _ _ _ _ Hb H2) as (C2 & F2 & R2).
  split; [|split; [congruence|split; [congruence|]]].
  - unfold download_pairing_games.
    destruct (seqb (api_name wu) []) eqn:E1; [apply seqb_eq in E1; contradiction|].
    destruct (seqb (api_name bu) []) eqn:E2; [apply seqb_eq in E2; contradiction|].
    change (false || false) with false. unfold bind. cbv beta iota. rewrite H1. cbv beta iota. rewrite H2. reflexivity.
  - rewrite R2, R1, <- app_assoc. reflexivity.
Qed.

Lemma bind_ok {A B : Type} (m : M A) (k : A -> M B) (w w' : world) (b : B) :
  bind m k w = (Ok b, w') -> exists a w1, m w = (Ok a, w1) /\ k a w1 = (Ok b, w').
Proof.
  unfold bind. destruct (m w) as [[a|e] w1]; intro H; [eauto|discriminate].
Qed.

Lemma endswith_newline (s : pystr) :
  endswith (if endswith s (py "
") then s else s ++ py "
") (py "
") = true.
Proof.
  destruct (endswith s (py "
")) eqn:E; [exact E|].
  unfold endswith. rewrite rev_app_distr. reflexivity.
Qed.

Lemma save_games_writes (now : Z) (cw : pystr -> bool) (folder sw sb : pystr) (games : list Json) :
  forall idx sa w b w',
  save_games now cw folder sw sb idx games sa w = (Ok b, w') ->
  exists ws, files w' = apply_writes (files w) ws
    /\ Forall (fun pc => exists fname, fst pc = folder ++ py "/" ++ fname
                                      /\ endswith (snd pc) (py "
") = true) ws
    /\ ((b = sa /\ ws = []) \/ (b = true /\ ws <> [])).
Proof.
  induction games as [|game rest IH]; intros idx sa w b w' H.
  - injection H as <- <-. exists []. split; [reflexivity|]. split; [constructor|]. left; auto.
  - cbn [save_games] in H.
    apply bind_ok in H as (pgn & w1 & Hp & H). unfold lift in Hp. injection Hp as Hp <-.
    destruct (negb (truthy pgn)); [exact (IH _ _ _ _ _ H)|].
    apply bind_ok in H as (gt & w1 & Hg & H). unfold lift in Hg. injection Hg as Hg <-.
    cbv zeta in H.
    match type of H with
    | context [if negb (cw ?p) then _ else _] => set (path := p) in H
    end.
    destruct (negb (cw path)); [exact (IH _ _ _ _ _ H)|].
    destruct pgn as [| | | | s | |]; try (unfold bind, write_file, raise in H; discriminate H).
    apply bind_ok in H as (u & w2 & Hw & H). unfold write_file in Hw. injection Hw as _ <-.
    destruct (IH _ _ _ _ _ H) as (ws & Hf & Hall & Hb).
    exists ((path, if endswith s (py "
") then s else s ++ py "
") :: ws).
    split; [exact Hf|]. split.
    + constructor; [|exact Hall]. eexists; split; [reflexivity|apply endswith_newline].
    + right. split; [destruct Hb as [[-> _]|[-> _]]; reflexivity|discriminate].
Qed.

Lemma apply_writes_last (fs ws : list (pystr * pystr)) (p c : pystr) :
  assoc_get (apply_writes fs (ws ++ [(p, c)])) p = Some c.
Proof. unfold apply_writes. rewrite fold_left_app. apply assoc_get_put. Qed.

Lemma keeps_files_ret {A : Type} (a : A) : keeps_files (ret a).
Proof. intros w r w' H. injection H as _ <-. reflexivity. Qed.

Lemma keeps_files_lift {A : Type} (x : result A) : keeps_files (lift x).
Proof. intros w r w' H. injection H as _ <-. reflexivity. Qed.

Lemma keeps_files_bind {A B : Type} (m : M A) (k : A -> M B) :
  keeps_files m -> (forall a, keeps_files (k a)) -> keeps_files (bind m k).
Proof.
  intros Hm Hk w r w' H. unfold bind in H.
  destruct (m w) as [[a|e] w1] eqn:E.
  - rewrite (Hk a _ _ _ H). exact (Hm _ _ _ E).
  - injection H as _ <-. exact (Hm _ _ _ E).
Qed.

Lemma keeps_files_player_archives (net : nat -> pystr -> response) (u : pystr) :
  keeps_files (get_player_archives net u).
Proof.
  intros w r w' H. destruct (seqb u []) eqn:E.
  - unfold get_player_archives in H. rewrite E in H. injection H as _ <-. reflexivity.
  - apply seqb_false in E. exact (proj1 (proj2 (get_player_archives_state _ _ _ _ _ E H))).
Qed.

Lemma keeps_files_archive_games (net : nat -> pystr -> response) (url : pystr) :
  keeps_files (get_archive_games net url).
Proof.
  intros w r w' H. unfold get_archive_games in H.
  destruct (assoc_get (cache w) url) as [g0|]; [injection H as _ <-; reflexivity|].
  unfold bind, http_get in H; simpl in H.
  destruct (net (length (requests w)) url) as [m|m|code body];
    try (injection H as _ <-; reflexivity).
  destruct (negb (Z.eqb code 200)).
  - destruct (Z.eqb code 403); injection H as _ <-; reflexivity.
  - destruct body as [body|]; [|injection H as _ <-; reflexivity].
    cbn in H.
    destruct body as [| | | | | |kvs]; cbn in H.
    7: { destruct (obj_lookup kvs _) as [v|]; cbn in H; [destruct v; cbn in H|];
         injection H as _ <-; reflexivity. }
    all: injection H as _ <-; reflexivity.
Qed.

Lemma keeps_files_scan (net : nat -> pystr -> response) (now : Z) (wa ba : pystr) (urls : list pystr) :
  forall matched le, keeps_files (scan_archives net now wa ba urls matched le).
Proof.
  induction urls as [|u urls IH]; intros matched le; cbn [scan_archives].
  - apply keeps_files_ret.
  - apply keeps_files_bind; [apply keeps_files_archive_games|]. intros [games err].
    destruct (negb (seqb err [])); [apply IH|].
    apply keeps_files_bind; [apply keeps_files_lift|]. intro m'. apply IH.
Qed.

(** When [download_pairing_games] reports success, the files after the
    call are those before it updated by the call's own writes, in order;
    each of them is a file of the pairing folder whose content ends in a
    newline, and there is at least one, the last of which is present
    with its content at the end. *)
Theorem pairing_success_writes_pgn (net : nat -> pystr -> response) (now : Z) (cw : pystr -> bool)
        (wu bu wd bd folder d : pystr) (w w' : world) :
  download_pairing_games net now cw wu bu wd bd folder w = (Ok (true, d), w') ->
  exists ws fname s,
    files w' = apply_writes (files w) (ws ++ [(folder ++ py "/" ++ fname, s)])
    /\ endswith s (py "
") = true
    /\ assoc_get (files w') (folder ++ py "/" ++ fname) = Some s
    /\ Forall (fun pc => exists fname', fst pc = folder ++ py "/" ++ fname'
                                       /\ endswith (snd pc) (py "
") = true) ws.
Proof.
  intro H. unfold download_pairing_games in H.
  destruct (seqb (api_name wu) [] || seqb (api_name bu) []); [discriminate H|].
  apply bind_ok in H as ([a0 e0] & w1 & H1 & H).
  pose proof (keeps_files_player_archives _ _ _ _ _ H1) as F1.
  apply bind_ok in H as ([[a1 e1] stop] & w2 & H2 & H).
  assert (F2 : files w2 = files w1).
  { destruct a0 as [|x a0].
    - apply bind_ok in H2 as ([b0 eb] & w1' & Hb & H2).
      pose proof (keeps_files_player_archives _ _ _ _ _ Hb) as Fb.
      destruct b0; injection H2 as _ E; congruence.
    - injection H2 as _ E; congruence. }
  destruct stop; [discriminate H|].
  apply bind_ok in H as (urls & w3 & H3 & H).
  pose proof (keeps_files_lift _ _ _ _ H3) as F3.
  apply bind_ok in H as ([matched le] & w4 & H4 & H).
  pose proof (keeps_files_scan _ _ _ _ _ _ _ _ _ _ H4) as F4.
  destruct matched as [|g gs].
  - repeat match type of H with
           | context [if ?c then _ else _] => destruct c
           end; discriminate H.
  - apply bind_ok in H as (saved & w5 & Hs & H).
    destruct saved; [|discriminate H].
    injection H as _ <-.
    destruct (save_games_writes _ _ _ _ _ _ _ _ _ _ _ Hs) as (ws & Hf & Hall & Hb).
    destruct Hb as [[E _]|[_ Hne]]; [discriminate E|].
    destruct (exists_last Hne) as (ws' & [p c] & Ews). subst ws.
    apply Forall_app in Hall as [Hall Hlast].
    inversion Hlast as [|? ? (fname & Ep & Ec) _]; subst. cbn [fst snd] in Ep, Ec. subst p.
    exists ws', fname, c.
    assert (Hw : files w5 = apply_writes (files w) (ws' ++ [(folder ++ py "/" ++ fname, c)]))
      by (rewrite Hf, F4, F3, F2, F1; reflexivity).
    split; [exact Hw|]. split; [exact Ec|]. split; [rewrite Hw; apply apply_writes_last|].
    exact Hall.
Qed.

Lemma download_loop_counts (net : nat -> pystr -> response) (now : Z) (cw : pystr -> bool)
      (folder : pystr) (ps : list pairing) :
  forall idx success failed w s' f' w',
  download_loop net now cw folder idx ps success failed w = (Ok (s', f'), w') ->
  (s' + length f' = success + length failed + length ps)%nat.
Proof.
  induction ps as [|p rest IH]; intros idx success failed w s' f' w' H.
  - injection H as <- <- _. simpl; lia.
  - cbn [download_loop] in H.
    destruct (_ || _).
    + apply IH in H. rewrite length_app in H. simpl in *. lia.
    + apply bind_ok in H as ([ok detail] & w1 & _ & H).
      destruct ok; apply IH in H; rewrite ?length_app in H; simpl in *; lia.
Qed.

(** A completed batch counts every pairing once, as a success or a
    failure, and leaves the report at [下载报告.txt] in the round folder:
    a header with the local time of writing, a rule of 60 [=], the class,
    the round, the counts, a blank line and the failure lines. *)
Theorem download_games_report (net : nat -> pystr -> response) (now : Z) (cw : pystr -> bool)
        (report_time : Z) (class_name round_name folder : pystr) (ps : list pairing) (w w' : world)
        (total success : nat) (failed : list pystr) :
  download_games net now cw report_time class_name round_name folder ps w
    = (Ok (total, success, failed), w') ->
  total = length ps /\ (success + length failed = length ps)%nat
  /\ assoc_get (files w') (folder ++ py "/下载报告.txt")
     = Some (report_text report_time class_name round_name total success failed).
Proof.
  intro H. unfold download_games in H.
  apply bind_ok in H as ([s f] & w1 & Hl & H).
  apply bind_ok in H as (u & w2 & Hw & H).
  unfold write_file in Hw. injection Hw as _ <-.
  injection H as <- <- <- <-.
  apply download_loop_counts in Hl. simpl in Hl.
  split; [reflexivity|]. split; [lia|]. cbn [files]. apply assoc_get_put.
Qed.

Lemma download_loop_unresolved (net : nat -> pystr -> response) (now : Z) (cw : pystr -> bool)
      (folder : pystr) (ps : list pairing) :
  (forall p, In p ps -> p_white_username p = NOT_FOUND \/ p_black_username p = NOT_FOUND) ->
  forall idx success failed w,
  exists f', download_loop net now cw folder idx ps success failed w
             = (Ok (success, failed ++ f'), w) /\ length f' = length ps.
Proof.
  intro Hu. induction ps as [|p rest IH]; intros idx success failed w.
  - exists []. rewrite app_nil_r. split; reflexivity.
  - cbn [download_loop].
    assert (Hp : seqb (p_white_username p) NOT_FOUND || seqb (p_black_username p) NOT_FOUND = true).
    { destruct (Hu p (or_introl eq_refl)) as [E|E]; rewrite E, seqb_refl; [reflexivity|apply orb_true_r]. }
    rewrite Hp.
    destruct (IH (fun q Hq => Hu q (or_intror Hq)) (S idx) success
                 (failed ++ [(py "第" ++ str_N (N.of_nat idx) ++ py "局 " ++ p_white p ++ py " vs "
                              ++ p_black p) ++ py " (用户名未匹配)"]) w) as (f' & E & Hl).
    eexists. split.
    + cbv zeta. rewrite E, <- app_assoc. reflexivity.
    + simpl. rewrite Hl. reflexivity.
Qed.

(** A batch in which every pairing has an unresolved username makes no
    request and changes no cache entry: every pairing is a failure and
    only the report is written. *)
Theorem unresolved_batch_no_request (net : nat -> pystr -> response) (now : Z) (cw : pystr -> bool)
        (report_time : Z) (class_name round_name folder : pystr) (ps : list pairing) (w : world) :
  (forall p, In p ps -> p_white_username p = NOT_FOUND \/ p_black_username p = NOT_FOUND) ->
  exists failed,
    download_games net now cw report_time class_name round_name folder ps w
    = (Ok (length ps, 0%nat, failed),
       mk_world (cache w) (requests w)
                (assoc_put (files w) (folder ++ py "/下载报告.txt")
                           (report_text report_time class_name round_name (length ps) 0%nat failed)))
    /\ length failed = length ps.
Proof.
  intro Hu. destruct (download_loop_unresolved net now cw folder ps Hu 1 0 [] w) as (f' & E & Hl).
  exists f'. split; [|exact Hl].
  unfold download_games, bind. rewrite E. reflexivity.
Qed.

(** A completed [scan_games] keeps exactly the games accepted by
    [keep_game], in order. *)
Theorem scan_games_filter (wa ba : pystr) (cut : Z) (games : list Json) (matched : list Json) :
  scan_games wa ba cut games [] = Ok matched ->
  matched = filter (fun g => match keep_game wa ba cut g with Ok b => b | Exn _ => false end) games
  /\ forall g, In g matched -> keep_game wa ba cut g = Ok true.
Proof.
  assert (G : forall games acc m, scan_games wa ba cut games acc = Ok m ->
    m = acc ++ filter (fun g => match keep_game wa ba cut g with Ok b => b | Exn _ => false end) games
    /\ forall g, In g games -> exists b, keep_game wa ba cut g = Ok b).
  { induction games0 as [|g gs IH]; intros acc m H; simpl in H.
    - injection H as <-. split; [rewrite app_nil_r; reflexivity|intros ? []].
    - destruct (keep_game wa ba cut g) as [b|e] eqn:Ek; [|discriminate H].
      cbn [rbind] in H. apply IH in H as [Hm Hall]. split.
      + rewrite Hm. simpl. rewrite Ek. destruct b; simpl; [rewrite <- app_assoc; reflexivity|].
        reflexivity.
      + intros g' [<-|Hg]; [exists b; exact Ek|exact (Hall g' Hg)]. }
  intro H. destruct (G _ _ _ H) as [Hm Hall]. split; [exact Hm|].
  intros g Hg. rewrite Hm in Hg. apply filter_In in Hg as [Hin Hk].
  destruct (Hall g Hin) as [b Eb]. rewrite Eb in Hk |- *. subst; reflexivity.
Qed.

Lemma try_patterns_ok (ps : list regex) (line white black : pystr) :
  Pairing.try_patterns ps line = Some (white, black) ->
  white <> [] /\ black <> [] /\ isdigit white = false /\ isdigit black = false
  /\ strip white = white /\ strip black = black.
Proof.
  induction ps as [|p ps IH]; simpl; [discriminate|].
  destruct (search true line p) as [[[i j] c]|]; [|exact IH].
  destruct (negb (seqb (strip (group line c 1)) []) && negb (seqb (strip (group line c 2)) [])
            && negb (isdigit (strip (group line c 1))) && negb (isdigit (strip (group line c 2))))
    eqn:E; [|exact IH].
  intro H; injection H as <- <-.
  apply andb_true_iff in E as [E E4]. apply andb_true_iff in E as [E E3].
  apply andb_true_iff in E as [E1 E2].
  apply negb_true_iff in E1, E2, E3, E4. apply seqb_false in E1, E2.
  repeat split; try assumption; apply strip_idem.
Qed.

(** [parse_pairings_content] yields at most one pairing per line, each
    with non-empty, stripped, non-numeric names and the usernames that
    [find_username] gives for them. *)
Theorem parse_pairings_wellformed (st : roster) (content : pystr) :
  (length (Parse.parse_pairings_content st content) <= length (splitlines content))%nat
  /\ forall p, In p (Parse.parse_pairings_content st content) ->
     p_white p <> [] /\ p_black p <> []
     /\ isdigit (p_white p) = false /\ isdigit (p_black p) = false
     /\ strip (p_white p) = p_white p /\ strip (p_black p) = p_black p
     /\ p_white_username p = Teacher.find_username st (p_white p)
     /\ p_black_username p = Teacher.find_username st (p_black p).
Proof.
  unfold Parse.parse_pairings_content. split.
  - induction (splitlines content) as [|raw l IH]; simpl; [lia|].
    rewrite length_app.
    destruct (Pairing.normalize raw) as [line|]; [|simpl; lia].
    destruct (Parse.extract_pairing st line); simpl; lia.
  - intros p Hp. apply in_flat_map in Hp as (raw & _ & Hp).
    destruct (Pairing.normalize raw) as [line|]; [|destruct Hp].
    destruct (Parse.extract_pairing st line) as [q|] eqn:Eq; [|destruct Hp].
    destruct Hp as [<-|[]].
    unfold Parse.extract_pairing in Eq.
    destruct (Pairing.extract_names line) as [[white black]|] eqn:En; [|discriminate].
    injection Eq as <-. simpl.
    destruct (try_patterns_ok _ _ _ _ En) as (H1 & H2 & H3 & H4 & H5 & H6).
    repeat split; assumption.
Qed.

Import Classes.

Lemma put_absent {A : Type} (l : list (pystr * A)) (k : pystr) (v : A) :
  ~ In k (map fst l) -> assoc_put l k v = l ++ [(k, v)].
Proof.
  induction l as [|[k0 v0] l IH]; simpl; intro H; [reflexivity|].
  destruct (seqb k0 k) eqn:E; [apply seqb_eq in E; subst; tauto|].
  rewrite IH by tauto; reflexivity.
Qed.

Lemma assoc_get_notin {A : Type} (l : list (pystr * A)) (k : pystr) :
  ~ In k (map fst l) -> assoc_get l k = None.
Proof.
  induction l as [|[k0 v0] l IH]; simpl; intro H; [reflexivity|].
  destruct (seqb k0 k) eqn:E; [apply seqb_eq in E; subst; tauto|]. apply IH; tauto.
Qed.

Lemma assoc_get_none_notin {A : Type} (l : list (pystr * A)) (k : pystr) :
  assoc_get l k = None -> ~ In k (map fst l).
Proof.
  induction l as [|[k0 v0] l IH]; simpl; intros H; [tauto|].
  destruct (seqb k0 k) eqn:E; [discriminate|]. apply seqb_false in E.
  intros [E'|Hi]; [contradiction|exact (IH H Hi)].
Qed.

Lemma keys_put_existing {A : Type} (l : list (pystr * A)) (k : pystr) (v : A) :
  assoc_get l k <> None -> map fst (assoc_put l k v) = map fst l.
Proof.
  induction l as [|[k0 v0] l IH]; simpl; intro H; [contradiction|].
  destruct (seqb k0 k) eqn:E; simpl.
  - apply seqb_eq in E; subst; reflexivity.
  - rewrite IH by exact H; reflexivity.
Qed.

Lemma obj_lookup_app_last (kvs : list (pystr * Json)) (k : pystr) (v : Json) :
  obj_lookup (kvs ++ [(k, v)]) k = Some v.
Proof. unfold obj_lookup. rewrite fold_left_app. simpl. rewrite seqb_refl. reflexivity. Qed.

Lemma refresh_keys (cd : classes) (c : pystr) :
  map fst (snd (refresh_students_ref cd c)) = map fst cd.
Proof.
  unfold refresh_students_ref. destruct (seqb c []); [reflexivity|].
  destruct (assoc_get cd c) as [[| | | | | |kvs]|] eqn:E; try reflexivity.
  destruct (obj_lookup kvs _); [reflexivity|]. simpl.
  apply keys_put_existing. rewrite E; discriminate.
Qed.

Lemma refresh_idem (cd : classes) (c : pystr) :
  refresh_students_ref (snd (refresh_students_ref cd c)) c = refresh_students_ref cd c.
Proof.
  unfold refresh_students_ref. destruct (seqb c []); [reflexivity|].
  destruct (assoc_get cd c) as [j|] eqn:E; [|cbn [snd]; rewrite E; reflexivity].
  destruct j as [| | | | | |kvs]; try (cbn [snd]; rewrite E; reflexivity).
  destruct (obj_lookup kvs (py "students")) as [s|] eqn:Es.
  - cbn [snd]. rewrite E, Es. reflexivity.
  - cbn [snd]. rewrite assoc_get_put, obj_lookup_app_last. reflexivity.
Qed.

(** [create_class] refuses an empty or existing name; otherwise it
    appends the new class record, makes it current and its students
    empty. *)
Theorem create_class_spec (cd : classes) (name today : pystr) (desc_input : option pystr) :
  (create_class cd (Some name) desc_input today = None <-> name = [] \/ In name (map fst cd))
  /\ forall r, create_class cd (Some name) desc_input today = Some r ->
     r = (cd ++ [(name, new_class_info (match desc_input with Some d => d | None => [] end) today)],
          name, JObj []).
Proof.
  unfold create_class.
  destruct (seqb name []) eqn:En.
  { apply seqb_eq in En. split; [tauto|intros r H; discriminate]. }
  apply seqb_false in En.
  destruct (existsb (fun k => seqb k name) (map fst cd)) eqn:Ek.
  { apply existsb_exists in Ek as (k & Hk & Ek). apply seqb_eq in Ek; subst k.
    split; [tauto|intros r H; discriminate]. }
  assert (Hn : ~ In name (map fst cd)).
  { intro Hi. assert (existsb (fun k => seqb k name) (map fst cd) = true)
      by (apply existsb_exists; exists name; split; [exact Hi|apply seqb_refl]). congruence. }
  rewrite put_absent by exact Hn.
  unfold refresh_students_ref. rewrite (proj2 (seqb_false _ _) En).
  assert (Hg : assoc_get (cd ++ [(name, new_class_info (match desc_input with Some d => d | None => [] end) today)]) name
               = Some (new_class_info (match desc_input with Some d => d | None => [] end) today)).
  { clear Ek. induction cd as [|[k0 v0] cd IH]; simpl.
    - rewrite seqb_refl; reflexivity.
    - simpl in Hn. destruct (seqb k0 name) eqn:E0; [apply seqb_eq in E0; tauto|]. apply IH; tauto. }
  unfold new_class_info in Hg. rewrite Hg.
  split; [split; [discriminate|tauto]|]. intros r H; injection H as <-. reflexivity.
Qed.

(** [delete_class] on distinct class names removes exactly the current
    class, makes the first remaining class current (or none when no class
    is left), and leaves the students reference consistent with the
    result. *)
Theorem delete_class_spec (cd cd' : classes) (cur cur' : pystr) (students : Json) :
  NoDup (map fst cd) ->
  delete_class cd cur = Some (cd', cur', students) ->
  ~ In cur (map fst cd')
  /\ map fst cd' = map fst (Roster.dict_pop cd cur)
  /\ (cd' = [] -> cur' = [])
  /\ (cd' <> [] -> cur' = first_key cd' /\ In cur' (map fst cd'))
  /\ refresh_students_ref cd' cur' = (students, cd').
Proof.
  intros Hd H. unfold delete_class in H.
  destruct (seqb cur []); [discriminate|].
  set (cd1 := Roster.dict_pop cd cur) in H.
  set (c1 := match cd1 with [] => [] | _ => first_key cd1 end) in H.
  destruct (refresh_students_ref cd1 c1) as [s cd2] eqn:Er.
  injection H as <- <- <-.
  assert (Hk : map fst cd2 = map fst cd1).
  { change cd2 with (snd (s, cd2)). rewrite <- Er. apply refresh_keys. }
  split.
  { rewrite Hk. apply assoc_get_none_notin. apply assoc_get_pop_same; exact Hd. }
  split; [exact Hk|].
  assert (Hfk : first_key cd2 = first_key cd1).
  { destruct cd2 as [|[a x] l2], cd1 as [|[b y] l1]; simpl in Hk |- *; congruence. }
  split.
  { intro E. subst c1. destruct cd1; [reflexivity|]. rewrite E in Hk; discriminate. }
  split.
  { intro Hne. destruct cd1 as [|[b y] l1] eqn:E1.
    - destruct cd2; [contradiction|discriminate].
    - subst c1. split; [symmetry; exact Hfk|].
      rewrite Hk. left; reflexivity. }
  pose proof (refresh_idem cd1 c1) as Hi. rewrite Er in Hi. exact Hi.
Qed.

Import Load.












(** [load_data] raises TypeError when the stored current class is a
    list or dict, before any widget is built. *)
Theorem load_data_unhashable_current (kvs ckvs : list (pystr * Json)) (v : Json) :
  obj_lookup kvs (py "classes") = Some (JObj ckvs) ->
  obj_lookup kvs (py "current_class") = Some v ->
  match v with JArr _ | JObj _ => True | _ => False end ->
  load_data (Some (Some (JObj kvs))) = Raised LTypeError.
Proof.
  intros Hc Hv Hk. unfold load_data. rewrite Hc, Hv.
  destruct v; try contradiction; reflexivity.
Qed.


Lemma no_archives_no_fetch_witness :
  api_name (py "alice99") <> [] /\ api_name (py "bob77") <> []
  /\ get_player_archives net_timeout (api_name (py "alice99")) w0
     = (Ok ([], py "网络错误: timed out"), w_t1)
  /\ get_player_archives net_timeout (api_name (py "bob77")) w_t1
     = (Ok ([], py "网络错误: timed out"), w_t2)
  /\ download_pairing_games net_timeout 0%Z (fun _ => true) (py "alice99") (py "bob77")
       (py "Alice") (py "Bob") (py "out") w0
     = (Ok (false, if negb (seqb (py "网络错误: timed out") []) then py "网络错误: timed out"
                   else if negb (seqb (py "网络错误: timed out") []) then py "网络错误: timed out"
                   else py "未找到棋谱归档"), w_t2)
  /\ cache w_t2 = cache w0 /\ files w_t2 = files w0
  /\ requests w_t2 = requests w0 ++ [index_url (api_name (py "alice99"));
                                     index_url (api_name (py "bob77"))].
Proof.
  assert (H1 : api_name (py "alice99") <> []) by (vm_compute; discriminate).
  assert (H2 : api_name (py "bob77") <> []) by (vm_compute; discriminate).
  assert (H3 : get_player_archives net_timeout (api_name (py "alice99")) w0
               = (Ok ([], py "网络错误: timed out"), w_t1)) by (vm_compute; reflexivity).
  assert (H4 : get_player_archives net_timeout (api_name (py "bob77")) w_t1
               = (Ok ([], py "网络错误: timed out"), w_t2)) by (vm_compute; reflexivity).
  split; [exact H1|]. split; [exact H2|]. split; [exact H3|]. split; [exact H4|].
  exact (no_archives_no_fetch net_timeout 0%Z (fun _ => true) _ _ (py "Alice") (py "Bob")
           (py "out") _ _ w0 w_t1 w_t2 H1 H2 H3 H4).
Defined.

Lemma pairing_success_writes_pgn_witness :
  download_pairing_games net_one_archive now_recent (fun _ => true) (py "alice99") (py "bob77")
    (py "Alice") (py "Bob") (py "out") w0 = (Ok (true, py "保存 1 局"), snd sync_run)
  /\ exists ws fname s,
       files (snd sync_run) = apply_writes (files w0) (ws ++ [(py "out" ++ py "/" ++ fname, s)])
       /\ endswith s (py "
") = true
       /\ assoc_get (files (snd sync_run)) (py "out" ++ py "/" ++ fname) = Some s
       /\ Forall (fun pc => exists fname', fst pc = py "out" ++ py "/" ++ fname'
                                          /\ endswith (snd pc) (py "
") = true) ws.
Proof.
  assert (H : download_pairing_games net_one_archive now_recent (fun _ => true) (py "alice99")
                (py "bob77") (py "Alice") (py "Bob") (py "out") w0
              = (Ok (true, py "保存 1 局"), snd sync_run)) by (vm_compute; reflexivity).
  split; [exact H|]. exact (pairing_success_writes_pgn _ _ _ _ _ _ _ _ _ _ _ H).
Defined.

Lemma download_games_report_witness :
  download_games net_one_archive now_recent (fun _ => true) local_recent (py "C") (py "R") (py "out")
    [pairing_ab] w0 = (Ok (1%nat, 1%nat, []), snd batch_run)
  /\ assoc_get (files (snd batch_run)) (py "out" ++ py "/下载报告.txt")
     = Some (py "下载报告 - 2024-01-02 18:20:30
============================================================
班级: C
轮次: R
对阵总数: 1
成功下载: 1
失败: 0

").
Proof.
  assert (H : download_games net_one_archive now_recent (fun _ => true) local_recent (py "C")
                (py "R") (py "out") [pairing_ab] w0 = (Ok (1%nat, 1%nat, []), snd batch_run))
    by (vm_compute; reflexivity).
  split; [exact H|].
  rewrite (proj2 (proj2 (download_games_report _ _ _ _ _ _ _ _ _ _ _ _ _ H))).
  vm_compute; reflexivity.
Defined.

Lemma unresolved_batch_no_request_witness :
  download_games net_timeout 0%Z (fun _ => true) local_recent (py "C") (py "R") (py "out")
    [pairing_unresolved] w0
  = (Ok (1%nat, 0%nat, [py "第1局 Alice vs Bob (用户名未匹配)"]),
     mk_world [] [] [(py "out/下载报告.txt", py "下载报告 - 2024-01-02 18:20:30
============================================================
班级: C
轮次: R
对阵总数: 1
成功下载: 0
失败: 1

失败详情:
- 第1局 Alice vs Bob (用户名未匹配)
")]).
Proof.
  assert (H : forall p, In p [pairing_unresolved] ->
                        p_white_username p = NOT_FOUND \/ p_black_username p = NOT_FOUND)
    by (intros p [<-|[]]; left; reflexivity).
  destruct (unresolved_batch_no_request net_timeout 0%Z (fun _ => true) local_recent (py "C")
              (py "R") (py "out") _ w0 H) as (failed & E & _).
  rewrite E. pose proof E as E'. vm_compute in E'. injection E'; intros; subst failed.
  vm_compute. reflexivity.
Defined.

Lemma scan_games_filter_witness :
  scan_games (py "alice99") (py "bob77") 0%Z [game_ab; game_swapped] [] = Ok [game_ab]
  /\ [game_ab] = filter (fun g => match keep_game (py "alice99") (py "bob77") 0%Z g with
                                  | Ok b => b | Exn _ => false end) [game_ab; game_swapped]
  /\ forall g, In g [game_ab] -> keep_game (py "alice99") (py "bob77") 0%Z g = Ok true.
Proof.
  assert (H : scan_games (py "alice99") (py "bob77") 0%Z [game_ab; game_swapped] []
              = Ok [game_ab]) by (vm_compute; reflexivity).
  split; [exact H|]. exact (scan_games_filter _ _ _ _ _ H).
Defined.

Lemma delete_class_spec_witness :
  NoDup (map fst classes_ab)
  /\ delete_class classes_ab (py "A") = Some ([(py "B", JObj [(py "students", JObj [])])], py "B", JObj [])
  /\ ~ In (py "A") (map fst [(py "B", JObj [(py "students", JObj [])])])
  /\ map fst [(py "B", JObj [(py "students", JObj [])])] = map fst (Roster.dict_pop classes_ab (py "A"))
  /\ ([(py "B", JObj [(py "students", JObj [])])] = [] -> py "B" = [])
  /\ ([(py "B", JObj [(py "students", JObj [])])] <> [] ->
      py "B" = first_key [(py "B", JObj [(py "students", JObj [])])]
      /\ In (py "B") (map fst [(py "B", JObj [(py "students", JObj [])])]))
  /\ refresh_students_ref [(py "B", JObj [(py "students", JObj [])])] (py "B")
     = (JObj [], [(py "B", JObj [(py "students", JObj [])])]).
Proof.
  assert (Hd : NoDup (map fst classes_ab))
    by (constructor; [intros [H|[]]; discriminate H | constructor; [intros []|constructor]]).
  assert (H : delete_class classes_ab (py "A")
              = Some ([(py "B", JObj [(py "students", JObj [])])], py "B", JObj []))
    by (vm_compute; reflexivity).
  split; [exact Hd|]. split; [exact H|]. exact (delete_class_spec _ _ _ _ _ Hd H).
Defined.


Lemma load_data_unhashable_current_witness :
  obj_lookup data_list_current (py "classes") = Some (JObj classes_one)
  /\ obj_lookup data_list_current (py "current_class") = Some (JArr [])
  /\ load_data (Some (Some (JObj data_list_current))) = Raised LTypeError.
Proof.
  assert (H1 : obj_lookup data_list_current (py "classes") = Some (JObj classes_one))
    by (vm_compute; reflexivity).
  assert (H2 : obj_lookup data_list_current (py "current_class") = Some (JArr []))
    by (vm_compute; reflexivity).
  split; [exact H1|]. split; [exact H2|].
  exact (load_data_unhashable_current _ _ _ H1 H2 I).
Defined.


Lemma mt_bol_off (icase : bool) (input : pystr) (f : nat) (r : regex) (i : nat) (c : caps)
      (k : nat -> caps -> option (nat * caps)) :
  (i <> 0)%nat -> mt icase input f (Cat Bol r) i c k = None.
Proof.
  intro Hi. destruct f as [|[|f]]; simpl; try reflexivity.
  destruct (Nat.eqb i 0) eqn:E; [apply Nat.eqb_eq in E; contradiction|reflexivity].
Qed.

Lemma search_from_bol_off (icase : bool) (input : pystr) (r : regex) (i n : nat) :
  (i <> 0)%nat -> search_from icase input (Cat Bol r) i n = None.
Proof.
  revert i; induction n as [|n IH]; intros i Hi; simpl;
    unfold match_at; rewrite mt_bol_off by exact Hi; [reflexivity|].
  apply IH; lia.
Qed.

(** A search for a pattern anchored with [^] starts at 0. *)
Lemma search_bol_start (icase : bool) (input : pystr) (r : regex) (i j : nat) (c : caps) :
  search icase input (Cat Bol r) = Some (i, j, c) -> i = 0%nat.
Proof.
  unfold search. destruct (length input) as [|n]; simpl;
    destruct (match_at icase input (Cat Bol r) 0) as [[j0 c0]|]; intro H;
    try (injection H as <- _ _; reflexivity); try discriminate H.
  rewrite search_from_bol_off in H by lia. discriminate H.
Qed.

Lemma strip_student_marker_suffix (line : pystr) :
  exists j, Roster.strip_student_marker line = skipn j line.
Proof.
  unfold Roster.strip_student_marker, Roster.student_marker_re. cbn [seq].
  destruct (search false line _) as [[[i j] c]|] eqn:E.
  - apply search_bol_start in E. subst i. exists j. reflexivity.
  - exists 0%nat. reflexivity.
Qed.

Lemma drop_space_app (s t : pystr) :
  drop_space (s ++ t) = match drop_space s with [] => drop_space t | d => d ++ t end.
Proof.
  induction s as [|c s IH]; simpl; [reflexivity|].
  destruct (is_space c); [exact IH|reflexivity].
Qed.

Lemma strip_arrow (x : pystr) : exists y, strip (x ++ arrow) = y ++ arrow.
Proof.
  unfold strip. rewrite drop_space_app.
  assert (Ha : drop_space arrow = arrow) by reflexivity.
  assert (H : exists y, match drop_space x with [] => drop_space arrow | d => d ++ arrow end
                        = y ++ arrow).
  { destruct (drop_space x) as [|d l]; [exists []; exact Ha|exists (d :: l); reflexivity]. }
  destruct H as [y ->]. exists y.
  rewrite rev_app_distr.
  change (rev arrow) with [62; 45]%N.
  change (drop_space ([62; 45]%N ++ rev y)) with ([62; 45]%N ++ rev y).
  rewrite rev_app_distr, rev_involutive. reflexivity.
Qed.

Lemma skipn_arrow (y : pystr) (j : nat) :
  (exists y', skipn j (y ++ arrow) = y' ++ arrow)
  \/ skipn j (y ++ arrow) = [62%N] \/ skipn j (y ++ arrow) = [].
Proof.
  rewrite skipn_app.
  destruct (j - length y)%nat as [|[|m]] eqn:E.
  - left. exists (skipn j y). reflexivity.
  - right; left. rewrite skipn_all2 by lia. reflexivity.
  - right; right. rewrite skipn_all2 by lia. destruct m; reflexivity.
Qed.

Lemma rfind_arrow (y : pystr) (i : nat) (acc : option nat) :
  Roster.rfind_from arrow (y ++ arrow) i acc = Some (i + length y)%nat.
Proof.
  revert i acc; induction y as [|c y IH]; intros i acc; simpl.
  - rewrite Nat.add_0_r. reflexivity.
  - rewrite IH. f_equal. lia.
Qed.

Lemma first_sep_arrow (y : pystr) :
  Roster.first_sep Roster.separators (y ++ arrow) = Some (strip y, []).
Proof.
  change Roster.separators with (arrow :: tl Roster.separators). cbn [Roster.first_sep].
  unfold Roster.rsplit1. rewrite rfind_arrow. simpl (0 + _)%nat.
  rewrite firstn_app, Nat.sub_diag, firstn_all. simpl (firstn 0 _). rewrite app_nil_r.
  rewrite skipn_all2 by (rewrite length_app; simpl; lia). reflexivity.
Qed.

(** [TeacherChessApp.parse_students_list] stores nothing for a line that
    ends in "->", whatever comes before it (the part after the last arrow
    is empty). *)
Theorem teacher_arrow_line_skipped (x : pystr) :
  Roster.parse_student_line (x ++ py "->") = None.
Proof.
  change (py "->") with arrow. unfold Roster.parse_student_line.
  destruct (strip_arrow x) as [y Hy]. rewrite Hy.
  assert (Hne : seqb (y ++ arrow) [] = false) by (destruct y; reflexivity).
  rewrite Hne. cbv zeta.
  destruct (strip_student_marker_suffix (y ++ arrow)) as [j Hj]. rewrite Hj.
  destruct (skipn_arrow y j) as [[y' Hs]|[Hs|Hs]]; rewrite Hs.
  - destruct (strip_arrow y') as [y'' Hy'']. rewrite Hy'', first_sep_arrow.
    cbn iota beta. rewrite andb_false_r. reflexivity.
  - vm_compute. reflexivity.
  - vm_compute. reflexivity.
Qed.

Lemma contains_app_self (x a : pystr) : is_prefix a a = true -> contains (x ++ a) a = true.
Proof.
  intro Ha. induction x as [|c x IH]; simpl.
  - destruct a; simpl in *; [reflexivity|rewrite Ha; reflexivity].
  - rewrite IH, orb_true_r. reflexivity.
Qed.

Lemma contains_space_end (n : pystr) :
  contains (n ++ [32%N]) arrow = contains n arrow.
Proof.
  induction n as [|c n IH]; [reflexivity|].
  change (contains ((c :: n) ++ [32%N]) arrow)
    with (is_prefix arrow (c :: n ++ [32%N]) || contains (n ++ [32%N]) arrow).
  change (contains (c :: n) arrow) with (is_prefix arrow (c :: n) || contains n arrow).
  rewrite IH. f_equal.
  destruct n as [|d n]; reflexivity.
Qed.

Lemma split_sub_arrow (x cur : pystr) (f : nat) :
  (length x + 3 <= f)%nat -> contains (x ++ [32%N]) arrow = false ->
  SimpleRoster.split_sub_aux arrow f (x ++ [32; 45; 62]%N) cur = [rev cur ++ x ++ [32%N]; []].
Proof.
  revert cur f; induction x as [|c x IH]; intros cur f Hf Hc.
  - destruct f as [|[|[|f]]]; simpl in Hf; try lia. reflexivity.
  - destruct f as [|f]; simpl in Hf; [lia|].
    assert (Hp : is_prefix arrow ((c :: x) ++ [32; 45; 62]%N) = false).
    { change (contains ((c :: x) ++ [32%N]) arrow)
        with (is_prefix arrow (c :: x ++ [32%N]) || contains (x ++ [32%N]) arrow) in Hc.
      apply orb_false_iff in Hc as [Hc _]. rewrite <- Hc.
      destruct x as [|d x]; reflexivity. }
    change (SimpleRoster.split_sub_aux arrow (S f) ((c :: x) ++ [32; 45; 62]%N) cur)
      with (if is_prefix arrow ((c :: x) ++ [32; 45; 62]%N)
            then rev cur :: SimpleRoster.split_sub_aux arrow f (skipn (length arrow) ((c :: x) ++ [32; 45; 62]%N)) []
            else SimpleRoster.split_sub_aux arrow f (x ++ [32; 45; 62]%N) (c :: cur)).
    rewrite Hp, IH.
    + simpl. rewrite <- app_assoc. reflexivity.
    + lia.
    + change (contains ((c :: x) ++ [32%N]) arrow)
        with (is_prefix arrow (c :: x ++ [32%N]) || contains (x ++ [32%N]) arrow) in Hc.
      apply orb_false_iff in Hc as [_ Hc]. exact Hc.
Qed.

Lemma strip_space_end (n : pystr) : strip (n ++ [32%N]) = strip n.
Proof.
  unfold strip. rewrite drop_space_app.
  destruct (drop_space n) as [|d l] eqn:E; [reflexivity|].
  rewrite rev_app_distr. reflexivity.
Qed.

Lemma strip_keeps_nonspace_ends (n t : pystr) :
  n <> [] -> strip n = n -> NL (rev t) -> t <> [] -> strip (n ++ t) = n ++ t.
Proof.
  intros Hn Hs Ht Htn. destruct (strip_NL n) as [H1 _]. rewrite Hs in H1.
  apply strip_id.
  - destruct n; [contradiction|exact H1].
  - rewrite rev_app_distr. destruct (rev t) as [|c r] eqn:E.
    + destruct t; [contradiction|]. apply (f_equal (@length N)) in E.
      rewrite length_rev in E. discriminate E.
    + exact Ht.
Qed.

Lemma simple_marker_off (n : pystr) (rest : pystr) :
  is_decimal (hd 32%N n) = false -> n <> [] ->
  SimpleRoster.strip_simple_marker (n ++ rest) = n ++ rest.
Proof.
  intros Hd Hn. unfold SimpleRoster.strip_simple_marker, search.
  destruct n as [|c n]; [contradiction|]. simpl in Hd.
  set (input := (c :: n) ++ rest).
  assert (H0 : match_at false input SimpleRoster.simple_marker_re 0 = None).
  { unfold match_at. generalize (fuel input) as f. intro f.
    destruct f as [|[|[|[|[|f]]]]]; simpl; try reflexivity.
    all: unfold cls_ok; rewrite Hd; reflexivity. }
  assert (Hl : exists m, length input = S m) by (exists (length (n ++ rest)); reflexivity).
  destruct Hl as [m ->]. simpl. rewrite H0.
  unfold SimpleRoster.simple_marker_re. cbn [seq]. rewrite search_from_bol_off by lia. reflexivity.
Qed.

(** A line "name ->" (a stripped name without an arrow, not starting with
    a digit) is stored by [ChessToolTabs.parse_students_list] with an
    empty username, while [TeacherChessApp.parse_students_list] skips
    it. *)
Theorem simple_arrow_line_empty_username (n : pystr) :
  n <> [] -> strip n = n -> contains n (py "->") = false -> is_decimal (hd 32%N n) = false ->
  SimpleRoster.parse_line (n ++ py " ->") = Some (n, [])
  /\ Roster.parse_student_line (n ++ py " ->") = None.
Proof.
  intros Hn Hs Hc Hd.
  change (py "->") with arrow in Hc. change (py " ->") with [32; 45; 62]%N.
  split.
  - unfold SimpleRoster.parse_line.
    rewrite strip_keeps_nonspace_ends by (try exact Hn; try exact Hs; try reflexivity; discriminate).
    assert (Hne : seqb (n ++ [32; 45; 62]%N) [] = false) by (destruct n; [contradiction|reflexivity]).
    rewrite Hne. cbv zeta.
    rewrite simple_marker_off by assumption.
    change (py "->") with arrow.
    assert (Hct : contains (n ++ [32; 45; 62]%N) arrow = true).
    { change [32; 45; 62]%N with ([32%N] ++ arrow). rewrite app_assoc.
      apply contains_app_self. reflexivity. }
    rewrite Hct. unfold SimpleRoster.split_sub.
    rewrite (split_sub_arrow n [] (S (length (n ++ [32; 45; 62]%N))))
      by (try (rewrite length_app; simpl; lia); rewrite contains_space_end; exact Hc).
    change (rev [] ++ n ++ [32%N]) with (n ++ [32%N]). rewrite strip_space_end, Hs. reflexivity.
  - change [32; 45; 62]%N with ([32%N] ++ arrow). rewrite app_assoc.
    apply teacher_arrow_line_skipped.
Qed.

Lemma split_nospace (w cur : pystr) :
  forallb (fun c => negb (is_space c)) w = true -> cur ++ w <> [] ->
  split_aux w cur = [rev cur ++ w].
Proof.
  revert cur; induction w as [|c w IH]; intros cur Hw Hne; simpl in *.
  - rewrite app_nil_r in *. destruct cur; [contradiction|reflexivity].
  - apply andb_true_iff in Hw as [Hc Hw]. apply negb_true_iff in Hc. rewrite Hc.
    rewrite IH by (try exact Hw; discriminate). simpl. rewrite <- app_assoc. reflexivity.
Qed.

Lemma rfind_none (sep : pystr) (d : N) (s : pystr) (i : nat) :
  hd 0%N sep = d -> sep <> [] -> forallb (fun c => negb (N.eqb c d)) s = true ->
  Roster.rfind_from sep s i None = None.
Proof.
  intros Hd Hsep. revert i; induction s as [|c s IH]; intros i Hs; simpl; [reflexivity|].
  apply andb_true_iff in Hs as [Hc Hs]. apply negb_true_iff in Hc.
  destruct sep as [|d0 sep]; [contradiction|]. simpl in Hd; subst d0. simpl.
  rewrite N.eqb_sym, Hc. simpl. apply IH; exact Hs.
Qed.

Lemma contains_none (a s : pystr) (d : N) :
  hd 0%N a = d -> a <> [] -> forallb (fun c => negb (N.eqb c d)) s = true ->
  contains s a = false.
Proof.
  intros Hd Ha. induction s as [|c s IH]; intro Hs.
  - destruct a; [contradiction|reflexivity].
  - simpl in Hs. apply andb_true_iff in Hs as [Hc Hs]. apply negb_true_iff in Hc.
    change (contains (c :: s) a) with (is_prefix a (c :: s) || contains s a).
    rewrite IH by exact Hs. destruct a as [|d0 a]; [contradiction|]. simpl in Hd; subst d0.
    simpl. rewrite N.eqb_sym, Hc. reflexivity.
Qed.

Lemma student_marker_off (c : N) (rest : pystr) :
  is_space c = false -> is_decimal c = false ->
  Roster.strip_student_marker (c :: rest) = c :: rest.
Proof.
  intros Hs Hd.
  assert (H12 : N.eqb 12288 c = false).
  { destruct (N.eqb 12288 c) eqn:E; [|reflexivity]. apply N.eqb_eq in E; subst c. discriminate Hs. }
  unfold Roster.strip_student_marker, search.
  assert (H0 : match_at false (c :: rest) Roster.student_marker_re 0 = None).
  { unfold match_at. generalize (fuel (c :: rest)) as f. intro f.
    destruct f as [|[|[|[|[|[|f]]]]]]; simpl; try reflexivity.
    all: assert (Hs' : cls_ok false is_space c = false) by (unfold cls_ok; rewrite Hs; reflexivity).
    all: assert (Hd' : cls_ok false is_decimal c = false) by (unfold cls_ok; rewrite Hd; reflexivity).
    all: assert (H12' : cls_ok false (N.eqb 12288) c = false) by (unfold cls_ok; rewrite H12; reflexivity).
    all: rewrite ?Hs', ?Hd', ?H12'; reflexivity. }
  change (length (c :: rest)) with (S (length rest)). simpl. rewrite H0.
  unfold Roster.student_marker_re. cbn [seq]. rewrite search_from_bol_off by lia. reflexivity.
Qed.

(** A single word (no white space, no leading digit, none of - : ： —)
    is stored by [ChessToolTabs.parse_students_list] as its own username,
    while [TeacherChessApp.parse_students_list] skips it. *)
Theorem bare_word_line (w : pystr) :
  w <> [] -> forallb (fun c => negb (is_space c)) w = true -> is_decimal (hd 32%N w) = false ->
  forallb (fun c => negb (inb c [45; 58; 65306; 8212]%N)) w = true ->
  SimpleRoster.parse_line w = Some (w, w) /\ Roster.parse_student_line w = None.
Proof.
  intros Hn Hsp Hd Hsep.
  assert (Hnot : forall d, inb d [45; 58; 65306; 8212]%N = true ->
                           forallb (fun c => negb (N.eqb c d)) w = true).
  { intros d Hd'. apply forallb_forall. intros c Hc.
    pose proof (proj1 (forallb_forall _ w) Hsep c Hc) as H. cbv beta in H.
    apply negb_true_iff. destruct (N.eqb c d) eqn:E; [|reflexivity].
    apply N.eqb_eq in E; subst d. rewrite Hd' in H. discriminate H. }
  assert (Hstrip : strip w = w).
  { apply strip_id.
    - destruct w as [|c w']; [contradiction|]. simpl in Hsp |- *.
      apply andb_true_iff in Hsp as [Hc _]. apply negb_true_iff; exact Hc.
    - assert (Hr : forallb (fun c => negb (is_space c)) (rev w) = true).
      { apply forallb_forall. intros c Hc. apply in_rev in Hc.
        exact (proj1 (forallb_forall _ w) Hsp c Hc). }
      destruct (rev w) as [|c r]; [exact I|]. simpl in Hr |- *.
      apply andb_true_iff in Hr as [Hc _]. apply negb_true_iff; exact Hc. }
  assert (Hne : seqb w [] = false) by (destruct w; [contradiction|reflexivity]).
  assert (Hsplit : split w = [w]).
  { unfold split. rewrite split_nospace by (try exact Hsp; exact Hn). reflexivity. }
  split.
  - unfold SimpleRoster.parse_line. rewrite Hstrip, Hne. cbv zeta.
    rewrite <- (app_nil_r w), simple_marker_off by (try exact Hd; exact Hn).
    rewrite app_nil_r.
    rewrite (contains_none (py "->") w 45%N) by (try reflexivity; try discriminate; apply Hnot; reflexivity).
    rewrite Hsplit. reflexivity.
  - unfold Roster.parse_student_line. rewrite Hstrip, Hne. cbv zeta.
    destruct w as [|c w'] eqn:Ew; [contradiction|].
    rewrite <- Ew in *.
    assert (Hc : is_space c = false).
    { subst w. simpl in Hsp. apply andb_true_iff in Hsp as [Hc _]. apply negb_true_iff; exact Hc. }
    rewrite Ew, student_marker_off by (try exact Hc; subst w; exact Hd). rewrite <- Ew, Hstrip.
    assert (Hf : Roster.first_sep Roster.separators w = None).
    { change Roster.separators with [[45; 62]; [65306]; [58]; [45]; [8212]]%N.
      cbn [Roster.first_sep]. unfold Roster.rsplit1.
      rewrite (rfind_none _ 45%N), (rfind_none _ 65306%N), (rfind_none _ 58%N),
        (rfind_none _ 45%N), (rfind_none _ 8212%N);
        try reflexivity; try discriminate; apply Hnot; reflexivity. }
    rewrite Hf, Hsplit. reflexivity.
Qed.

Lemma simple_arrow_line_empty_username_witness :
  py "Alice" <> [] /\ strip (py "Alice") = py "Alice" /\ contains (py "Alice") (py "->") = false
  /\ is_decimal (hd 32%N (py "Alice")) = false
  /\ SimpleRoster.parse_line (py "Alice" ++ py " ->") = Some (py "Alice", [])
  /\ Roster.parse_student_line (py "Alice" ++ py " ->") = None.
Proof.
  assert (H1 : py "Alice" <> []) by discriminate.
  assert (H2 : strip (py "Alice") = py "Alice") by (vm_compute; reflexivity).
  assert (H3 : contains (py "Alice") (py "->") = false) by (vm_compute; reflexivity).
  assert (H4 : is_decimal (hd 32%N (py "Alice")) = false) by (vm_compute; reflexivity).
  split; [exact H1|]. split; [exact H2|]. split; [exact H3|]. split; [exact H4|].
  exact (simple_arrow_line_empty_username _ H1 H2 H3 H4).
Defined.

Lemma bare_word_line_witness :
  py "single" <> [] /\ forallb (fun c => negb (is_space c)) (py "single") = true
  /\ is_decimal (hd 32%N (py "single")) = false
  /\ forallb (fun c => negb (inb c [45; 58; 65306; 8212]%N)) (py "single") = true
  /\ SimpleRoster.parse_line (py "single") = Some (py "single", py "single")
  /\ Roster.parse_student_line (py "single") = None.
Proof.
  assert (H1 : py "single" <> []) by discriminate.
  assert (H2 : forallb (fun c => negb (is_space c)) (py "single") = true) by (vm_compute; reflexivity).
  assert (H3 : is_decimal (hd 32%N (py "single")) = false) by (vm_compute; reflexivity).
  assert (H4 : forallb (fun c => negb (inb c [45; 58; 65306; 8212]%N)) (py "single") = true)
    by (vm_compute; reflexivity).
  split; [exact H1|]. split; [exact H2|]. split; [exact H3|]. split; [exact H4|].
  exact (bare_word_line _ H1 H2 H3 H4).
Defined.
